(** * A shallow embedding of the SD miner worker (sd-miner-v1.3.1.py)

    The development follows the source file top to bottom:

    - [PyNum]: Python's [float] as binary64 numbers, and the limit
      [int] puts on the digits of a numeral;
    - [PyStr]: the Python string built-ins the miner relies on
      ([in], [find], [split], [strip], [replace], [float], [int]);
    - [Re]: the fragment of Python regular expressions used by
      [parse_log_file], with greedy repetition, backtracking and groups;
    - the log aggregator [parse_log_file];
    - the worker side ([send_miner_request], [check_and_reload_model],
      [process_jobs], one iteration of the loop of [main]) written in a
      small state-and-exception monad;
    - the supervisor entry point (the [__main__] block).

    The runtime is CPython 3.11.  The elapsed times [parse_log_file]
    reads with [float] and averages are binary64 numbers, with the
    rounding of every conversion, sum and quotient ([PyNum]); [int]
    refuses more than 4300 digits.  The readings of [time.time()] in the
    worker are embedded as rationals [Q]: every comparison of the source
    is kept.  Text is embedded as Rocq [string]s, that is, characters
    range over one byte.

    The functions of [sd_mining_core], [json.loads], NVML,
    [logging.basicConfig] and [torch.cuda] are not part of the modelled
    file.  They enter as parameters: [post_request] may answer, answer
    [None] or raise, [json.loads] and [logging.basicConfig] may raise,
    [response.json()] may raise; the remaining ones are taken to
    return. *)

From Stdlib Require Import Bool Arith ZArith QArith Lia Lqa List Ascii String.
From Stdlib Require Import SpecFloat.
Import ListNotations.

Local Open Scope string_scope.
Local Open Scope list_scope.

(** ** Python numbers *)

Module PyNum.

(** A Python [float] is an IEEE 754 binary64 number. *)
Definition float : Type := spec_float.

Definition prec : Z := 53.
Definition emax : Z := 1024.

(** The binary64 number nearest to [n / d], ties to even: what
    [float] makes of a decimal numeral and [/] of two integers. *)
Definition of_ratio (n : Z) (d : positive) : float :=
  match n with
  | Z0 => S754_zero false
  | Zpos m => SFdiv prec emax (S754_finite false m 0) (S754_finite false d 0)
  | Zneg m => SFdiv prec emax (S754_finite true m 0) (S754_finite false d 0)
  end.

(** [float(n)] for an integer [n]. *)
Definition of_int (n : Z) : float := of_ratio n 1.

Definition add : float -> float -> float := SFadd prec emax.
Definition div : float -> float -> float := SFdiv prec emax.

(** A Python number: an [int] or a [float]. *)
Inductive number : Type :=
| PyInt (z : Z)
| PyFloat (f : float).

(** [sys.get_int_max_str_digits()]: [int] raises [ValueError] on a
    numeral with more digits. *)
Definition int_max_str_digits : nat := 4300.

End PyNum.

(** ** Python string built-ins *)

Module PyStr.

Definition dquote : ascii := ascii_of_nat 34.
Definition squote : ascii := ascii_of_nat 39.
Definition newline : ascii := ascii_of_nat 10.

Definition chr (c : ascii) : string := String c EmptyString.

(** [s[:n]] and [s[n:]]. *)
Fixpoint take (n : nat) (s : string) : string :=
  match n, s with
  | S n', String c s' => String c (take n' s')
  | _, _ => EmptyString
  end.

Fixpoint drop (n : nat) (s : string) : string :=
  match n, s with
  | S n', String _ s' => drop n' s'
  | _, _ => s
  end.

(** [pat in s]. *)
Fixpoint contains (pat s : string) : bool :=
  if prefix pat s then true
  else match s with
       | EmptyString => false
       | String _ s' => contains pat s'
       end.

(** [s.find(pat)], with [None] for Python's [-1]. *)
Fixpoint find (pat s : string) : option nat :=
  if prefix pat s then Some 0%nat
  else match s with
       | EmptyString => None
       | String _ s' => option_map S (find pat s')
       end.

(** [s.split(sep)] for a non-empty separator: cut at the leftmost
    occurrence and go on after it.  Every cut removes at least one
    character, so [length s] rounds are enough. *)
Fixpoint split_fuel (fuel : nat) (sep s : string) : list string :=
  match fuel with
  | O => [s]
  | S fuel' =>
      match find sep s with
      | None => [s]
      | Some n => take n s :: split_fuel fuel' sep (drop (n + length sep) s)
      end
  end.

Definition split (sep s : string) : list string :=
  split_fuel (length s) sep s.

(** [sep.join(parts)]. *)
Fixpoint join (sep : string) (parts : list string) : string :=
  match parts with
  | [] => EmptyString
  | [p] => p
  | p :: ps => p ++ sep ++ join sep ps
  end.

(** [s.replace(old, new)] for a non-empty [old]. *)
Definition replace (old new s : string) : string :=
  join new (split old s).

Definition mem (c : ascii) (chars : string) : bool :=
  existsb (Ascii.eqb c) (list_ascii_of_string chars).

Fixpoint lstrip (chars s : string) : string :=
  match s with
  | EmptyString => EmptyString
  | String c s' => if mem c chars then lstrip chars s' else s
  end.

Fixpoint rstrip (chars s : string) : string :=
  match s with
  | EmptyString => EmptyString
  | String c s' =>
      match rstrip chars s' with
      | EmptyString => if mem c chars then EmptyString else chr c
      | r => String c r
      end
  end.

(** [s.strip(chars)]. *)
Definition strip (chars s : string) : string :=
  rstrip chars (lstrip chars s).

Definition is_digit (c : ascii) : bool :=
  (48 <=? nat_of_ascii c)%nat && (nat_of_ascii c <=? 57)%nat.

Definition digit_val (c : ascii) : Z := Z.of_nat (nat_of_ascii c - 48).

Fixpoint digits_val (acc : Z) (s : string) : Z :=
  match s with
  | EmptyString => acc
  | String c s' => digits_val (10 * acc + digit_val c) s'
  end.

Fixpoint all_digits (s : string) : bool :=
  match s with
  | EmptyString => true
  | String c s' => is_digit c && all_digits s'
  end.

(** [int(s)] on a run of decimal digits (what [\d+] captures); a run
    of more than [int_max_str_digits] digits, leading zeros included,
    is a [ValueError], rendered as [None]. *)
Definition py_int (s : string) : option N :=
  if (PyNum.int_max_str_digits <? length s)%nat then None
  else Some (Z.to_N (digits_val 0 s)).

(** [float(s)] on the strings [[\d.]+] can capture: digits with at most
    one dot and at least one digit; anything else is a [ValueError],
    rendered as [None].  The value is the decimal numeral rounded to
    binary64, however many digits it has. *)
Definition py_float (s : string) : option PyNum.float :=
  let '(ip, fp) :=
    match find "." s with
    | None => (s, EmptyString)
    | Some n => (take n s, drop (S n) s)
    end in
  if all_digits ip && all_digits fp && negb (length ip + length fp =? 0)%nat
  then Some (PyNum.of_ratio (digits_val 0 (ip ++ fp))
                            (Z.to_pos (10 ^ Z.of_nat (length fp))))
  else None.

End PyStr.

(** ** The regular expressions of [parse_log_file]

    The five patterns are concatenations of literal text, single
    characters of a class and greedy repetitions of a class, some of them
    captured.  [match_here] is the backtracking matcher of such a
    pattern at the start of a string; [search] is [re.search]. *)

Module Re.

Inductive charset : Type :=
| Digit        (* \d   *)
| Dot          (* .    *)
| DigitOrDot.  (* [\d.] *)

Definition in_class (cs : charset) (c : ascii) : bool :=
  match cs with
  | Digit => PyStr.is_digit c
  | Dot => negb (Ascii.eqb c PyStr.newline)
  | DigitOrDot => PyStr.is_digit c || Ascii.eqb c "."%char
  end.

Inductive item : Type :=
| Lit (s : string)
| One (cs : charset)
| Many (cs : charset) (least : nat) (capture : bool).

Definition regex : Type := list item.

(** Length of the longest prefix of [s] made of characters of [cs]. *)
Fixpoint run_length (cs : charset) (s : string) : nat :=
  match s with
  | EmptyString => 0
  | String c s' => if in_class cs c then S (run_length cs s') else 0
  end.

(** Greedy choice: the first of [k], [k-1], ..., [least] that [f] accepts. *)
Fixpoint try_down {A : Type} (f : nat -> option A) (least k : nat) : option A :=
  if (k <? least)%nat then None
  else match f k with
       | Some r => Some r
       | None => match k with
                 | O => None
                 | S k' => try_down f least k'
                 end
       end.

Fixpoint match_here (p : regex) (s : string) : option (list string) :=
  match p with
  | [] => Some []
  | Lit l :: p' =>
      if prefix l s then match_here p' (PyStr.drop (length l) s) else None
  | One cs :: p' =>
      match s with
      | String c s' => if in_class cs c then match_here p' s' else None
      | EmptyString => None
      end
  | Many cs least capture :: p' =>
      try_down
        (fun k =>
           match match_here p' (PyStr.drop k s) with
           | Some gs => Some (if capture then PyStr.take k s :: gs else gs)
           | None => None
           end)
        least (run_length cs s)
  end.

(** [pattern.search(s)]: the match at the leftmost position that has
    one, as the list of its groups. *)
Fixpoint search (p : regex) (s : string) : option (list string) :=
  match match_here p s with
  | Some gs => Some gs
  | None => match s with
            | EmptyString => None
            | String _ s' => search p s'
            end
  end.

(** [m.group(k)], for [k >= 1]. *)
Definition group (k : nat) (gs : list string) : string :=
  nth (k - 1) gs EmptyString.

End Re.

(** ** Data model *)

(** Marker to indicate the start of a new run. *)
Definition RUN_MARKER : string := "INFO - Starting new run".

(** Python exceptions that the modelled code can raise. *)
Inductive exn : Type :=
| StopIteration
| ValueError
| ZeroDivisionError
| IndexError
| KeyError
| RequestError   (* raised from inside [post_request] *)
| JSONError      (* raised by [response.json().get(...)] *)
| RecursionError
| FileNotFoundError.

(** How a call ends: it returns, raises, or leaves through [sys.exit]
    ([SystemExit] is not an [Exception], so [except Exception] lets it
    through). *)
Inductive outcome (A : Type) : Type :=
| Ret (a : A)
| Raise (e : exn)
| Exit (code : Z).

Arguments Ret {A} a.
Arguments Raise {A} e.
Arguments Exit {A} code.

(** The attributes of the [MinerConfig] object that the modelled
    functions read or write.  [loaded_models] and [loaded_loras] are
    dicts in the source; only their keys, in insertion order, matter. *)
Record config : Type := mkConfig {
  miner_id : string;
  version : string;
  base_url : string;
  signal_url : string;
  exclude_sdxl : bool;
  min_deadline : Z;
  sleep_duration : Q;
  reload_interval : Q;
  last_heartbeat : Q;
  loaded_models : list string;
  loaded_loras : list string;
  num_cuda_devices : Z;
  skip_checksum : bool
}.

Definition set_last_heartbeat (t : Q) (c : config) : config :=
  mkConfig (miner_id c) (version c) (base_url c) (signal_url c)
           (exclude_sdxl c) (min_deadline c) (sleep_duration c)
           (reload_interval c) t (loaded_models c) (loaded_loras c)
           (num_cuda_devices c) (skip_checksum c).

(** The body of a [/miner_request] call. *)
Record miner_request : Type := mkMinerRequest {
  req_miner_id : string;
  req_model_id : option string;
  req_min_deadline : Z;
  req_hardware : option string;
  req_version : option string
}.

(** The body of a [/miner_signal] call. *)
Record miner_signal : Type := mkMinerSignal {
  sig_miner_id : string;
  sig_model_type : string;
  sig_version : string;
  sig_exclude_sdxl : bool
}.

Inductive request_data : Type :=
| MinerRequest (r : miner_request)
| MinerSignal (s : miner_signal).

(** What the code looks at in a response object: its truth value
    ([if response]), [status_code], [text] and
    [response.json().get('model_id')], which raises ([None]) or yields a
    model id or Python's [None]. *)
Record response : Type := mkResponse {
  truthy : bool;
  status_code : Z;
  text : string;
  json_model_id : option (option string)
}.

(** How a call of [json.loads] on a text ends: with a value, which the
    modelled code never looks at, or with an exception:
    [JSONDecodeError] on text that is not JSON, [RecursionError] on
    deeply nested text, a plain [ValueError] on an integer of more than
    4300 digits. *)
Inductive json_outcome : Type :=
| JsonValue
| JsonDecodeError
| JsonRecursionError
| JsonValueError.

(** [post_request] hands back a response object or [None], or raises. *)
Inductive post_outcome : Type :=
| PostResponse (r : response)
| PostNone
| PostRaise.

(** A truthy value returned by [log_response], seen as a dict: the three
    keys [process_jobs] subscripts; a missing key is [None]. *)
Record job : Type := mkJob {
  job_id : option string;
  job_model_id : option string;
  temp_credentials : option string
}.

Inductive level : Type := DEBUG | INFO | WARNING | ERROR.

(** Observable actions, in the order they happen. *)
Inductive event : Type :=
| EPrint (s : string)
| ELog (l : level) (msg : string)
| EPost (url : string) (data : request_data)
| EReload (model_id : string)
| ESubmit (miner : string) (j : job) (job_start_time request_latency : Q)
| ESleep (d : Q)
| ECheckCuda
| EFetchConfigFiles
| ECompareChecksums
| EThreadStart (target : string)
| ESpawn (cuda_device_id : nat)
| EJoin (cuda_device_id : nat).

(** The state threaded through the worker and the supervisor: the shared
    [config] object, how many times the clock and [post_request] have
    been called, and the actions so far. *)
Record world : Type := mkWorld {
  cfg : config;
  ticks : nat;
  posts : nat;
  events : list event
}.

(** State and exceptions. *)
Definition M (A : Type) : Type := world -> outcome A * world.

Definition ret {A : Type} (a : A) : M A := fun w => (Ret a, w).

Definition bind {A B : Type} (m : M A) (k : A -> M B) : M B :=
  fun w =>
    match m w with
    | (Ret a, w') => k a w'
    | (Raise e, w') => (Raise e, w')
    | (Exit c, w') => (Exit c, w')
    end.

Notation "x <- m ;; k" := (bind m (fun x => k))
  (at level 61, m at next level, right associativity).
Notation "m ;; k" := (bind m (fun _ => k))
  (at level 61, right associativity).

Definition raise {A : Type} (e : exn) : M A := fun w => (Raise e, w).

(** [sys.exit(code)]. *)
Definition sys_exit {A : Type} (code : Z) : M A := fun w => (Exit code, w).

(** [try: m except Exception: ...]: an exception becomes a value, an
    exit goes through. *)
Definition try_except {A : Type} (m : M A) : M (option A) :=
  fun w =>
    match m w with
    | (Ret a, w') => (Ret (Some a), w')
    | (Raise _, w') => (Ret None, w')
    | (Exit c, w') => (Exit c, w')
    end.

Definition get_config : M config := fun w => (Ret (cfg w), w).

Definition put_config (c : config) : M unit :=
  fun w => (Ret tt, mkWorld c (ticks w) (posts w) (events w)).

Definition emit (e : event) : M unit :=
  fun w => (Ret tt, mkWorld (cfg w) (ticks w) (posts w) (events w ++ [e])).

Definition print (s : string) : M unit := emit (EPrint s).

(** [x >= y] and [x < y] on timestamps. *)
Definition Qge_bool (x y : Q) : bool := Qle_bool y x.

Definition Qlt_bool (x y : Q) : bool :=
  (Qnum x * QDen y <? Qnum y * QDen x)%Z.

Definition logging (l : level) (msg : string) : M unit := emit (ELog l msg).

(** [time.sleep(d)]: a negative [d] is a [ValueError]. *)
Definition time_sleep (d : Q) : M unit :=
  if Qlt_bool d 0 then raise ValueError else emit (ESleep d).

(** [x in xs] for strings. *)
Definition py_in (x : string) (xs : list string) : bool :=
  existsb (String.eqb x) xs.

(** [next(iter(d), None)]. *)
Definition first_key (d : list string) : option string :=
  match d with
  | [] => None
  | k :: _ => Some k
  end.

(** ** The log aggregator's records *)

(** One entry of the [devices] dict of [parse_log_file]. *)
Record device : Type := mkDevice {
  Device_Name : string;
  Status : string;
  Job_ID : option string;
  Model_ID : option string;
  Total_Time : option PyNum.float;
  Request_Latency : option PyNum.float;
  Loading_Latency : option PyNum.float;
  Inference_Latency : option PyNum.float;
  Upload_Latency : option PyNum.float;
  Submit_Latency : option PyNum.float
}.

(** [devices[k] = v] on a dict kept as an association list in insertion
    order. *)
Fixpoint dict_set (k : N) (v : device) (d : list (N * device)) : list (N * device) :=
  match d with
  | [] => [(k, v)]
  | (k', v') :: d' =>
      if (k =? k')%N then (k, v) :: d' else (k', v') :: dict_set k v d'
  end.

(** The [metrics] dict while the lines are scanned: [latency] holds the
    samples. *)
Record metrics : Type := mkMetrics {
  m_gpu_usage : list Z;
  m_num_jobs : Z;
  m_success_jobs : Z;
  m_failed_jobs : Z;
  m_latency : list PyNum.float;
  m_jobs_being_processed : Z
}.

(** The dict [parse_log_file] returns: [latency] is the average, a
    [float], or the [int] 0. *)
Record run_metrics : Type := mkRunMetrics {
  gpu_usage : list Z;
  num_jobs : Z;
  success_jobs : Z;
  failed_jobs : Z;
  latency : PyNum.number;
  jobs_being_processed : Z
}.

Definition initial_metrics : metrics := mkMetrics [] 0 0 0 [] 0.

Definition device_info_pattern : Re.regex :=
  [Re.Lit "INFO - Device "; Re.Many Re.Digit 1 true; Re.Lit ": ";
   Re.Many Re.Dot 1 true].

Definition job_received_pattern : Re.regex :=
  [Re.Lit "INFO - Response from server for miner_id "; Re.Many Re.Dot 0 false;
   Re.Lit ": "; Re.Many Re.Dot 1 true].

Definition job_processing_pattern : Re.regex :=
  [Re.Lit "INFO - Processing Request ID: "; Re.Many Re.Dot 1 true; Re.One Re.Dot;
   Re.Lit " Model ID: "; Re.Many Re.Dot 1 true; Re.One Re.Dot].

Definition job_completed_pattern : Re.regex :=
  [Re.Lit "INFO - Request ID "; Re.Many Re.Dot 1 true; Re.Lit " completed";
   Re.One Re.Dot; Re.Lit " Total time: "; Re.Many Re.DigitOrDot 1 true;
   Re.Lit " s"].

Definition new_device (device_name : string) : device :=
  mkDevice device_name "Idle" None None None None None None None None.

(** [RUN_MARKER in line]. *)
Definition has_marker (line : string) : bool := PyStr.contains RUN_MARKER line.

(** [next(i for i in reversed(range(len(log_lines))) if RUN_MARKER in
    log_lines[i])]; [None] is the [StopIteration] of an exhausted
    generator. *)
Definition last_marker_index (log_lines : list string) : option nat :=
  List.find (fun i => has_marker (nth i log_lines EmptyString))
            (rev (seq 0 (List.length log_lines))).

(** [a + x] for a [float] [x]: an [int] is converted first. *)
Definition py_add (a : PyNum.number) (x : PyNum.float) : PyNum.number :=
  match a with
  | PyNum.PyInt z => PyNum.PyFloat (PyNum.add (PyNum.of_int z) x)
  | PyNum.PyFloat f => PyNum.PyFloat (PyNum.add f x)
  end.

(** [sum(xs)]: the items are added to the [int] 0 one after the other,
    from left to right, each sum rounded. *)
Definition py_sum (xs : list PyNum.float) : PyNum.number :=
  fold_left py_add xs (PyNum.PyInt 0).

(** [x / n] for the length [n] of a list; Python raises on a zero
    divisor.  The quotient is a [float], rounded once. *)
Definition py_div (x : PyNum.number) (n : nat) : outcome PyNum.number :=
  match n with
  | O => Raise ZeroDivisionError
  | S _ =>
      Ret (PyNum.PyFloat
             match x with
             | PyNum.PyInt z => PyNum.of_ratio z (Pos.of_nat n)
             | PyNum.PyFloat f => PyNum.div f (PyNum.of_int (Z.of_nat n))
             end)
  end.

(** [sum(xs) / len(xs) if xs else 0]. *)
Definition average_latency (xs : list PyNum.float) : outcome PyNum.number :=
  match xs with
  | [] => Ret (PyNum.PyInt 0)
  | _ :: _ => py_div (py_sum xs) (List.length xs)
  end.

(** A line is a job acceptance when it carries the text the worker logs
    on accepting a job, and a job completion when the completion pattern
    matches it. *)
Definition is_acceptance (line : string) : bool :=
  PyStr.contains "Processing Request ID" line.

Definition is_completion (line : string) : bool :=
  match Re.search job_completed_pattern line with
  | Some _ => true
  | None => false
  end.

(** ** Miner identities: [MinerConfig] *)

(** [[a-fA-F0-9]] and [[a-zA-Z0-9_]]. *)
Definition is_hex (c : ascii) : bool :=
  let n := nat_of_ascii c in
  PyStr.is_digit c
  || ((97 <=? n)%nat && (n <=? 102)%nat)
  || ((65 <=? n)%nat && (n <=? 70)%nat).

Definition is_word (c : ascii) : bool :=
  let n := nat_of_ascii c in
  PyStr.is_digit c
  || ((97 <=? n)%nat && (n <=? 122)%nat)
  || ((65 <=? n)%nat && (n <=? 90)%nat)
  || (n =? 95)%nat.

Fixpoint all_chars (p : ascii -> bool) (s : string) : bool :=
  match s with
  | EmptyString => true
  | String c s' => p c && all_chars p s'
  end.

(** The longest prefix of [s] made of characters of [p], and the rest. *)
Fixpoint span (p : ascii -> bool) (s : string) : string * string :=
  match s with
  | EmptyString => (EmptyString, EmptyString)
  | String c s' =>
      if p c
      then let (run, rest) := span p s' in (String c run, rest)
      else (EmptyString, s)
  end.

(** Where [$] matches: at the end of the string, or before the newline
    that ends it. *)
Definition at_end (s : string) : bool :=
  match s with
  | EmptyString => true
  | String c EmptyString => Ascii.eqb c PyStr.newline
  | String _ (String _ _) => false
  end.

(** [evm_address_pattern.match(miner_id)] for the pattern
    [^(0x[a-fA-F0-9]{40})(-[a-zA-Z0-9_]+)?$]: the two groups of the
    match, the second one [None] when the optional group took no part.
    After the address, a hyphen can only be matched by the optional
    group, and the run of word characters it takes is the longest one,
    since [$] does not match before a word character. *)
Definition evm_address_pattern_match (miner_id : string)
  : option (string * option string) :=
  let address := PyStr.take 42 miner_id in
  let rest := PyStr.drop 42 miner_id in
  if prefix "0x" miner_id
     && (String.length address =? 42)%nat
     && all_chars is_hex (PyStr.drop 2 address)
  then
    match rest with
    | String "-"%char after_hyphen =>
        let (run, tail) := span is_word after_hyphen in
        if negb (String.length run =? 0)%nat && at_end tail
        then Some (address, Some (String "-"%char run))
        else None
    | _ => if at_end rest then Some (address, None) else None
    end
  else None.

(** The characters [str.strip()] removes, among the one-byte ones. *)
Definition whitespace : string :=
  string_of_list_ascii
    (map ascii_of_nat [9; 10; 11; 12; 13; 28; 29; 30; 31; 32; 133; 160]%nat).

(** How [subprocess.check_output(["nvidia-smi", "-L"])] ends: with the
    decoded output, with [CalledProcessError], or with an exception the
    caller does not handle. *)
Inductive smi_outcome : Type :=
| SmiOutput (output : string)
| SmiCalledProcessError
| SmiOtherError.

(** [output.split("\n")[i].strip()], then
    [gpu_info.split("GPU-")[1].split("-")[0][:6]]; [None] is an
    [IndexError]. *)
Definition short_uuid (output : string) (i : nat) : option string :=
  match nth_error (PyStr.split (PyStr.chr PyStr.newline) output) i with
  | None => None
  | Some line =>
      let gpu_info := PyStr.strip whitespace line in
      match nth_error (PyStr.split "GPU-" gpu_info) 1 with
      | None => None
      | Some after_marker =>
          match nth_error (PyStr.split "-" after_marker) 0 with
          | None => None
          | Some gpu_uuid_segment => Some (PyStr.take 6 gpu_uuid_segment)
          end
      end
  end.

(** What stops the construction of a [MinerConfig]. *)
Inductive config_error : Type :=
| MinerIdNotFound (gpu : nat)   (* ValueError: Miner ID for GPU i not found *)
| NoMinerId                     (* ValueError: miner_id not found *)
| MinerIdIndexError             (* IndexError of [miner_ids[...]] *)
| WalletKeysRejected            (* raised by [validate_miner_keys] *)
| NvidiaSmiFailed.              (* unhandled exception of [nvidia-smi] *)

(** What it prints. *)
Inductive config_message : Type :=
| ErrorMinerIdNotFound (gpu : nat)
| WarningNoGpuUuid (gpu : nat)
| WarningNotEvmAddress (miner_id : string) (gpu : nat)
| ErrorNoMinerId.

(** The loop [for i, miner_id in enumerate(miner_ids)] of
    [_load_and_validate_miner_ids], from index [i] on. *)
Fixpoint composite_miner_ids (nvidia_smi : nat -> smi_outcome) (i : nat)
  (miner_ids : list (option string))
  : list config_message * (config_error + list string) :=
  match miner_ids with
  | [] => ([], inr [])
  | None :: _ => ([ErrorMinerIdNotFound i], inl (MinerIdNotFound i))
  | Some miner_id :: rest =>
      let '(printed, entry) :=
        match evm_address_pattern_match miner_id with
        | Some (evm_address, Some suffix) => ([], inr miner_id)
        | Some (evm_address, None) =>
            match nvidia_smi i with
            | SmiOutput output =>
                match short_uuid output i with
                | Some short => ([], inr (evm_address ++ "-" ++ short)%string)
                | None => ([WarningNoGpuUuid i], inr miner_id)
                end
            | SmiCalledProcessError => ([WarningNoGpuUuid i], inr miner_id)
            | SmiOtherError => ([], inl NvidiaSmiFailed)
            end
        | None => ([WarningNotEvmAddress miner_id i], inr miner_id)
        end in
      match entry with
      | inl e => (printed, inl e)
      | inr composite_miner_id =>
          let '(printed', result) := composite_miner_ids nvidia_smi (S i) rest in
          (printed ++ printed',
           match result with
           | inl e => inl e
           | inr ids => inr (composite_miner_id :: ids)
           end)
      end
  end.

(** [_load_and_validate_miner_ids]: [getenv i] is
    [os.getenv('MINER_ID_i')], [validate_miner_keys] tells whether the
    wallet generator accepts the ids. *)
Definition _load_and_validate_miner_ids
  (getenv : nat -> option string) (n_cuda_devices : Z) (skip_signature : bool)
  (validate_miner_keys : list (option string) -> bool)
  (nvidia_smi : nat -> smi_outcome)
  : list config_message * (config_error + list string) :=
  let miner_ids := map getenv (seq 0 (Z.to_nat n_cuda_devices)) in
  if negb skip_signature && negb (validate_miner_keys miner_ids)
  then ([], inl WalletKeysRejected)
  else composite_miner_ids nvidia_smi 0 miner_ids.

(** [xs[k]] for a Python list: a negative index counts from the end;
    [None] is an [IndexError]. *)
Definition py_getitem {A : Type} (xs : list A) (k : Z) : option A :=
  let n := Z.of_nat (List.length xs) in
  if (0 <=? k)%Z && (k <? n)%Z then nth_error xs (Z.to_nat k)
  else if (- n <=? k)%Z && (k <? 0)%Z then nth_error xs (Z.to_nat (k + n))
  else None.

(** The truth value of a string. *)
Definition nonempty (s : string) : bool :=
  match s with
  | EmptyString => false
  | String _ _ => true
  end.

Definition _assign_miner_id (n_cuda_devices : Z) (miner_ids : list string)
  (cuda_device_id : Z) : list config_message * (config_error + string) :=
  let otherwise :=
    match py_getitem miner_ids 0 with
    | None => ([], inl MinerIdIndexError)
    | Some first =>
        if nonempty first then ([], inr first)
        else ([ErrorNoMinerId], inl NoMinerId)
    end in
  if (n_cuda_devices >? 1)%Z
  then
    match py_getitem miner_ids cuda_device_id with
    | None => ([], inl MinerIdIndexError)
    | Some own => if nonempty own then ([], inr own) else otherwise
    end
  else otherwise.

(** The [miner_id] attribute [MinerConfig.__init__] ends with. *)
Definition MinerConfig_miner_id
  (getenv : nat -> option string) (n_cuda_devices : Z) (skip_signature : bool)
  (validate_miner_keys : list (option string) -> bool)
  (nvidia_smi : nat -> smi_outcome) (cuda_device_id : Z)
  : list config_message * (config_error + string) :=
  match _load_and_validate_miner_ids getenv n_cuda_devices skip_signature
                                     validate_miner_keys nvidia_smi with
  | (printed, inl e) => (printed, inl e)
  | (printed, inr miner_ids) =>
      let '(printed', result) :=
        _assign_miner_id n_cuda_devices miner_ids cuda_device_id in
      (printed ++ printed', result)
  end.

(** ** [configure_logging] of [llm_mining_core/utils/logging_utils.py] *)

(** What [configure_logging] has done when it returns: the line it
    printed, the logger it put the filter on and the arguments it gave
    to [logging.basicConfig]. *)
Record logging_setup : Type := mkLoggingSetup {
  setup_printed : string;
  setup_filtered_logger : string;
  setup_filename : string;
  setup_filemode : string;
  setup_format : string;
  setup_level : level
}.

(** [logging_basicConfig filename filemode] is how the call of
    [logging.basicConfig] ends: it opens the file at once, unless the
    root logger has handlers already, and raises when that fails
    ([FileNotFoundError] for a directory that does not exist); [None]
    stands for a call that returns. *)
Definition configure_logging
  (logging_basicConfig : string -> string -> option exn)
  (log_filename : string) (miner_id : option string)
  : outcome logging_setup :=
  match nth_error (PyStr.split "." log_filename) 0 with
  | None => Raise IndexError
  | Some base_log_filename =>
      let process_log_filename :=
        match miner_id with
        | Some id => (base_log_filename ++ "_" ++ id ++ ".log")%string
        | None => (base_log_filename ++ ".log")%string
        end in
      match logging_basicConfig process_log_filename "a" with
      | Some e => Raise e
      | None =>
          Ret (mkLoggingSetup
                 ("Configuring log level to: INFO. Log file name: "
                  ++ process_log_filename)
                 "uvicorn.access"
                 process_log_filename
                 "a"
                 "%(asctime)s - %(name)s - %(levelname)s - %(message)s"
                 INFO)
      end
  end.

(** How an entry of the list [_load_and_validate_miner_ids] returns
    relates to the id it was made from: it is that id, or the address
    of that id followed by a hyphen and at most six characters. *)
Definition composite_of (miner_id composite : string) : Prop :=
  composite = miner_id
  \/ exists address short,
       evm_address_pattern_match miner_id = Some (address, None)
       /\ composite = (address ++ "-" ++ short)%string
       /\ (String.length short <= 6)%nat.

(** An id the pattern does not match as a bare address: nothing is asked
    of [nvidia-smi] for it. *)
Definition not_bare (miner_id : string) : Prop :=
  forall address, evm_address_pattern_match miner_id <> Some (address, None).

(** ** Sample data for the worked examples *)

Definition eol : string := PyStr.chr PyStr.newline.
Definition quote : string := PyStr.chr PyStr.dquote.

(** Lines as the logging format of the miner writes them. *)
Definition marker_line : string :=
  "2024-05-01 10:00:00,000 - root - INFO - INFO - Starting new run" ++ eol.

Definition device_line : string :=
  "2024-05-01 10:00:01,000 - root - INFO - Device 0: RTX4090" ++ eol.

Definition accept_line : string :=
  "2024-05-01 10:00:05,000 - root - INFO - Processing Request ID: 7f3a. Model ID: m1."
  ++ eol.

Definition complete_line : string :=
  "2024-05-01 10:00:09,000 - root - INFO - Request ID 7f3a completed. Total time: 3.2 s"
  ++ eol.

Definition warning_line : string :=
  "2024-05-01 10:00:10,000 - root - WARNING - Retrying upload" ++ eol.

Definition log_two_runs : list string :=
  [marker_line; device_line; accept_line; complete_line; accept_line;
   marker_line; device_line; accept_line].

Definition log_no_marker : list string :=
  [device_line; accept_line; complete_line].

Definition log_no_completion : list string :=
  [complete_line; marker_line; device_line; accept_line; warning_line].

Definition log_completion_only : list string :=
  [accept_line; marker_line; complete_line].

(** A run of [n] copies of a character. *)
Fixpoint run_of (c : ascii) (n : nat) : string :=
  match n with
  | O => EmptyString
  | S n' => String c (run_of c n')
  end.

(** A device line whose number has 4301 digits. *)
Definition long_device_line : string :=
  "2024-05-01 10:00:01,000 - root - INFO - Device " ++ run_of "7" 4301
  ++ ": RTX4090" ++ eol.

Definition log_long_device : list string :=
  [marker_line; long_device_line; accept_line].

(** A line that logs a server response whose text is a completion
    message: it passes the completion test, [json.loads] rejects the
    captured text, [3.2 s], and the [continue] skips the line. *)
Definition skipped_completion_line : string :=
  "2024-05-01 10:00:08,000 - root - INFO - Response from server for miner_id m1: INFO - Request ID 7f3a completed. Total time: 3.2 s"
  ++ eol.

Definition log_skipped_completions : list string :=
  [marker_line; accept_line; skipped_completion_line;
   skipped_completion_line].

(** A run with two accepted jobs, one completion, one skipped
    completion and a warning after the marker. *)
Definition log_mixed : list string :=
  [complete_line; marker_line; device_line; accept_line; accept_line;
   complete_line; skipped_completion_line; warning_line].

(** A line that logs a server response nested a thousand brackets
    deep. *)
Definition nested_response_line : string :=
  "2024-05-01 10:00:08,000 - root - INFO - Response from server for miner_id m1: "
  ++ run_of "[" 1000 ++ eol.

(** A decoder that takes what starts with a brace, gives up on a
    thousand opening brackets, refuses a numeral of more than 4300
    digits and rejects the rest. *)
Definition sample_json_loads (s : string) : json_outcome :=
  if prefix "{" s then JsonValue
  else if prefix (run_of "[" 1000) s then JsonRecursionError
  else if PyStr.all_digits s
          && (PyNum.int_max_str_digits <? String.length s)%nat
       then JsonValueError
  else JsonDecodeError.

(** A working directory without subdirectories: a file name with a
    slash cannot be opened. *)
Definition sample_basicConfig (filename filemode : string) : option exn :=
  if PyStr.contains "/" filename then Some FileNotFoundError else None.

(** 3.2 rounded to binary64. *)
Definition float_3_2 : PyNum.float := S754_finite false 7205759403792794 (-51).

Definition sample_gpu_usage : list Z := [37%Z].

(** A worker with nothing loaded, a heartbeat and a reload interval of
    the usual size, and a clock that starts at 1000 and advances by one
    second at every reading. *)
Definition sample_config : config :=
  mkConfig "0x1c83C85b57117E73f1195c37316b2E99B481aD6e-7bac77" "sd-v1.3.1"
           "https://sequencer.example" "https://signal.example"
           false 1 5%Q 600%Q 0%Q [] [] 1 true.

Definition sample_world : world := mkWorld sample_config 0 0 [].

Definition sample_clock (n : nat) : Q := inject_Z (1000 + Z.of_nat n).

Definition sample_hardware (_ : config) : string := "NVIDIA GeForce RTX 4090".

Definition one_local_model (_ : config) : list string := ["m1"].

Definition no_local_model (_ : config) : list string := [].

Definition sample_reload_model (c : config) (model_id : string) : config :=
  mkConfig (miner_id c) (version c) (base_url c) (signal_url c)
           (exclude_sdxl c) (min_deadline c) (sleep_duration c)
           (reload_interval c) (last_heartbeat c) [model_id] []
           (num_cuda_devices c) (skip_checksum c).

Definition sample_job : job :=
  mkJob (Some "7f3a") (Some "m1") (Some "credentials").

Definition sample_log_response (resp : option response) (_ : string)
  : option job :=
  match resp with
  | Some _ => Some sample_job
  | None => None
  end.

(** A scheduler that never answers. *)
Definition no_answer (_ : nat) (_ : string) (_ : request_data) : post_outcome :=
  PostNone.

(** A body with one warning and a body with two. *)
Definition disk_body : string :=
  "Warning:" ++ quote ++ "disk almost full" ++ quote.

Definition two_warnings_body : string :=
  "Warning:" ++ quote ++ "a" ++ quote ++ " Warning:" ++ quote ++ "b" ++ quote.

Definition answer_with (body : string) (_ : nat) (_ : string)
  (_ : request_data) : post_outcome :=
  PostResponse (mkResponse true 200 body (Some None)).

(** A supervisor configured for four devices. *)
Definition four_device_world : world :=
  mkWorld (mkConfig "0x1c83C85b57117E73f1195c37316b2E99B481aD6e" "sd-v1.3.1"
                    "https://sequencer.example" "https://signal.example"
                    false 1 5%Q 600%Q 0%Q [] [] 4 true)
          0 0 [].

(** The output of [nvidia-smi -L] on a machine with two devices. *)
Definition smi_two_gpus : string :=
  "GPU 0: NVIDIA GeForce RTX 4090 (UUID: GPU-7bac7714-52d0-4c3e-9a1b-0f6f1d2c3b4a)"
  ++ eol
  ++ "GPU 1: NVIDIA GeForce RTX 4090 (UUID: GPU-c41f09aa-8e2b-4d7c-b1a3-5e6f7a8b9c0d)"
  ++ eol.

Definition bare_address : string := "0x1c83C85b57117E73f1195c37316b2E99B481aD6e".

(** [MINER_ID_0] is a bare address, [MINER_ID_1] an address with a
    suffix; no other variable is set. *)
Definition sample_getenv (i : nat) : option string :=
  match i with
  | 0%nat => Some bare_address
  | 1%nat => Some (bare_address ++ "-rig_2")%string
  | _ => None
  end.

Definition smi_answers (_ : nat) : smi_outcome := SmiOutput smi_two_gpus.

Definition smi_fails (_ : nat) : smi_outcome := SmiCalledProcessError.

Definition accept_keys (_ : list (option string)) : bool := true.

(** A job without its credentials. *)
Definition job_without_credentials : job :=
  mkJob (Some "7f3a") (Some "m1") None.

Definition incomplete_log_response (resp : option response) (_ : string)
  : option job :=
  match resp with
  | Some _ => Some job_without_credentials
  | None => None
  end.

(** A worker with a base model and an adapter loaded. *)
Definition adapter_world : world :=
  mkWorld (mkConfig "0x1c83C85b57117E73f1195c37316b2E99B481aD6e-7bac77"
                    "sd-v1.3.1" "https://sequencer.example"
                    "https://signal.example" false 1 5%Q 600%Q 0%Q
                    ["m1"] ["lora-7"] 1 true)
          0 0 [].

(** A completion line whose time has two dots. *)
Definition unreadable_line : string :=
  "2024-05-01 10:00:09,000 - root - INFO - Request ID 7f3a completed. Total time: 3.2.1 s"
  ++ eol.

Definition log_unreadable : list string :=
  [marker_line; accept_line; unreadable_line].

(** A supervisor configured for two devices that compares checksums. *)
Definition two_device_world : world :=
  mkWorld (mkConfig "0x1c83C85b57117E73f1195c37316b2E99B481aD6e" "sd-v1.3.1"
                    "https://sequencer.example" "https://signal.example"
                    false 1 5%Q 600%Q 0%Q [] [] 2 false)
          0 0 [].

(** Every [MINER_ID_i] is an address with a suffix of its own. *)
Definition suffixed_getenv (i : nat) : option string :=
  match i with
  | 0%nat => Some (bare_address ++ "-rig_1")%string
  | _ => Some (bare_address ++ "-rig_2")%string
  end.

(** [nvidia-smi] cannot be run. *)
Definition smi_unavailable (_ : nat) : smi_outcome := SmiOtherError.

Section Miner.

(** *** The collaborators outside the modelled file

    [clock n] is what the [n]-th call of [time.time()] returns and
    [post_request n url data] how the [n]-th call of [post_request]
    ends.  The others are functions of [sd_mining_core.utils], [json]
    and the hardware telemetry, taken as they are. *)
Variable clock : nat -> Q.
Variable post_request : nat -> string -> request_data -> post_outcome.
Variable log_response : option response -> string -> option job.
Variable get_hardware_description : config -> string.
Variable get_local_model_ids : config -> list string.
Variable reload_model : config -> string -> config.
(** How [json.loads] ends on a text. *)
Variable json_loads : string -> json_outcome.
(** The utilisation NVML reports for each device, in index order. *)
Variable nvml_gpu_usage : list Z.
(** [torch.cuda.device_count()]. *)
Variable torch_cuda_device_count : Z.

(** ** [parse_log_file] *)

(** [json.loads(job_received_match.group(1).replace(...))] when the
    line matches [job_received_pattern]: single quotes are turned into
    double quotes first. *)
Definition job_response (line : string) : option json_outcome :=
  match Re.search job_received_pattern line with
  | Some job_received_match =>
      Some (json_loads
              (PyStr.replace (PyStr.chr PyStr.squote) (PyStr.chr PyStr.dquote)
                             (Re.group 1 job_received_match)))
  | None => None
  end.

(** The guard of the [continue]: the line matches
    [job_received_pattern] and [json.loads] raises [JSONDecodeError]. *)
Definition decode_fails (line : string) : bool :=
  match job_response line with
  | Some JsonDecodeError => true
  | _ => false
  end.

(** The first [if] of the loop: the device number goes through [int]. *)
Definition register_device (devices : list (N * device)) (line : string)
  : outcome (list (N * device)) :=
  match Re.search device_info_pattern line with
  | Some device_match =>
      match PyStr.py_int (Re.group 1 device_match) with
      | Some device_id =>
          let device_name := Re.group 2 device_match in
          Ret (dict_set device_id (new_device device_name) devices)
      | None => Raise ValueError
      end
  | None => Ret devices
  end.

(** The rest of the body, for a line the [continue] does not skip. *)
Definition count_line (m : metrics) (line : string) : outcome metrics :=
  let m :=
    if PyStr.contains "Processing Request ID" line
    then mkMetrics (m_gpu_usage m) (m_num_jobs m + 1) (m_success_jobs m)
                   (m_failed_jobs m) (m_latency m)
                   (m_jobs_being_processed m + 1)
    else m in
  let after_completion :=
    match Re.search job_completed_pattern line with
    | Some job_completed_match =>
        match PyStr.py_float (Re.group 2 job_completed_match) with
        | Some total_time =>
            Ret (mkMetrics (m_gpu_usage m) (m_num_jobs m)
                           (m_success_jobs m + 1) (m_failed_jobs m)
                           (m_latency m ++ [total_time])
                           (m_jobs_being_processed m - 1))
        | None => Raise ValueError
        end
    | None => Ret m
    end in
  match after_completion with
  | Ret m =>
      Ret (if PyStr.contains "WARNING" line
           then mkMetrics (m_gpu_usage m) (m_num_jobs m) (m_success_jobs m)
                          (m_failed_jobs m + 1) (m_latency m)
                          (m_jobs_being_processed m)
           else m)
  | Raise e => Raise e
  | Exit c => Exit c
  end.

(** The body of the loop over the lines after the marker.  The
    [continue] of the [JSONDecodeError] handler ends the body early;
    any other exception of [json.loads] leaves the handler and the
    function. *)
Definition process_line (st : list (N * device) * metrics) (line : string)
  : outcome (list (N * device) * metrics) :=
  let '(devices, m) := st in
  match register_device devices line with
  | Ret devices =>
      match job_response line with
      | Some JsonDecodeError => Ret (devices, m)
      | Some JsonRecursionError => Raise RecursionError
      | Some JsonValueError => Raise ValueError
      | Some JsonValue | None =>
          match count_line m line with
          | Ret m => Ret (devices, m)
          | Raise e => Raise e
          | Exit c => Exit c
          end
      end
  | Raise e => Raise e
  | Exit c => Exit c
  end.

(** [for line in lines: ...]. *)
Fixpoint process_lines (st : list (N * device) * metrics) (lines : list string)
  : outcome (list (N * device) * metrics) :=
  match lines with
  | [] => Ret st
  | line :: rest =>
      match process_line st line with
      | Ret st' => process_lines st' rest
      | Raise e => Raise e
      | Exit c => Exit c
      end
  end.

(** What follows the loop: the NVML readings, the average and the
    returned dict. *)
Definition finish (st : list (N * device) * metrics) : outcome run_metrics :=
  let m := snd st in
  let m := mkMetrics (m_gpu_usage m ++ nvml_gpu_usage) (m_num_jobs m)
                     (m_success_jobs m) (m_failed_jobs m) (m_latency m)
                     (m_jobs_being_processed m) in
  match average_latency (m_latency m) with
  | Ret avg_latency =>
      Ret (mkRunMetrics (m_gpu_usage m) (m_num_jobs m) (m_success_jobs m)
                        (m_failed_jobs m) avg_latency
                        (m_jobs_being_processed m))
  | Raise e => Raise e
  | Exit c => Exit c
  end.

(** The metrics of a list of lines scanned from the initial state. *)
Definition aggregate (lines : list string) : outcome run_metrics :=
  match process_lines ([], initial_metrics) lines with
  | Ret st => finish st
  | Raise e => Raise e
  | Exit c => Exit c
  end.

(** [parse_log_file], given the lines [readlines()] read from the log. *)
Definition parse_log_file (log_lines : list string) : outcome run_metrics :=
  match last_marker_index log_lines with
  | None => Raise StopIteration
  | Some i =>
      let start_index := (i + 1)%nat in
      aggregate (skipn start_index log_lines)
  end.

(** ** The worker *)

(** [time.time()]. *)
Definition time_time : M Q :=
  fun w => (Ret (clock (ticks w)),
            mkWorld (cfg w) (S (ticks w)) (posts w) (events w)).

(** A call [post_request(config, url, data, config.miner_id)]: the
    request is recorded whatever becomes of it. *)
Definition call_post_request (url : string) (data : request_data)
  : M (option response) :=
  fun w =>
    let w' := mkWorld (cfg w) (ticks w) (S (posts w))
                      (events w ++ [EPost url data]) in
    match post_request (posts w) url data with
    | PostResponse r => (Ret (Some r), w')
    | PostNone => (Ret None, w')
    | PostRaise => (Raise RequestError, w')
    end.

(** A call [reload_model(config, model_id)]. *)
Definition call_reload_model (model_id : string) : M unit :=
  fun w => (Ret tt,
            mkWorld (reload_model (cfg w) model_id) (ticks w) (posts w)
                    (events w ++ [EReload model_id])).

(** [response and needle in response.text]. *)
Definition response_has (needle : string) (resp : option response) : bool :=
  match resp with
  | Some r => truthy r && PyStr.contains needle (text r)
  | None => false
  end.

Definition warning_indicator : string := "Warning:".

(** [response.text.split(warning_indicator)[1]] stripped of double
    quotes at both ends. *)
Definition warning_message (body : string) : option string :=
  match nth_error (PyStr.split warning_indicator body) 1 with
  | Some part => Some (PyStr.strip (PyStr.chr PyStr.dquote) part)
  | None => None
  end.

(** The closing [try] block of the source only binds two locals from
    [response_data]; it changes neither the state nor the result and is
    left out. *)
Definition send_miner_request (model_id : option string) (deadline : Z)
  : M (option job * Q) :=
  config <- get_config ;;
  let request_data :=
    mkMinerRequest (miner_id config) model_id deadline None None in
  now <- time_time ;;
  request_data <-
    (if Qge_bool (now - last_heartbeat config) 60
     then
       let request_data :=
         mkMinerRequest (req_miner_id request_data) (req_model_id request_data)
                        (req_min_deadline request_data)
                        (Some (get_hardware_description config))
                        (Some (version config)) in
       t <- time_time ;;
       put_config (set_last_heartbeat t config) ;;
       logging DEBUG "Heartbeat updated" ;;
       ret request_data
     else ret request_data) ;;
  start_time <- time_time ;;
  resp <- call_post_request (base_url config ++ "/miner_request")
                            (MinerRequest request_data) ;;
  end_time <- time_time ;;
  let request_latency := (end_time - start_time)%Q in
  (if response_has warning_indicator resp
   then
     match resp with
     | Some r =>
         match warning_message (text r) with
         | Some msg => print ("WARNING: " ++ msg)
         | None => raise IndexError
         end
     | None => ret tt
     end
   else ret tt) ;;
  let response_data := log_response resp (miner_id config) in
  ret (response_data, request_latency).

(** [list(loaded_loras.keys())[0] if loaded_loras else
    list(loaded_models.keys())[0] if loaded_models else None]. *)
Definition current_model (config : config) : option string :=
  match loaded_loras config with
  | k :: _ => Some k
  | [] => match loaded_models config with
          | k :: _ => Some k
          | [] => None
          end
  end.

(** The test guarding [reload_model]: the id is in local storage and
    not already loaded.  Python's [None] is in none of the three. *)
Definition should_reload (config : config) (model_id_from_signal : option string)
  : bool :=
  match model_id_from_signal with
  | Some id =>
      py_in id (get_local_model_ids config)
      && negb (py_in id (loaded_models config))
      && negb (py_in id (loaded_loras config))
  | None => false
  end.

(** The body posted to [/miner_signal]. *)
Definition signal_of (config : config) : request_data :=
  MinerSignal (mkMinerSignal (miner_id config) "SD" (version config)
                             (exclude_sdxl config)).

Definition check_and_reload_model (last_signal_time : Q) : M Q :=
  current_time <- time_time ;;
  config <- get_config ;;
  last_signal_time <-
    (if Qge_bool (current_time - last_signal_time) (reload_interval config)
     then
       (match current_model config with
        | None => logging WARNING "No loaded models found. Posting to miner_signal to load a new model."
        | Some _ => ret tt
        end) ;;
       resp <- call_post_request (signal_url config ++ "/miner_signal")
                                 (signal_of config) ;;
       match resp with
       | Some r =>
           if truthy r && (status_code r =? 200)%Z
           then
             match json_model_id r with
             | None => raise JSONError
             | Some model_id_from_signal =>
                 if should_reload config model_id_from_signal
                 then
                   match model_id_from_signal with
                   | Some id => call_reload_model id ;; ret current_time
                   | None => ret last_signal_time
                   end
                 else ret last_signal_time
             end
           else
             logging ERROR "Failed to get a valid response from /miner_signal" ;;
             ret last_signal_time
       | None =>
           logging ERROR "Failed to get a valid response from /miner_signal" ;;
           ret last_signal_time
       end
     else ret last_signal_time) ;;
  config <- get_config ;;
  ret (if Qlt_bool (current_time - last_signal_time) (reload_interval config)
       then last_signal_time
       else current_time).

(** [job[key]] on the dict view of a job. *)
Definition subscript (field : option string) : M string :=
  match field with
  | Some v => ret v
  | None => raise KeyError
  end.

Definition process_jobs : M bool :=
  config <- get_config ;;
  let current_model_id := first_key (loaded_models config) in
  let current_lora_id := first_key (loaded_loras config) in
  let model_ids := get_local_model_ids config in
  match model_ids with
  | [] =>
      logging DEBUG "No models found. Exiting..." ;;
      sys_exit 0
  | _ :: _ =>
      let model_id_to_send :=
        match current_lora_id with
        | Some l => Some l
        | None => current_model_id
        end in
      answer <- send_miner_request model_id_to_send (min_deadline config) ;;
      let '(job, request_latency) := answer in
      match job with
      | None =>
          logging INFO "No job received." ;;
          ret false
      | Some j =>
          job_start_time <- time_time ;;
          jid <- subscript (job_id j) ;;
          mid <- subscript (job_model_id j) ;;
          logging INFO ("Processing Request ID: " ++ jid ++ ". Model ID: "
                        ++ mid ++ ".") ;;
          _ <- subscript (temp_credentials j) ;;
          emit (ESubmit (miner_id config) j job_start_time request_latency) ;;
          ret true
      end
  end.

(** [if not executed: time.sleep(config.sleep_duration)], for
    [executed = False]. *)
Definition sleep_not_executed : M unit :=
  config <- get_config ;;
  time_sleep (sleep_duration config).

(** One turn of the [while True] loop of [main]; the value is the
    [last_signal_time] the next turn starts from.  An exception of
    [process_jobs] comes after the assignment to [last_signal_time], an
    exception of [check_and_reload_model] before it. *)
Definition worker_iteration (last_signal_time : Q) : M Q :=
  reloaded <- try_except (check_and_reload_model last_signal_time) ;;
  match reloaded with
  | None =>
      logging ERROR "Error occurred:" ;;
      sleep_not_executed ;;
      ret last_signal_time
  | Some last_signal_time =>
      executed <- try_except process_jobs ;;
      match executed with
      | Some true => ret last_signal_time
      | Some false =>
          sleep_not_executed ;;
          ret last_signal_time
      | None =>
          logging ERROR "Error occurred:" ;;
          sleep_not_executed ;;
          ret last_signal_time
      end
  end.

(** ** The supervisor: the [__main__] block once the configuration is
    loaded *)

Fixpoint spawn_all (ids : list nat) : M unit :=
  match ids with
  | [] => ret tt
  | i :: rest => emit (ESpawn i) ;; spawn_all rest
  end.

Fixpoint join_all (ids : list nat) : M unit :=
  match ids with
  | [] => ret tt
  | i :: rest => emit (EJoin i) ;; join_all rest
  end.

Definition supervisor : M unit :=
  config <- get_config ;;
  if (num_cuda_devices config >? torch_cuda_device_count)%Z
  then
    print "Number of CUDA devices specified in config is greater than available. Exiting..." ;;
    sys_exit 1
  else
    emit ECheckCuda ;;
    emit EFetchConfigFiles ;;
    (if skip_checksum config then ret tt else emit ECompareChecksums) ;;
    emit (EThreadStart "model_updater.start_scheduled_updates") ;;
    logging INFO RUN_MARKER ;;
    emit (EThreadStart "display_data_thread") ;;
    let processes := seq 0 (Z.to_nat (num_cuda_devices config)) in
    spawn_all processes ;;
    join_all processes.


(** ** Observations the statements are phrased with *)

(** The number of run-start marker lines of a log. *)
Definition count_markers (log_lines : list string) : nat :=
  List.length (filter has_marker log_lines).

(** The job-poll requests among a sequence of actions. *)
Fixpoint miner_requests (evs : list event) : list miner_request :=
  match evs with
  | [] => []
  | e :: rest =>
      match e with
      | EPost _ (MinerRequest r) => r :: miner_requests rest
      | _ => miner_requests rest
      end
  end.

(** The workers spawned among a sequence of actions. *)
Fixpoint spawned (evs : list event) : list nat :=
  match evs with
  | [] => []
  | e :: rest =>
      match e with
      | ESpawn i => i :: spawned rest
      | _ => spawned rest
      end
  end.

Definition attaches_hardware (r : miner_request) : bool :=
  match req_hardware r with
  | Some _ => true
  | None => false
  end.

(** Calls of [send_miner_request] one after the other, as the loop of
    [main] makes them: an exception of one call does not stop the next. *)
Fixpoint poll_repeatedly (calls : list (option string * Z)) : M unit :=
  match calls with
  | [] => ret tt
  | (model_id, deadline) :: rest =>
      _ <- try_except (send_miner_request model_id deadline) ;;
      poll_repeatedly rest
  end.

(** Whether the heartbeat interval has elapsed when a call of
    [send_miner_request] starts in [w], and the request the call then
    hands to [post_request]. *)
Definition heartbeat_due (w : world) : bool :=
  Qge_bool (clock (ticks w) - last_heartbeat (cfg w)) 60.

Definition request_of (model_id : option string) (deadline : Z) (w : world)
  : miner_request :=
  if heartbeat_due w
  then mkMinerRequest (miner_id (cfg w)) model_id deadline
                      (Some (get_hardware_description (cfg w)))
                      (Some (version (cfg w)))
  else mkMinerRequest (miner_id (cfg w)) model_id deadline None None.

(** Whether the reload interval has elapsed when a call of
    [check_and_reload_model] starts in [w]. *)
Definition reload_due (last_signal_time : Q) (w : world) : bool :=
  Qge_bool (clock (ticks w) - last_signal_time) (reload_interval (cfg w)).

(** The text from the end of the first [Warning:] up to the next
    [Warning:], or up to the end of the body when there is none. *)
Definition warning_segment (body : string) : option string :=
  match PyStr.find warning_indicator body with
  | Some n =>
      let rest := PyStr.drop (n + String.length warning_indicator) body in
      Some (match PyStr.find warning_indicator rest with
            | Some k => PyStr.take k rest
            | None => rest
            end)
  | None => None
  end.

(** The extraction as the specification words it: the text between the
    sentinel and the end of the body, without its wrapping quotes. *)
Definition warning_to_end_of_body (body : string) : option string :=
  match PyStr.find warning_indicator body with
  | Some n =>
      Some (PyStr.strip (PyStr.chr PyStr.dquote)
              (PyStr.drop (n + String.length warning_indicator) body))
  | None => None
  end.

(** The record of a run without any activity. *)
Definition idle_metrics : run_metrics :=
  mkRunMetrics nvml_gpu_usage 0 0 0 (PyNum.PyInt 0) 0.

(** ** Further observations *)

(** The pauses, the submitted jobs, the reloaded models, the requests,
    the printed lines and the signal requests among a sequence of
    actions. *)
Definition sleeps (evs : list event) : list Q :=
  flat_map (fun e => match e with ESleep d => [d] | _ => [] end) evs.

Definition submitted (evs : list event) : list (job * Q * Q) :=
  flat_map (fun e => match e with
                     | ESubmit _ j start request_latency =>
                         [(j, start, request_latency)]
                     | _ => []
                     end) evs.

Definition reloads (evs : list event) : list string :=
  flat_map (fun e => match e with EReload id => [id] | _ => [] end) evs.

Definition posted (evs : list event) : list (string * request_data) :=
  flat_map (fun e => match e with EPost url d => [(url, d)] | _ => [] end) evs.

Definition printed (evs : list event) : list string :=
  flat_map (fun e => match e with EPrint s => [s] | _ => [] end) evs.

Definition signals (evs : list event) : list miner_signal :=
  flat_map (fun e => match e with
                     | EPost _ (MinerSignal s) => [s]
                     | _ => []
                     end) evs.

(** The model id [process_jobs] asks work for: the first loaded adapter,
    else the first loaded base model, else [None]. *)
Definition model_id_to_send (config : config) : option string :=
  match first_key (loaded_loras config) with
  | Some lora => Some lora
  | None => first_key (loaded_models config)
  end.

(** The line [process_jobs] logs when it accepts a job. *)
Definition acceptance_message (jid mid : string) : string :=
  "Processing Request ID: " ++ jid ++ ". Model ID: " ++ mid ++ ".".

(** The turns of the [while True] loop of [main], [turns] of them. *)
Fixpoint main_loop (turns : nat) (last_signal_time : Q) : M Q :=
  match turns with
  | O => ret last_signal_time
  | S turns' =>
      last_signal_time <- worker_iteration last_signal_time ;;
      main_loop turns' last_signal_time
  end.

(** [main] from [last_signal_time = time.time()] on. *)
Definition main_from_loop (turns : nat) : M Q :=
  last_signal_time <- time_time ;;
  main_loop turns last_signal_time.

(** A line counts for a test of the loop of [parse_log_file] when the
    [continue] does not end the body before the test. *)
Definition counted (test : string -> bool) (line : string) : bool :=
  negb (decode_fails line) && test line.

(** Whether the line contains the text WARNING. *)
Definition is_warning (line : string) : bool := PyStr.contains "WARNING" line.

(** The elapsed time a completion line carries, when [float] reads it. *)
Definition total_time (line : string) : option PyNum.float :=
  match Re.search job_completed_pattern line with
  | Some job_completed_match =>
      PyStr.py_float (Re.group 2 job_completed_match)
  | None => None
  end.

(** The samples one line adds. *)
Definition line_samples (line : string) : list PyNum.float :=
  if decode_fails line then []
  else match total_time line with
       | Some t => [t]
       | None => []
       end.

(** The latency samples of a list of lines. *)
Definition latency_samples (lines : list string) : list PyNum.float :=
  flat_map line_samples lines.

(** A truth value as 1 or 0. *)
Definition b2z (b : bool) : Z := if b then 1%Z else 0%Z.

(** A counted completion whose time [float] cannot read. *)
Definition unreadable (line : string) : bool :=
  counted is_completion line
  && match total_time line with Some _ => false | None => true end.

(** The number of lines that pass a test. *)
Definition count_lines (test : string -> bool) (lines : list string) : Z :=
  Z.of_nat (List.length (filter test lines)).

(** A line that announces a device under a number [int] refuses. *)
Definition device_number_too_long (line : string) : bool :=
  match Re.search device_info_pattern line with
  | Some device_match =>
      (PyNum.int_max_str_digits <? String.length (Re.group 1 device_match))%nat
  | None => false
  end.

(** The exception [json.loads] lets out of the handler on a line. *)
Definition json_error (line : string) : option exn :=
  match job_response line with
  | Some JsonRecursionError => Some RecursionError
  | Some JsonValueError => Some ValueError
  | _ => None
  end.

(** The exception the body of the loop raises on a line, if any: of
    [int] on the device number, else of [json.loads], else of [float]
    on the time of a completion the [continue] does not skip. *)
Definition line_error (line : string) : option exn :=
  if device_number_too_long line then Some ValueError
  else match json_error line with
       | Some e => Some e
       | None => if unreadable line then Some ValueError else None
       end.

(** The exception of the first line that raises. *)
Fixpoint first_error (lines : list string) : option exn :=
  match lines with
  | [] => None
  | line :: rest =>
      match line_error line with
      | Some e => Some e
      | None => first_error rest
      end
  end.

(** ** Proof automation *)

(** Case analysis on every test of the goal. *)
Ltac split_ifs :=
  repeat match goal with
         | |- context [if ?b then _ else _] => destruct b
         | |- context [match ?o with Some _ => _ | None => _ end] =>
             destruct o
         end.

(** Unfolding of the monad and of the primitive actions. *)
Ltac run_monad :=
  unfold bind, ret, raise, sys_exit, try_except, get_config, put_config,
    time_time, logging, print, sleep_not_executed, time_sleep, emit,
    call_post_request,
    call_reload_model, subscript;
  cbn [cfg ticks posts events fst snd].

(** Projections of the actions over [++], and membership in a list
    written with [++] and [::]. *)
Ltac project :=
  unfold sleeps, submitted, reloads, posted, printed, signals;
  rewrite ?flat_map_app; cbn [flat_map app]; rewrite ?app_nil_r.

Ltac find_in_list :=
  rewrite ?in_app_iff; cbn [In];
  let rec search :=
    match goal with
    | |- _ = _ => reflexivity
    | |- _ \/ _ => (left; search) || (right; search)
    end in
  search.

Tactic Notation "project" "in" hyp(H) :=
  unfold sleeps, submitted, reloads, posted, printed, signals in H.

(** ** Properties *)

(** *** Lists and the position of the last marker *)

Lemma find_first_hit {A : Type} (f : A -> bool) (l1 l2 : list A) (x : A) :
  (forall y, In y l1 -> f y = false) -> f x = true ->
  List.find f (l1 ++ x :: l2) = Some x.
Proof.
  intros Hl1 Hx. induction l1 as [|a l1 IH]; simpl.
  - now rewrite Hx.
  - rewrite (Hl1 a (or_introl eq_refl)). apply IH.
    intros y Hy. apply Hl1. now right.
Qed.

Lemma find_no_hit {A : Type} (f : A -> bool) (l : list A) :
  (forall y, In y l -> f y = false) -> List.find f l = None.
Proof.
  induction l as [|a l IH]; intros H; simpl; [reflexivity|].
  rewrite (H a (or_introl eq_refl)). apply IH.
  intros y Hy. apply H. now right.
Qed.

Lemma count_markers_app (l1 l2 : list string) :
  count_markers (l1 ++ l2) = (count_markers l1 + count_markers l2)%nat.
Proof.
  unfold count_markers. now rewrite filter_app, length_app.
Qed.

Lemma count_markers_cons (l : string) (ls : list string) :
  count_markers (l :: ls)
  = ((if has_marker l then 1 else 0) + count_markers ls)%nat.
Proof.
  unfold count_markers. simpl. now destruct (has_marker l).
Qed.

Lemma count_markers_zero (ls : list string) :
  count_markers ls = 0%nat <-> (forall l, In l ls -> has_marker l = false).
Proof.
  induction ls as [|a ls IH].
  - split; [intros _ l []|reflexivity].
  - rewrite count_markers_cons. split.
    + intros H l [<-|Hl].
      * destruct (has_marker a); [discriminate|reflexivity].
      * apply IH; [|exact Hl]. destruct (has_marker a); [discriminate|exact H].
    + intros H. rewrite (H a (or_introl eq_refl)). simpl.
      apply IH. intros l Hl. apply H. now right.
Qed.

Lemma last_marker_index_split (pre post : list string) (m : string) :
  has_marker m = true -> count_markers post = 0%nat ->
  last_marker_index (pre ++ m :: post) = Some (List.length pre).
Proof.
  intros Hm Hpost. unfold last_marker_index.
  rewrite length_app. simpl List.length.
  rewrite seq_app. simpl seq. rewrite rev_app_distr. simpl rev.
  rewrite <- app_assoc. simpl app.
  apply find_first_hit.
  - intros i Hi. apply in_rev in Hi. apply in_seq in Hi.
    rewrite app_nth2 by lia.
    replace (i - List.length pre)%nat with (S (i - S (List.length pre)))
      by lia.
    simpl nth. apply (proj1 (count_markers_zero post) Hpost).
    apply nth_In. lia.
  - now rewrite nth_middle.
Qed.

Lemma last_marker_index_none (log_lines : list string) :
  count_markers log_lines = 0%nat -> last_marker_index log_lines = None.
Proof.
  intros H. unfold last_marker_index. apply find_no_hit.
  intros i Hi. apply in_rev in Hi. apply in_seq in Hi.
  apply (proj1 (count_markers_zero log_lines) H). apply nth_In. lia.
Qed.

Lemma skipn_past_marker (pre post : list string) (m : string) :
  skipn (List.length pre + 1) (pre ++ m :: post) = post.
Proof.
  induction pre as [|a pre IH]; simpl; [reflexivity|exact IH].
Qed.

(** A log with a marker splits at its last marker. *)
Lemma split_at_last_marker (log_lines : list string) :
  (1 <= count_markers log_lines)%nat ->
  exists pre m post,
    log_lines = pre ++ m :: post /\ has_marker m = true
    /\ count_markers post = 0%nat
    /\ count_markers log_lines = S (count_markers pre).
Proof.
  induction log_lines as [|a ls IH]; intros H.
  - unfold count_markers in H. simpl in H. lia.
  - destruct (Nat.eq_dec (count_markers ls) 0) as [Hz|Hnz].
    + exists [], a, ls. rewrite count_markers_cons in *.
      destruct (has_marker a); [|lia].
      repeat split; [exact Hz|]. rewrite Hz. reflexivity.
    + destruct IH as (pre & m & post & -> & Hm & Hpost & Hc); [lia|].
      exists (a :: pre), m, post. repeat split; try assumption.
      change ((a :: pre) ++ m :: post) with (a :: (pre ++ m :: post)).
      rewrite !count_markers_cons, Hc. lia.
Qed.

Lemma parse_log_file_after_marker (pre post : list string) (m : string) :
  has_marker m = true -> count_markers post = 0%nat ->
  parse_log_file (pre ++ m :: post) = aggregate post.
Proof.
  intros Hm Hpost. unfold parse_log_file.
  rewrite (last_marker_index_split pre post m Hm Hpost).
  now rewrite skipn_past_marker.
Qed.

(** *** One line of the log *)

Lemma count_lines_cons test line lines :
  count_lines test (line :: lines)
  = (b2z (test line) + count_lines test lines)%Z.
Proof.
  unfold count_lines. cbn [filter].
  destruct (test line); cbn [List.length b2z]; lia.
Qed.

Lemma latency_samples_cons line lines :
  latency_samples (line :: lines) = line_samples line ++ latency_samples lines.
Proof. reflexivity. Qed.

(** Whether the body of the loop raises on a line, and what, is decided
    by the line alone; when the body completes, so is what it adds to
    each counter and to the samples. *)
Lemma process_line_effect devices m line :
  match line_error line with
  | Some e => process_line (devices, m) line = Raise e
  | None =>
      exists devices',
        process_line (devices, m) line
        = Ret (devices',
               mkMetrics (m_gpu_usage m)
                         (m_num_jobs m + b2z (counted is_acceptance line))
                         (m_success_jobs m + b2z (counted is_completion line))
                         (m_failed_jobs m + b2z (counted is_warning line))
                         (m_latency m ++ line_samples line)
                         (m_jobs_being_processed m
                          + b2z (counted is_acceptance line)
                          - b2z (counted is_completion line)))
        /\ Z.of_nat (List.length (line_samples line))
           = b2z (counted is_completion line)
  end.
Proof.
  unfold line_error, device_number_too_long, json_error, unreadable, counted,
    line_samples, total_time, process_line, register_device, decode_fails,
    count_line, is_acceptance, is_completion, is_warning, PyStr.py_int.
  destruct (Re.search device_info_pattern line) as [dm|];
    [destruct (PyNum.int_max_str_digits <? _)%nat; [reflexivity|]|];
    (destruct (job_response line) as [[| | |]|]; cbn [negb andb b2z];
     try reflexivity;
     [ | eexists; (split; [|reflexivity]);
         rewrite !Z.add_0_r, Z.sub_0_r, app_nil_r; now destruct m | ];
     (destruct (Re.search job_completed_pattern line) as [gs|];
      [destruct (PyStr.py_float (Re.group 2 gs))|];
      cbn [andb]; try reflexivity;
      destruct (PyStr.contains "Processing Request ID" line);
      destruct (PyStr.contains "WARNING" line);
      cbn [b2z m_gpu_usage m_num_jobs m_success_jobs m_failed_jobs
             m_latency m_jobs_being_processed List.length];
      eexists; (split; [|reflexivity]);
      rewrite ?Z.add_0_r, ?Z.sub_0_r, ?app_nil_r; destruct m; reflexivity)).
Qed.

(** The loop over the lines stops at the first line that raises, and
    otherwise adds up the effects of the lines. *)
Lemma process_lines_effect lines : forall devices m,
  match first_error lines with
  | Some e => process_lines (devices, m) lines = Raise e
  | None =>
      exists devices',
        process_lines (devices, m) lines
        = Ret (devices',
               mkMetrics (m_gpu_usage m)
                         (m_num_jobs m
                          + count_lines (counted is_acceptance) lines)
                         (m_success_jobs m
                          + count_lines (counted is_completion) lines)
                         (m_failed_jobs m
                          + count_lines (counted is_warning) lines)
                         (m_latency m ++ latency_samples lines)
                         (m_jobs_being_processed m
                          + count_lines (counted is_acceptance) lines
                          - count_lines (counted is_completion) lines))
        /\ Z.of_nat (List.length (latency_samples lines))
           = count_lines (counted is_completion) lines
  end.
Proof.
  induction lines as [|line rest IH]; intros devices m.
  - cbn [first_error]. exists devices. split; [|reflexivity].
    cbn. rewrite !Z.add_0_r, Z.sub_0_r, app_nil_r. now destruct m.
  - cbn [first_error process_lines].
    pose proof (process_line_effect devices m line) as Hline.
    destruct (line_error line) as [e|].
    + now rewrite Hline.
    + destruct Hline as (d1 & Hline & Hlen). rewrite Hline.
      specialize (IH d1 (mkMetrics (m_gpu_usage m)
                       (m_num_jobs m + b2z (counted is_acceptance line))
                       (m_success_jobs m + b2z (counted is_completion line))
                       (m_failed_jobs m + b2z (counted is_warning line))
                       (m_latency m ++ line_samples line)
                       (m_jobs_being_processed m
                        + b2z (counted is_acceptance line)
                        - b2z (counted is_completion line)))).
      destruct (first_error rest) as [e|]; [exact IH|].
      destruct IH as (d2 & IH & Hlen'). exists d2.
      rewrite IH. cbn [m_gpu_usage m_num_jobs m_success_jobs m_failed_jobs
                         m_latency m_jobs_being_processed].
      rewrite !count_lines_cons, latency_samples_cons, length_app,
        <- app_assoc.
      split; [|lia].
      match goal with
      | |- Ret (_, ?a) = Ret (_, ?b) => assert (Heq : a = b)
      end.
      { f_equal; lia. }
      now rewrite Heq.
Qed.

(** The quotient is only formed for a list with an element. *)
Lemma average_latency_returns (xs : list PyNum.float) :
  exists avg,
    average_latency xs = Ret avg
    /\ (xs = [] -> avg = PyNum.PyInt 0)
    /\ (xs <> [] -> exists f, avg = PyNum.PyFloat f).
Proof.
  destruct xs as [|x xs].
  - exists (PyNum.PyInt 0). repeat split. now intros [].
  - cbn [average_latency py_div List.length]. eexists.
    split; [reflexivity|]. split; [discriminate|].
    intros _. eexists. reflexivity.
Qed.

(** What [aggregate] gives for the lines after the marker. *)
Lemma aggregate_effect (lines : list string) :
  match first_error lines with
  | Some e => aggregate lines = Raise e
  | None =>
      exists avg,
        aggregate lines
        = Ret (mkRunMetrics nvml_gpu_usage
                 (count_lines (counted is_acceptance) lines)
                 (count_lines (counted is_completion) lines)
                 (count_lines (counted is_warning) lines)
                 avg
                 (count_lines (counted is_acceptance) lines
                  - count_lines (counted is_completion) lines))
        /\ average_latency (latency_samples lines) = Ret avg
  end.
Proof.
  unfold aggregate.
  pose proof (process_lines_effect lines [] initial_metrics) as H.
  destruct (first_error lines) as [e|]; [now rewrite H|].
  destruct H as (d & -> & Hlen).
  unfold finish. cbn [snd m_latency m_gpu_usage m_num_jobs m_success_jobs
                        m_failed_jobs m_jobs_being_processed initial_metrics app].
  destruct (average_latency_returns (latency_samples lines))
    as (avg & -> & _).
  exists avg. split; reflexivity.
Qed.

(** The body of the loop raises nothing but the [ValueError] of [int],
    [float] and [json.loads] and the [RecursionError] of [json.loads]. *)
Lemma line_error_kind line e :
  line_error line = Some e -> e = ValueError \/ e = RecursionError.
Proof.
  unfold line_error, json_error.
  destruct (device_number_too_long line);
    [intros H; injection H as <-; now left|].
  destruct (job_response line) as [[| | |]|];
    try (destruct (unreadable line); [|discriminate]);
    intros H; injection H as <-; (now left) || (now right).
Qed.

(** The first error of a list of lines is the error of one of them, and
    there is none exactly when no line has one. *)
Lemma first_error_none lines :
  first_error lines = None
  <-> forall line, In line lines -> line_error line = None.
Proof.
  induction lines as [|line rest IH]; cbn [first_error In].
  - split; [intros _ l []|reflexivity].
  - destruct (line_error line) as [e|] eqn:He.
    + split; [discriminate|]. intros H.
      specialize (H line (or_introl eq_refl)). congruence.
    + rewrite IH. split.
      * intros H l [<-|Hl]; [exact He|now apply H].
      * intros H l Hl. apply H. now right.
Qed.

Lemma first_error_split lines e :
  first_error lines = Some e
  <-> exists before line after,
        lines = before ++ line :: after
        /\ (forall l, In l before -> line_error l = None)
        /\ line_error line = Some e.
Proof.
  induction lines as [|line rest IH]; cbn [first_error].
  - split; [discriminate|].
    intros (before & l & after & H & _). now destruct before.
  - destruct (line_error line) as [e'|] eqn:He.
    + split.
      * intros H. exists [], line, rest. rewrite <- H.
        repeat split; [intros l []|exact He].
      * intros (before & l & after & H & Hb & Hl).
        destruct before as [|b before]; cbn [app] in H;
          injection H as <- ->.
        -- congruence.
        -- specialize (Hb line (or_introl eq_refl)). congruence.
    + rewrite IH. split.
      * intros (before & l & after & -> & Hb & Hl).
        exists (line :: before), l, after. repeat split; [|exact Hl].
        intros l' [<-|Hl']; [exact He|now apply Hb].
      * intros (before & l & after & H & Hb & Hl).
        destruct before as [|b before]; cbn [app] in H;
          injection H as <- ->.
        -- congruence.
        -- exists before, l, after. repeat split; [|exact Hl].
           intros l' Hl'. apply Hb. now right.
Qed.

(** A line that is no job completion adds no sample and is not unreadable. *)
Lemma line_samples_no_completion line :
  is_completion line = false ->
  line_samples line = [] /\ unreadable line = false
  /\ counted is_completion line = false.
Proof.
  unfold is_completion, line_samples, unreadable, counted, total_time,
    is_completion.
  destruct (Re.search job_completed_pattern line); [discriminate|].
  intros _. destruct (decode_fails line); repeat split.
Qed.

Lemma latency_samples_no_completion lines :
  (forall line, In line lines -> is_completion line = false) ->
  latency_samples lines = []
  /\ count_lines (counted is_completion) lines = 0%Z.
Proof.
  induction lines as [|line rest IH]; intros Hno; [split; reflexivity|].
  rewrite latency_samples_cons, count_lines_cons.
  destruct (line_samples_no_completion line (Hno line (or_introl eq_refl)))
    as (-> & _ & ->).
  destruct (IH (fun l Hl => Hno l (or_intror Hl))) as (-> & ->).
  split; reflexivity.
Qed.

(** *** The claims about [parse_log_file] *)

(** C5.  When a log has two or more run-start marker lines, it splits at
    the last of them into [pre], the marker line [m] and [post]; the
    result of [parse_log_file] is the aggregate of [post] alone, and it
    is the same whatever lines stand at or before the marker: no line
    there contributes to any returned field. *)
Theorem parse_log_file_uses_only_lines_after_last_marker :
  forall log_lines : list string,
    (2 <= count_markers log_lines)%nat ->
    exists pre m post,
      log_lines = pre ++ m :: post
      /\ has_marker m = true
      /\ (1 <= count_markers pre)%nat
      /\ count_markers post = 0%nat
      /\ parse_log_file log_lines = aggregate post
      /\ forall pre' m',
           has_marker m' = true ->
           parse_log_file (pre' ++ m' :: post) = parse_log_file log_lines.
Proof.
  intros log_lines H2.
  destruct (split_at_last_marker log_lines) as (pre & m & post & -> & Hm & Hpost & Hc);
    [lia|].
  exists pre, m, post. repeat split; try assumption; try lia.
  - now apply parse_log_file_after_marker.
  - intros pre' m' Hm'.
    now rewrite !parse_log_file_after_marker.
Qed.

(** C6.  On a log without any run-start marker line [parse_log_file]
    raises ([StopIteration]) instead of returning a record; a log that
    ends with a marker, hence with no activity, returns the all-zero
    record, so the two cases are told apart. *)
Theorem parse_log_file_raises_without_marker :
  forall log_lines : list string,
    count_markers log_lines = 0%nat ->
    parse_log_file log_lines = Raise StopIteration
    /\ (forall r, parse_log_file log_lines <> Ret r)
    /\ parse_log_file (log_lines ++ [marker_line]) = Ret idle_metrics.
Proof.
  intros log_lines H. unfold parse_log_file at 1 2.
  rewrite (last_marker_index_none log_lines H).
  repeat split; [discriminate|].
  rewrite parse_log_file_after_marker; reflexivity.
Qed.

(** C9.  When no line after the last marker is a job completion,
    [parse_log_file] never divides by zero, and the record it returns
    has average latency exactly 0, the integer (and no successful job).
    It returns exactly when no line after the marker makes [int] or
    [json.loads] raise: a device number of more than 4300 digits is a
    [ValueError], and of [json.loads] only [JSONDecodeError] is
    caught. *)
Theorem parse_log_file_zero_latency_without_completions :
  forall (pre post : list string) (m : string),
    has_marker m = true ->
    count_markers post = 0%nat ->
    (forall line, In line post -> is_completion line = false) ->
    parse_log_file (pre ++ m :: post) <> Raise ZeroDivisionError
    /\ (forall r, parse_log_file (pre ++ m :: post) = Ret r ->
                  latency r = PyNum.PyInt 0 /\ success_jobs r = 0%Z)
    /\ ((exists r, parse_log_file (pre ++ m :: post) = Ret r)
        <-> forall line, In line post ->
                         device_number_too_long line = false
                         /\ json_error line = None).
Proof.
  intros pre post m Hm Hpost Hno.
  rewrite (parse_log_file_after_marker pre post m Hm Hpost).
  destruct (latency_samples_no_completion post Hno) as (Hsamples & Hcount).
  assert (Herr : forall line, In line post ->
            (line_error line = None
             <-> device_number_too_long line = false
                 /\ json_error line = None)).
  { intros line Hin. unfold line_error.
    destruct (line_samples_no_completion line (Hno line Hin))
      as (_ & -> & _).
    destruct (device_number_too_long line);
      destruct (json_error line);
      split; try discriminate; try (intros [? ?]; discriminate);
      try (intros _; split; reflexivity); reflexivity. }
  pose proof (aggregate_effect post) as H.
  destruct (first_error post) as [e|] eqn:Hfirst.
  - rewrite H. split; [|split; [discriminate|split]].
    + apply first_error_split in Hfirst.
      destruct Hfirst as (before & line & after & _ & _ & He).
      apply line_error_kind in He. destruct He as [-> | ->]; discriminate.
    + intros (r & Hr). discriminate.
    + intros Hall. exfalso.
      assert (Hnone : first_error post = None).
      { apply first_error_none. intros line Hin.
        apply (Herr line Hin). now apply Hall. }
      congruence.
  - destruct H as (avg & -> & Havg). rewrite Hsamples in Havg.
    cbn [average_latency] in Havg. injection Havg as <-.
    split; [discriminate|]. split.
    + intros r Hr. injection Hr as <-. cbn [latency success_jobs].
      split; [reflexivity|exact Hcount].
    + split; [|intros _; eexists; reflexivity].
      intros _ line Hin. apply (Herr line Hin).
      now apply (proj1 (first_error_none post) Hfirst).
Qed.

(** C10.  A log on which [parse_log_file] returns splits at its last
    marker, and the record counts the lines after it: [num_jobs] is the
    number of acceptance lines and [success_jobs] the number of
    completion lines, among the lines the [continue] of the
    [JSONDecodeError] handler does not skip; [jobs_being_processed] is
    their difference, one more for each such acceptance and one less
    for each such completion, whatever the other lines are.  It is
    negative exactly when these completions outnumber these
    acceptances. *)
Theorem parse_log_file_jobs_being_processed_balance :
  forall (log_lines : list string) (r : run_metrics),
    parse_log_file log_lines = Ret r ->
    exists pre m post,
      log_lines = pre ++ m :: post
      /\ has_marker m = true
      /\ count_markers post = 0%nat
      /\ num_jobs r = count_lines (counted is_acceptance) post
      /\ success_jobs r = count_lines (counted is_completion) post
      /\ jobs_being_processed r = (num_jobs r - success_jobs r)%Z
      /\ ((jobs_being_processed r < 0)%Z
          <-> (count_lines (counted is_acceptance) post
               < count_lines (counted is_completion) post)%Z).
Proof.
  intros log_lines r Hr.
  destruct (Nat.eq_dec (count_markers log_lines) 0) as [Hz|Hnz].
  - unfold parse_log_file in Hr.
    rewrite (last_marker_index_none log_lines Hz) in Hr. discriminate.
  - destruct (split_at_last_marker log_lines)
      as (pre & m & post & -> & Hm & Hpost & _); [lia|].
    exists pre, m, post.
    rewrite (parse_log_file_after_marker pre post m Hm Hpost) in Hr.
    pose proof (aggregate_effect post) as H.
    destruct (first_error post) as [e|]; [rewrite H in Hr; discriminate|].
    destruct H as (avg & H & _). rewrite H in Hr. injection Hr as <-.
    cbn [num_jobs success_jobs jobs_being_processed].
    repeat split; try assumption; lia.
Qed.

(** *** Strings: [find], [in] and [split] *)

Lemma prefix_length (p s : string) :
  prefix p s = true -> (String.length p <= String.length s)%nat.
Proof.
  revert p. induction s as [|c s IH]; intros [|a p]; simpl;
    try lia; try discriminate.
  destruct (ascii_dec a c); [|discriminate].
  intros H. apply IH in H. lia.
Qed.

Lemma find_bound (p s : string) (n : nat) :
  PyStr.find p s = Some n -> (n + String.length p <= String.length s)%nat.
Proof.
  revert n. induction s as [|c s IH]; intros n; cbn [PyStr.find].
  - destruct (prefix p EmptyString) eqn:Hp; [|discriminate].
    intros H. injection H as <-. apply prefix_length in Hp. simpl in *. lia.
  - destruct (prefix p (String c s)) eqn:Hp.
    + intros H. injection H as <-. apply prefix_length in Hp. simpl in *. lia.
    + destruct (PyStr.find p s) as [k|]; cbn [option_map]; [|discriminate].
      intros H. injection H as <-. specialize (IH k eq_refl).
      cbn [String.length]. lia.
Qed.

Lemma contains_find (p s : string) :
  PyStr.contains p s
  = match PyStr.find p s with Some _ => true | None => false end.
Proof.
  induction s as [|c s IH]; cbn [PyStr.contains PyStr.find].
  - now destruct (prefix p EmptyString).
  - destruct (prefix p (String c s)); [reflexivity|].
    rewrite IH. now destruct (PyStr.find p s).
Qed.

Lemma split_fuel_head (fuel : nat) (sep s : string) :
  (1 <= fuel)%nat ->
  hd_error (PyStr.split_fuel fuel sep s)
  = Some (match PyStr.find sep s with
          | Some k => PyStr.take k s
          | None => s
          end).
Proof.
  destruct fuel as [|fuel]; [lia|]. intros _. simpl.
  now destruct (PyStr.find sep s).
Qed.

(** The second piece of the split is the segment after the first
    sentinel; there is none when the sentinel does not occur. *)
Lemma warning_message_segment (body : string) :
  warning_message body
  = option_map (PyStr.strip (PyStr.chr PyStr.dquote)) (warning_segment body).
Proof.
  unfold warning_message, warning_segment, PyStr.split.
  destruct (PyStr.find warning_indicator body) as [n|] eqn:Hfind.
  - pose proof (find_bound _ _ _ Hfind) as Hlen.
    change (String.length warning_indicator) with 8%nat in *.
    destruct (String.length body) as [|fuel] eqn:Hbody; [lia|].
    cbn [PyStr.split_fuel]. rewrite Hfind. cbn [nth_error].
    change (String.length warning_indicator) with 8%nat.
    set (rest := PyStr.drop (n + 8) body).
    pose proof (split_fuel_head fuel warning_indicator rest) as Hhd.
    destruct (PyStr.split_fuel fuel warning_indicator rest) as [|x xs];
      (destruct fuel as [|fuel]; [lia|]); specialize (Hhd ltac:(lia));
      simpl in Hhd; [discriminate|].
    injection Hhd as ->. reflexivity.
  - destruct (String.length body); cbn [PyStr.split_fuel];
      rewrite ?Hfind; reflexivity.
Qed.

Lemma warning_segment_contains (body : string) :
  PyStr.contains warning_indicator body = true ->
  exists seg, warning_segment body = Some seg.
Proof.
  rewrite contains_find. unfold warning_segment.
  destruct (PyStr.find warning_indicator body); [|discriminate].
  intros _. eexists. reflexivity.
Qed.

(** *** Timestamps *)

Lemma Qlt_bool_negb (x y : Q) : Qlt_bool x y = negb (Qge_bool x y).
Proof.
  unfold Qlt_bool, Qge_bool, Qle_bool. apply Z.ltb_antisym.
Qed.

Lemma Qge_bool_true (x y : Q) : Qge_bool x y = true <-> (y <= x)%Q.
Proof. unfold Qge_bool. apply Qle_bool_iff. Qed.

Lemma Qge_bool_false (x y : Q) : Qge_bool x y = false <-> (x < y)%Q.
Proof.
  split; intros H.
  - apply Qnot_le_lt. intros Hle. apply Qge_bool_true in Hle. congruence.
  - destruct (Qge_bool x y) eqn:E; [|reflexivity].
    apply Qge_bool_true in E. exfalso. exact (Qlt_not_le _ _ H E).
Qed.

(** *** Actions *)

Lemma miner_requests_app (e1 e2 : list event) :
  miner_requests (e1 ++ e2) = miner_requests e1 ++ miner_requests e2.
Proof.
  induction e1 as [|e e1 IH]; simpl; [reflexivity|].
  destruct e as [| | url [r|s] | | | | | | | | |]; simpl; now rewrite IH.
Qed.

Lemma spawned_app (e1 e2 : list event) :
  spawned (e1 ++ e2) = spawned e1 ++ spawned e2.
Proof.
  induction e1 as [|e e1 IH]; simpl; [reflexivity|].
  destruct e; simpl; now rewrite IH.
Qed.

(** *** [send_miner_request] step by step *)

(** The whole effect of one call, by the outcome of [post_request]. *)
Lemma send_miner_request_run (model_id : option string) (deadline : Z) (w : world) :
  let config := cfg w in
  let due := heartbeat_due w in
  let config1 :=
    if due then set_last_heartbeat (clock (S (ticks w))) config else config in
  let t1 := if due then S (S (ticks w)) else S (ticks w) in
  let ev0 :=
    if due then events w ++ [ELog DEBUG "Heartbeat updated"] else events w in
  let url := (base_url config ++ "/miner_request")%string in
  let data := MinerRequest (request_of model_id deadline w) in
  let ev1 := ev0 ++ [EPost url data] in
  let latency := (clock (S t1) - clock t1)%Q in
  send_miner_request model_id deadline w
  = match post_request (posts w) url data with
    | PostRaise =>
        (Raise RequestError, mkWorld config1 (S t1) (S (posts w)) ev1)
    | PostNone =>
        (Ret (log_response None (miner_id config), latency),
         mkWorld config1 (S (S t1)) (S (posts w)) ev1)
    | PostResponse r =>
        if truthy r && PyStr.contains warning_indicator (text r)
        then
          match warning_message (text r) with
          | Some msg =>
              (Ret (log_response (Some r) (miner_id config), latency),
               mkWorld config1 (S (S t1)) (S (posts w))
                       (ev1 ++ [EPrint ("WARNING: " ++ msg)%string]))
          | None =>
              (Raise IndexError, mkWorld config1 (S (S t1)) (S (posts w)) ev1)
          end
        else
          (Ret (log_response (Some r) (miner_id config), latency),
           mkWorld config1 (S (S t1)) (S (posts w)) ev1)
    end.
Proof.
  cbv zeta. unfold send_miner_request, request_of, heartbeat_due, response_has.
  run_monad.
  destruct (Qge_bool (clock (ticks w) - last_heartbeat (cfg w)) 60);
    run_monad; cbn [req_miner_id req_model_id req_min_deadline];
    (match goal with
     | |- context [post_request ?n ?u ?d] => destruct (post_request n u d) as [r| |]
     end; try reflexivity;
     destruct (truthy r && PyStr.contains warning_indicator (text r));
     try reflexivity;
     destruct (warning_message (text r)); reflexivity).
Qed.

(** What one call leaves behind, whatever [post_request] does. *)
Lemma send_miner_request_world (model_id : option string) (deadline : Z) (w : world) :
  let w1 := snd (send_miner_request model_id deadline w) in
  cfg w1 = (if heartbeat_due w
            then set_last_heartbeat (clock (S (ticks w))) (cfg w)
            else cfg w)
  /\ miner_requests (events w1)
     = miner_requests (events w) ++ [request_of model_id deadline w]
  /\ (ticks w < ticks w1)%nat
  /\ (heartbeat_due w = false -> ticks w1 <= ticks w + 3)%nat
  /\ (forall c, fst (send_miner_request model_id deadline w) <> Exit c).
Proof.
  cbv zeta. rewrite send_miner_request_run. cbv zeta.
  set (url := (base_url (cfg w) ++ "/miner_request")%string).
  destruct (post_request (posts w) url
              (MinerRequest (request_of model_id deadline w))) as [r| |];
    [destruct (truthy r && PyStr.contains warning_indicator (text r));
     [destruct (warning_message (text r))|]| |];
    destruct (heartbeat_due w);
    cbn [fst snd cfg ticks events];
    rewrite ?miner_requests_app; cbn [miner_requests];
    rewrite ?app_nil_r;
    repeat split; try lia; try discriminate; intros _; lia.
Qed.

Lemma request_of_attaches (model_id : option string) (deadline : Z) (w : world) :
  attaches_hardware (request_of model_id deadline w) = heartbeat_due w.
Proof.
  unfold request_of. now destruct (heartbeat_due w).
Qed.

Lemma poll_repeatedly_cons model_id deadline rest (w : world) :
  snd (poll_repeatedly ((model_id, deadline) :: rest) w)
  = snd (poll_repeatedly rest (snd (send_miner_request model_id deadline w))).
Proof.
  cbn [poll_repeatedly]. unfold bind, try_except.
  pose proof (send_miner_request_world model_id deadline w) as H.
  cbv zeta in H. destruct H as (_ & _ & _ & _ & Hexit).
  destruct (send_miner_request model_id deadline w) as [[a|e|c] w'];
    cbn [fst snd] in *; try reflexivity.
  now destruct (Hexit c).
Qed.

(** Calls whose clock readings all lie within 60 seconds of the stored
    heartbeat attach nothing and leave the heartbeat alone. *)
Lemma poll_repeatedly_in_window (calls : list (option string * Z)) :
  forall w : world,
    (forall k, (ticks w <= k < ticks w + 3 * List.length calls)%nat ->
               (clock k - last_heartbeat (cfg w) < 60)%Q) ->
    exists reqs,
      miner_requests (events (snd (poll_repeatedly calls w)))
      = miner_requests (events w) ++ reqs
      /\ List.length reqs = List.length calls
      /\ Forall (fun r => attaches_hardware r = false) reqs
      /\ cfg (snd (poll_repeatedly calls w)) = cfg w.
Proof.
  induction calls as [|[model_id deadline] rest IH]; intros w Hwin.
  - exists []. cbn. rewrite app_nil_r. repeat split. constructor.
  - rewrite poll_repeatedly_cons.
    pose proof (send_miner_request_world model_id deadline w) as H.
    cbv zeta in H. destruct H as (Hcfg & Hreq & Hlt & Hle & _).
    assert (Hdue : heartbeat_due w = false).
    { unfold heartbeat_due. apply Qge_bool_false. apply Hwin.
      cbn [List.length]. lia. }
    rewrite Hdue in Hcfg. specialize (Hle Hdue).
    set (w1 := snd (send_miner_request model_id deadline w)) in *.
    destruct (IH w1) as (reqs & Hreqs & Hlen & Hall & Hcfg').
    { intros k Hk. rewrite Hcfg. apply Hwin. cbn [List.length]. lia. }
    exists (request_of model_id deadline w :: reqs).
    rewrite Hreqs, Hreq, <- app_assoc. cbn [app List.length].
    repeat split.
    + now rewrite Hlen.
    + constructor; [|exact Hall]. now rewrite request_of_attaches.
    + now rewrite Hcfg'.
Qed.

(** *** The claims about [send_miner_request] *)

(** C8.  The request a call of [send_miner_request] hands over carries
    the hardware description if and only if [now - last_heartbeat >= 60]
    at the start of the call.  After that call, calls whose clock
    readings stay within 60 seconds of the stored heartbeat attach
    nothing and leave the heartbeat as it is, until a reading is 60
    seconds or more past it. *)
Theorem heartbeat_attached_iff_interval_elapsed :
  forall (model_id : option string) (deadline : Z) (w : world),
    let now := clock (ticks w) in
    let w1 := snd (send_miner_request model_id deadline w) in
    (exists req,
        miner_requests (events w1) = miner_requests (events w) ++ [req]
        /\ (attaches_hardware req = true
            <-> (now - last_heartbeat (cfg w) >= 60)%Q)
        /\ (attaches_hardware req = true ->
            last_heartbeat (cfg w1) = clock (S (ticks w))))
    /\ forall calls : list (option string * Z),
         (forall k, (ticks w1 <= k < ticks w1 + 3 * List.length calls)%nat ->
                    (clock k - last_heartbeat (cfg w1) < 60)%Q) ->
         let w2 := snd (poll_repeatedly calls w1) in
         exists reqs,
           miner_requests (events w2) = miner_requests (events w1) ++ reqs
           /\ List.length reqs = List.length calls
           /\ Forall (fun r => attaches_hardware r = false) reqs
           /\ last_heartbeat (cfg w2) = last_heartbeat (cfg w1).
Proof.
  intros model_id deadline w now w1. split.
  - pose proof (send_miner_request_world model_id deadline w) as H.
    cbv zeta in H. destruct H as (Hcfg & Hreq & _).
    exists (request_of model_id deadline w). fold w1 in Hcfg, Hreq.
    rewrite request_of_attaches. repeat split.
    + exact Hreq.
    + intros H. apply Qge_bool_true. exact H.
    + intros H. apply Qge_bool_true. exact H.
    + intros H. rewrite Hcfg, H. reflexivity.
  - intros calls Hwin w2.
    destruct (poll_repeatedly_in_window calls w1 Hwin)
      as (reqs & Hreqs & Hlen & Hall & Hcfg).
    exists reqs. subst w2. rewrite Hcfg. repeat split; assumption.
Qed.

(** C2 as the code has it.  When the heartbeat interval has elapsed,
    [last_heartbeat] is set to the clock reading taken right after the
    decision, before the request is handed to [post_request]; it keeps
    that value whether [post_request] yields a response, yields [None]
    or raises. *)
Theorem heartbeat_updated_whatever_post_request_does :
  forall (model_id : option string) (deadline : Z) (w : world),
    (clock (ticks w) - last_heartbeat (cfg w) >= 60)%Q ->
    let w1 := snd (send_miner_request model_id deadline w) in
    last_heartbeat (cfg w1) = clock (S (ticks w))
    /\ miner_requests (events w1)
       = miner_requests (events w) ++ [request_of model_id deadline w]
    /\ attaches_hardware (request_of model_id deadline w) = true.
Proof.
  intros model_id deadline w Hdue w1.
  assert (Hd : heartbeat_due w = true) by (apply Qge_bool_true; exact Hdue).
  pose proof (send_miner_request_world model_id deadline w) as H.
  cbv zeta in H. destruct H as (Hcfg & Hreq & _). fold w1 in Hcfg, Hreq.
  rewrite request_of_attaches, Hcfg, Hd. repeat split. exact Hreq.
Qed.

(** C4 as the code has it.  For a truthy response whose body contains
    [Warning:], the call prints the text between the first [Warning:]
    and the next one, or the end of the body when there is no other,
    stripped of the double quotes at its two ends; it does not fail and
    returns what [log_response] makes of the same response, job
    included.  A body that is [Warning:] followed by the quoted words
    [disk almost full] gives exactly these words. *)
Theorem warning_extracted_and_job_returned :
  forall (model_id : option string) (deadline : Z) (w : world) (r : response),
    post_request (posts w) (base_url (cfg w) ++ "/miner_request")
                 (MinerRequest (request_of model_id deadline w))
    = PostResponse r ->
    truthy r = true ->
    PyStr.contains warning_indicator (text r) = true ->
    (exists seg latency w1 evs,
        warning_segment (text r) = Some seg
        /\ send_miner_request model_id deadline w
           = (Ret (log_response (Some r) (miner_id (cfg w)), latency), w1)
        /\ events w1
           = evs ++ [EPrint ("WARNING: "
                             ++ PyStr.strip (PyStr.chr PyStr.dquote) seg)])
    /\ warning_message
         ("Warning:" ++ PyStr.chr PyStr.dquote ++ "disk almost full"
          ++ PyStr.chr PyStr.dquote)
       = Some "disk almost full".
Proof.
  intros model_id deadline w r Hpost Htruthy Hwarn.
  split; [|reflexivity].
  destruct (warning_segment_contains (text r) Hwarn) as (seg & Hseg).
  rewrite send_miner_request_run. cbv zeta.
  rewrite Hpost, Htruthy, Hwarn, warning_message_segment, Hseg.
  cbn [andb option_map].
  do 4 eexists. split; [reflexivity|]. split; reflexivity.
Qed.

(** *** [check_and_reload_model] *)

Lemma should_reload_needs_local (config : config) (m : option string) :
  get_local_model_ids config = [] -> should_reload config m = false.
Proof.
  intros H. unfold should_reload. destruct m; [|reflexivity].
  now rewrite H.
Qed.

(** C1 as the code has it.  When the reload interval has elapsed, the
    value returned by [check_and_reload_model] is [now] in every case in
    which the call returns: [post_request] yields [None], the response
    is falsy or not a 200, the model id is not applied, or it is
    applied.  When the interval has not elapsed, the input value is
    returned unchanged and nothing is posted. *)
Theorem check_and_reload_model_returns_now_when_due :
  forall (last_signal_time : Q) (w : world),
    let now := clock (ticks w) in
    ((now - last_signal_time >= reload_interval (cfg w))%Q ->
     fst (check_and_reload_model last_signal_time w)
     = match post_request (posts w) (signal_url (cfg w) ++ "/miner_signal")
                          (signal_of (cfg w)) with
       | PostRaise => Raise RequestError
       | PostNone => Ret now
       | PostResponse r =>
           if truthy r && (status_code r =? 200)%Z
           then match json_model_id r with
                | None => Raise JSONError
                | Some _ => Ret now
                end
           else Ret now
       end)
    /\ ((now - last_signal_time < reload_interval (cfg w))%Q ->
        check_and_reload_model last_signal_time w
        = (Ret last_signal_time,
           mkWorld (cfg w) (S (ticks w)) (posts w) (events w))).
Proof.
  intros lst w now. subst now. split; intros Hdue.
  - apply Qge_bool_true in Hdue.
    unfold check_and_reload_model. run_monad. rewrite Hdue.
    destruct (current_model (cfg w)); run_monad;
      (destruct (post_request _ _ _) as [r| |];
       [destruct (truthy r && (status_code r =? 200)%Z);
        [destruct (json_model_id r) as [m|];
         [destruct (should_reload (cfg w) m); [destruct m as [id|]|]|]|]| |]);
      run_monad; cbn [fst snd cfg];
      first [ reflexivity
            | rewrite Qlt_bool_negb, Hdue; reflexivity
            | destruct (Qlt_bool _ _); reflexivity ].
  - apply Qge_bool_false in Hdue.
    unfold check_and_reload_model. run_monad. rewrite Hdue.
    run_monad. now rewrite Qlt_bool_negb, Hdue.
Qed.

(** Without any model in local storage nothing is reloaded: the
    configuration stays as it is and no job-poll request is made. *)
Lemma check_and_reload_model_no_local (last_signal_time : Q) (w : world) :
  get_local_model_ids (cfg w) = [] ->
  let w1 := snd (check_and_reload_model last_signal_time w) in
  cfg w1 = cfg w /\ miner_requests (events w1) = miner_requests (events w).
Proof.
  intros Hlocal. cbv zeta. unfold check_and_reload_model. run_monad.
  destruct (Qge_bool _ _); [|split; reflexivity].
  destruct (current_model (cfg w)); run_monad;
    (destruct (post_request _ _ _) as [r| |];
     [destruct (truthy r && (status_code r =? 200)%Z);
      [destruct (json_model_id r) as [m|];
       [rewrite (should_reload_needs_local (cfg w) m Hlocal)|]|]| |]);
    cbn [fst snd cfg events]; rewrite ?miner_requests_app;
    cbn [miner_requests signal_of]; rewrite ?app_nil_r; split; reflexivity.
Qed.

(** *** [process_jobs] and the loop of [main] *)

(** C3 as the code has it.  When no model is found in local storage,
    [process_jobs] leaves through [sys.exit(0)] without any request; so
    does the turn of the loop it belongs to, once
    [check_and_reload_model] has returned, and no job-poll request is
    made in that turn. *)
Theorem process_jobs_exits_without_local_models :
  forall w : world,
    get_local_model_ids (cfg w) = [] ->
    process_jobs w
    = (Exit 0,
       mkWorld (cfg w) (ticks w) (posts w)
               (events w ++ [ELog DEBUG "No models found. Exiting..."]))
    /\ forall (last_signal_time t : Q) (w1 : world),
         check_and_reload_model last_signal_time w = (Ret t, w1) ->
         exists w2,
           worker_iteration last_signal_time w = (Exit 0, w2)
           /\ miner_requests (events w2) = miner_requests (events w).
Proof.
  intros w Hlocal.
  assert (Hexit : forall w' : world,
             get_local_model_ids (cfg w') = [] ->
             process_jobs w'
             = (Exit 0,
                mkWorld (cfg w') (ticks w') (posts w')
                        (events w' ++ [ELog DEBUG "No models found. Exiting..."]))).
  { intros w' H. unfold process_jobs. run_monad. now rewrite H. }
  split; [now apply Hexit|].
  intros lst t w1 Hcheck.
  pose proof (check_and_reload_model_no_local lst w Hlocal) as Hkeep.
  cbv zeta in Hkeep. rewrite Hcheck in Hkeep. cbn [snd] in Hkeep.
  destruct Hkeep as (Hcfg & Hreqs).
  unfold worker_iteration. run_monad. rewrite Hcheck.
  rewrite Hexit by now rewrite Hcfg.
  eexists. split; [reflexivity|].
  cbn [events]. rewrite miner_requests_app. cbn [miner_requests].
  now rewrite app_nil_r.
Qed.

(** *** The supervisor *)

Lemma spawn_all_run (ids : list nat) (w : world) :
  spawn_all ids w
  = (Ret tt, mkWorld (cfg w) (ticks w) (posts w) (events w ++ map ESpawn ids)).
Proof.
  revert w. induction ids as [|i ids IH]; intros w; cbn [spawn_all map].
  - unfold ret. rewrite app_nil_r. now destruct w.
  - run_monad. rewrite IH. cbn [cfg ticks posts events].
    now rewrite <- app_assoc.
Qed.

Lemma join_all_run (ids : list nat) (w : world) :
  join_all ids w
  = (Ret tt, mkWorld (cfg w) (ticks w) (posts w) (events w ++ map EJoin ids)).
Proof.
  revert w. induction ids as [|i ids IH]; intros w; cbn [join_all map].
  - unfold ret. rewrite app_nil_r. now destruct w.
  - run_monad. rewrite IH. cbn [cfg ticks posts events].
    now rewrite <- app_assoc.
Qed.

Lemma spawned_map_spawn (ids : list nat) : spawned (map ESpawn ids) = ids.
Proof. induction ids as [|i ids IH]; cbn; [reflexivity|now rewrite IH]. Qed.

Lemma spawned_map_join (ids : list nat) : spawned (map EJoin ids) = [].
Proof. induction ids as [|i ids IH]; cbn; [reflexivity|exact IH]. Qed.

(** With enough devices, one worker is spawned per configured device
    index. *)
Lemma supervisor_spawns_every_device (w : world) :
  (num_cuda_devices (cfg w) <= torch_cuda_device_count)%Z ->
  fst (supervisor w) = Ret tt
  /\ spawned (events (snd (supervisor w)))
     = spawned (events w) ++ seq 0 (Z.to_nat (num_cuda_devices (cfg w))).
Proof.
  intros Hle. unfold supervisor. run_monad.
  destruct (num_cuda_devices (cfg w) >? torch_cuda_device_count)%Z eqn:Hgt;
    [apply Z.gtb_lt in Hgt; lia|].
  destruct (skip_checksum (cfg w)); run_monad;
    rewrite spawn_all_run; cbn [cfg ticks posts events];
    rewrite join_all_run; cbn [fst snd events];
    (split; [reflexivity|]);
    rewrite !spawned_app, spawned_map_spawn, spawned_map_join;
    cbn [spawned]; now rewrite !app_nil_r.
Qed.

(** C7.  When the configured number of CUDA devices exceeds the number
    detected, the supervisor prints its message to the operator and
    exits with status 1; nothing else happens, so no worker is
    spawned. *)
Theorem supervisor_exits_on_too_many_devices :
  forall w : world,
    (num_cuda_devices (cfg w) > torch_cuda_device_count)%Z ->
    supervisor w
    = (Exit 1,
       mkWorld (cfg w) (ticks w) (posts w)
               (events w ++ [EPrint "Number of CUDA devices specified in config is greater than available. Exiting..."]))
    /\ (1 <> 0)%Z
    /\ spawned (events (snd (supervisor w))) = spawned (events w).
Proof.
  intros w Hgt. apply Z.gt_lt, Z.gtb_lt in Hgt.
  unfold supervisor. run_monad. rewrite Hgt. run_monad.
  repeat split; [discriminate|].
  rewrite spawned_app. cbn [spawned]. now rewrite app_nil_r.
Qed.

(** ** More of the worker *)

(** *** The calls step by step *)

Lemma check_and_reload_model_run (last_signal_time : Q) (w : world) :
  let config := cfg w in
  let now := clock (ticks w) in
  let url := (signal_url config ++ "/miner_signal")%string in
  let ev0 :=
    (match current_model config with
     | None =>
         events w
         ++ [ELog WARNING "No loaded models found. Posting to miner_signal to load a new model."]
     | Some _ => events w
     end) ++ [EPost url (signal_of config)] in
  let failed := [ELog ERROR "Failed to get a valid response from /miner_signal"] in
  let after c evs := mkWorld c (S (ticks w)) (S (posts w)) evs in
  check_and_reload_model last_signal_time w
  = if reload_due last_signal_time w
    then
      match post_request (posts w) url (signal_of config) with
      | PostRaise => (Raise RequestError, after config ev0)
      | PostNone => (Ret now, after config (ev0 ++ failed))
      | PostResponse r =>
          if truthy r && (status_code r =? 200)%Z
          then
            match json_model_id r with
            | None => (Raise JSONError, after config ev0)
            | Some (Some id) =>
                if should_reload config (Some id)
                then (Ret now, after (reload_model config id) (ev0 ++ [EReload id]))
                else (Ret now, after config ev0)
            | Some None => (Ret now, after config ev0)
            end
          else (Ret now, after config (ev0 ++ failed))
      end
    else (Ret last_signal_time,
          mkWorld config (S (ticks w)) (posts w) (events w)).
Proof.
  cbv zeta. unfold check_and_reload_model, reload_due. run_monad.
  destruct (Qge_bool (clock (ticks w) - last_signal_time)
                     (reload_interval (cfg w))) eqn:Hdue.
  - destruct (current_model (cfg w)); run_monad;
      (destruct (post_request _ _ _) as [r| |];
       [destruct (truthy r && (status_code r =? 200)%Z);
        [destruct (json_model_id r) as [[id|]|];
         [destruct (should_reload (cfg w) (Some id))
         |change (should_reload (cfg w) None) with false| ]|]| |]);
      run_monad; cbn [fst snd cfg];
      first [ reflexivity
            | rewrite Qlt_bool_negb, Hdue; reflexivity
            | destruct (Qlt_bool _ _); reflexivity ].
  - run_monad. now rewrite Qlt_bool_negb, Hdue.
Qed.

Lemma process_jobs_run (w : world) :
  get_local_model_ids (cfg w) <> [] ->
  process_jobs w
  = match send_miner_request (model_id_to_send (cfg w)) (min_deadline (cfg w)) w with
    | (Ret (None, _), w1) =>
        (Ret false,
         mkWorld (cfg w1) (ticks w1) (posts w1)
                 (events w1 ++ [ELog INFO "No job received."]))
    | (Ret (Some j, request_latency), w1) =>
        let started := mkWorld (cfg w1) (S (ticks w1)) (posts w1) in
        match job_id j, job_model_id j with
        | Some jid, Some mid =>
            let accepted :=
              events w1 ++ [ELog INFO (acceptance_message jid mid)] in
            match temp_credentials j with
            | Some _ =>
                (Ret true,
                 started (accepted
                          ++ [ESubmit (miner_id (cfg w)) j (clock (ticks w1))
                                      request_latency]))
            | None => (Raise KeyError, started accepted)
            end
        | _, _ => (Raise KeyError, started (events w1))
        end
    | (Raise e, w1) => (Raise e, w1)
    | (Exit c, w1) => (Exit c, w1)
    end.
Proof.
  intros Hlocal. unfold process_jobs, model_id_to_send, acceptance_message.
  run_monad.
  destruct (get_local_model_ids (cfg w)) as [|m ms]; [congruence|].
  destruct (send_miner_request _ _ w) as [[[[j|] lat]|e|c] w1];
    try reflexivity.
  run_monad.
  destruct (job_id j) as [jid|]; run_monad; [|reflexivity].
  destruct (job_model_id j) as [mid|]; run_monad; [|reflexivity].
  destruct (temp_credentials j); run_monad; reflexivity.
Qed.

(** *** Projections of the actions *)

Lemma py_in_In (x : string) (xs : list string) :
  py_in x xs = true <-> In x xs.
Proof.
  unfold py_in. rewrite existsb_exists. split.
  - intros (y & Hy & Heq). apply String.eqb_eq in Heq. now subst.
  - intros H. exists x. split; [exact H|apply String.eqb_refl].
Qed.

Lemma py_in_not_In (x : string) (xs : list string) :
  py_in x xs = false <-> ~ In x xs.
Proof.
  rewrite <- py_in_In. destruct (py_in x xs); split; congruence.
Qed.

(** The sentinel is always followed by a second piece of the split. *)
Lemma warning_message_defined (body : string) :
  PyStr.contains warning_indicator body = true ->
  warning_message body
  = option_map (PyStr.strip (PyStr.chr PyStr.dquote)) (warning_segment body)
  /\ warning_message body <> None.
Proof.
  intros H. split; [apply warning_message_segment|].
  rewrite warning_message_segment.
  destruct (warning_segment_contains body H) as (seg & ->). discriminate.
Qed.

(** Everything one call of [send_miner_request] does. *)
Lemma send_miner_request_summary (model_id : option string) (deadline : Z) (w : world) :
  let url := (base_url (cfg w) ++ "/miner_request")%string in
  let data := MinerRequest (request_of model_id deadline w) in
  let t := if heartbeat_due w then S (S (ticks w)) else S (ticks w) in
  let latency := (clock (S t) - clock t)%Q in
  let w1 := snd (send_miner_request model_id deadline w) in
  fst (send_miner_request model_id deadline w)
  = match post_request (posts w) url data with
    | PostRaise => Raise RequestError
    | PostNone => Ret (log_response None (miner_id (cfg w)), latency)
    | PostResponse r => Ret (log_response (Some r) (miner_id (cfg w)), latency)
    end
  /\ ticks w1 = match post_request (posts w) url data with
                | PostRaise => S t
                | _ => S (S t)
                end
  /\ posts w1 = S (posts w)
  /\ posted (events w1) = posted (events w) ++ [(url, data)]
  /\ printed (events w1)
     = printed (events w)
       ++ match post_request (posts w) url data with
          | PostResponse r =>
              if truthy r && PyStr.contains warning_indicator (text r)
              then match warning_segment (text r) with
                   | Some seg =>
                       [("WARNING: "
                         ++ PyStr.strip (PyStr.chr PyStr.dquote) seg)%string]
                   | None => []
                   end
              else []
          | _ => []
          end
  /\ sleeps (events w1) = sleeps (events w)
  /\ submitted (events w1) = submitted (events w)
  /\ reloads (events w1) = reloads (events w)
  /\ signals (events w1) = signals (events w).
Proof.
  cbv zeta. rewrite send_miner_request_run. cbv zeta.
  set (url := (base_url (cfg w) ++ "/miner_request")%string).
  destruct (post_request (posts w) url
              (MinerRequest (request_of model_id deadline w))) as [r| |].
  - destruct (truthy r && PyStr.contains warning_indicator (text r)) eqn:Hw.
    + apply andb_prop in Hw. destruct Hw as [_ Hw].
      destruct (warning_message_defined (text r) Hw) as [Heq Hsome].
      destruct (warning_segment_contains (text r) Hw) as (seg & Hseg).
      rewrite Heq, Hseg. cbn [option_map fst snd ticks posts events].
      destruct (heartbeat_due w); project; repeat split.
    + cbn [fst snd ticks posts events].
      destruct (heartbeat_due w); project; repeat split.
  - cbn [fst snd ticks posts events].
    destruct (heartbeat_due w); project; repeat split.
  - cbn [fst snd ticks posts events].
    destruct (heartbeat_due w); project; repeat split.
Qed.

(** *** More about [send_miner_request] *)

(** X1.  [send_miner_request] raises only when [post_request] raises.
    Otherwise it returns what [log_response] makes of the response (or
    of [None]) together with the difference of the two clock readings
    taken around the post; the handling of the warning never fails, the
    second piece of the split being there whenever the sentinel is. *)
Theorem send_miner_request_returns_response_data :
  forall (model_id : option string) (deadline : Z) (w : world),
    let t := if heartbeat_due w then S (S (ticks w)) else S (ticks w) in
    fst (send_miner_request model_id deadline w)
    = match post_request (posts w) (base_url (cfg w) ++ "/miner_request")
                         (MinerRequest (request_of model_id deadline w)) with
      | PostRaise => Raise RequestError
      | PostNone =>
          Ret (log_response None (miner_id (cfg w)),
               (clock (S t) - clock t)%Q)
      | PostResponse r =>
          Ret (log_response (Some r) (miner_id (cfg w)),
               (clock (S t) - clock t)%Q)
      end.
Proof.
  intros model_id deadline w.
  exact (proj1 (send_miner_request_summary model_id deadline w)).
Qed.

(** X2.  The only thing [send_miner_request] prints is the warning: one
    line when the response is truthy and its body contains [Warning:],
    nothing when there is no response, when the response is falsy or
    when its body has no sentinel. *)
Theorem send_miner_request_prints_only_warnings :
  forall (model_id : option string) (deadline : Z) (w : world),
    let w1 := snd (send_miner_request model_id deadline w) in
    match post_request (posts w) (base_url (cfg w) ++ "/miner_request")
                       (MinerRequest (request_of model_id deadline w)) with
    | PostResponse r =>
        if truthy r && PyStr.contains warning_indicator (text r)
        then exists msg, printed (events w1)
                         = printed (events w) ++ [("WARNING: " ++ msg)%string]
        else printed (events w1) = printed (events w)
    | _ => printed (events w1) = printed (events w)
    end.
Proof.
  intros model_id deadline w w1.
  destruct (send_miner_request_summary model_id deadline w)
    as (_ & _ & _ & _ & Hprinted & _).
  cbv zeta in Hprinted. fold w1 in Hprinted.
  destruct (post_request _ _ _) as [r| |];
    try (now rewrite Hprinted, app_nil_r).
  destruct (truthy r && PyStr.contains warning_indicator (text r)) eqn:Hw.
  - apply andb_prop in Hw. destruct Hw as [_ Hw].
    destruct (warning_segment_contains (text r) Hw) as (seg & Hseg).
    rewrite Hseg in Hprinted. eexists. exact Hprinted.
  - now rewrite Hprinted, app_nil_r.
Qed.

(** X3.  Every call of [send_miner_request] makes exactly one request,
    to [base_url + "/miner_request"], with the miner id of the
    configuration and the model id and deadline it was given; the
    version is in the request exactly when the hardware description
    is. *)
Theorem send_miner_request_posts_one_request :
  forall (model_id : option string) (deadline : Z) (w : world),
    let w1 := snd (send_miner_request model_id deadline w) in
    exists hardware vers,
      posted (events w1)
      = posted (events w)
        ++ [((base_url (cfg w) ++ "/miner_request")%string,
             MinerRequest (mkMinerRequest (miner_id (cfg w)) model_id deadline
                                          hardware vers))]
      /\ posts w1 = S (posts w)
      /\ ((hardware = None /\ vers = None)
          \/ (hardware = Some (get_hardware_description (cfg w))
              /\ vers = Some (version (cfg w)))).
Proof.
  intros model_id deadline w w1.
  destruct (send_miner_request_summary model_id deadline w)
    as (_ & _ & Hposts & Hposted & _).
  cbv zeta in Hposts, Hposted. fold w1 in Hposts, Hposted.
  unfold request_of in Hposted.
  destruct (heartbeat_due w); do 2 eexists;
    (split; [exact Hposted|]); (split; [exact Hposts|]);
    [right|left]; split; reflexivity.
Qed.

(** *** More about [check_and_reload_model] *)

(** X4.  [check_and_reload_model] calls [reload_model] at most once, and
    only when the interval has elapsed, with a model id that is in
    local storage and is neither a loaded base model nor a loaded
    adapter; otherwise the configuration is left as it is. *)
Theorem check_and_reload_model_reloads_only_fresh_local_model :
  forall (last_signal_time : Q) (w : world),
    let w1 := snd (check_and_reload_model last_signal_time w) in
    (reloads (events w1) = reloads (events w) /\ cfg w1 = cfg w)
    \/ exists id,
         reloads (events w1) = reloads (events w) ++ [id]
         /\ cfg w1 = reload_model (cfg w) id
         /\ In id (get_local_model_ids (cfg w))
         /\ ~ In id (loaded_models (cfg w))
         /\ ~ In id (loaded_loras (cfg w))
         /\ (clock (ticks w) - last_signal_time >= reload_interval (cfg w))%Q.
Proof.
  intros lst w. cbv zeta. rewrite check_and_reload_model_run. cbv zeta.
  destruct (reload_due lst w) eqn:Hdue; [|left; split; reflexivity].
  destruct (post_request _ _ _) as [r| |];
    [destruct (truthy r && (status_code r =? 200)%Z);
     [destruct (json_model_id r) as [[id|]|];
      [destruct (should_reload (cfg w) (Some id)) eqn:Hre| |]|]| |];
    cbn [snd cfg events];
    try (left; destruct (current_model (cfg w)); project;
         split; reflexivity).
  right. exists id.
  unfold should_reload in Hre.
  apply andb_prop in Hre. destruct Hre as [Hre Hloras].
  apply andb_prop in Hre. destruct Hre as [Hlocal Hmodels].
  apply negb_true_iff in Hloras, Hmodels.
  repeat split.
  - destruct (current_model (cfg w)); project; reflexivity.
  - now apply py_in_In.
  - now apply py_in_not_In.
  - now apply py_in_not_In.
  - apply Qge_bool_true. exact Hdue.
Qed.

(** X5.  [check_and_reload_model] posts to [signal_url + "/miner_signal"]
    exactly when the interval has elapsed, once, with the miner id, the
    model type [SD], the version and the [exclude_sdxl] option; it
    does so also when no model and no adapter is loaded, after logging
    a warning. *)
Theorem check_and_reload_model_posts_signal_when_due :
  forall (last_signal_time : Q) (w : world),
    let w1 := snd (check_and_reload_model last_signal_time w) in
    let request :=
      ((signal_url (cfg w) ++ "/miner_signal")%string,
       MinerSignal (mkMinerSignal (miner_id (cfg w)) "SD" (version (cfg w))
                                  (exclude_sdxl (cfg w)))) in
    ((clock (ticks w) - last_signal_time >= reload_interval (cfg w))%Q ->
     posted (events w1) = posted (events w) ++ [request]
     /\ (loaded_models (cfg w) = [] -> loaded_loras (cfg w) = [] ->
         In (ELog WARNING "No loaded models found. Posting to miner_signal to load a new model.")
            (events w1)))
    /\ ((clock (ticks w) - last_signal_time < reload_interval (cfg w))%Q ->
        posted (events w1) = posted (events w)).
Proof.
  intros lst w. cbv zeta. rewrite check_and_reload_model_run. cbv zeta.
  split; intros Hdue.
  - apply Qge_bool_true in Hdue. fold (reload_due lst w) in Hdue.
    rewrite Hdue. split.
    + destruct (post_request _ _ _) as [r| |];
        [destruct (truthy r && (status_code r =? 200)%Z);
         [destruct (json_model_id r) as [[id|]|];
          [destruct (should_reload (cfg w) (Some id))| |]|]| |];
        cbn [snd events]; destruct (current_model (cfg w)); project;
        reflexivity.
    + intros Hmodels Hloras. unfold current_model.
      rewrite Hmodels, Hloras.
      destruct (post_request _ _ _) as [r| |];
        [destruct (truthy r && (status_code r =? 200)%Z);
         [destruct (json_model_id r) as [[id|]|];
          [destruct (should_reload (cfg w) (Some id))| |]|]| |];
        cbn [snd events]; find_in_list.
  - apply Qge_bool_false in Hdue. fold (reload_due lst w) in Hdue.
    now rewrite Hdue.
Qed.

(** *** The calls seen from outside *)

(** What [check_and_reload_model] does not do. *)
Lemma check_and_reload_model_summary (last_signal_time : Q) (w : world) :
  let w1 := snd (check_and_reload_model last_signal_time w) in
  ticks w1 = S (ticks w)
  /\ sleeps (events w1) = sleeps (events w)
  /\ submitted (events w1) = submitted (events w)
  /\ miner_requests (events w1) = miner_requests (events w)
  /\ (forall c, fst (check_and_reload_model last_signal_time w) <> Exit c)
  /\ (forall t, fst (check_and_reload_model last_signal_time w) = Ret t ->
                t = last_signal_time \/ t = clock (ticks w)).
Proof.
  cbv zeta. rewrite check_and_reload_model_run. cbv zeta.
  destruct (reload_due last_signal_time w).
  - destruct (post_request _ _ _) as [r| |];
      [destruct (truthy r && (status_code r =? 200)%Z);
       [destruct (json_model_id r) as [[id|]|];
        [destruct (should_reload (cfg w) (Some id))| |]|]| |];
      cbn [fst snd ticks events]; destruct (current_model (cfg w));
      rewrite ?miner_requests_app; cbn [miner_requests signal_of];
      rewrite ?app_nil_r; project;
      repeat split; try discriminate;
      intros t Ht; injection Ht as <-; now right.
  - cbn [fst snd ticks events]. repeat split; try discriminate.
    intros t Ht. injection Ht as <-. now left.
Qed.

Lemma check_and_reload_model_not_due (last_signal_time : Q) (w : world) :
  (clock (ticks w) - last_signal_time < reload_interval (cfg w))%Q ->
  check_and_reload_model last_signal_time w
  = (Ret last_signal_time, mkWorld (cfg w) (S (ticks w)) (posts w) (events w)).
Proof.
  intros Hdue. apply Qge_bool_false in Hdue.
  rewrite check_and_reload_model_run. cbv zeta.
  unfold reload_due. now rewrite Hdue.
Qed.

Lemma process_jobs_no_local (w : world) :
  get_local_model_ids (cfg w) = [] ->
  process_jobs w
  = (Exit 0,
     mkWorld (cfg w) (ticks w) (posts w)
             (events w ++ [ELog DEBUG "No models found. Exiting..."])).
Proof.
  intros H. unfold process_jobs. run_monad. now rewrite H.
Qed.

(** What [process_jobs] adds to its call of [send_miner_request]. *)
Lemma process_jobs_summary (w : world) :
  get_local_model_ids (cfg w) <> [] ->
  let ws :=
    snd (send_miner_request (model_id_to_send (cfg w)) (min_deadline (cfg w)) w) in
  let w1 := snd (process_jobs w) in
  cfg w1 = cfg ws
  /\ (ticks ws <= ticks w1 <= S (ticks ws))%nat
  /\ posted (events w1) = posted (events ws)
  /\ miner_requests (events w1) = miner_requests (events ws)
  /\ signals (events w1) = signals (events ws)
  /\ reloads (events w1) = reloads (events ws)
  /\ sleeps (events w1) = sleeps (events ws)
  /\ (forall c, fst (process_jobs w) <> Exit c)
  /\ (fst (process_jobs w) = Ret true ->
      exists s, submitted (events w1) = submitted (events ws) ++ [s])
  /\ (fst (process_jobs w) <> Ret true ->
      submitted (events w1) = submitted (events ws)).
Proof.
  intros Hlocal. cbv zeta. rewrite (process_jobs_run w Hlocal).
  pose proof (send_miner_request_world (model_id_to_send (cfg w))
                (min_deadline (cfg w)) w) as Hsend.
  cbv zeta in Hsend. destruct Hsend as (_ & _ & _ & _ & Hexit).
  destruct (send_miner_request _ _ w) as [[[[j|] lat]|e|c] ws];
    cbn [fst snd] in Hexit |- *.
  - destruct (job_id j) as [jid|]; [destruct (job_model_id j) as [mid|];
      [destruct (temp_credentials j)|]|];
      cbn [fst snd cfg ticks events];
      rewrite ?miner_requests_app; cbn [miner_requests];
      rewrite ?app_nil_r; project;
      repeat split; try lia; try discriminate; try congruence;
      intros _; eexists; reflexivity.
  - cbn [fst snd cfg ticks events].
    rewrite ?miner_requests_app; cbn [miner_requests];
      rewrite ?app_nil_r; project.
    repeat split; try lia; discriminate.
  - repeat split; try lia; discriminate.
  - now destruct (Hexit c).
Qed.

(** One turn of the loop, by the way its two calls end. *)
Lemma worker_iteration_run (last_signal_time : Q) (w : world) :
  let pause (t : Q) (x : world) (evs : list event) :=
    if Qlt_bool (sleep_duration (cfg x)) 0
    then (Raise ValueError, mkWorld (cfg x) (ticks x) (posts x) evs)
    else (Ret t,
          mkWorld (cfg x) (ticks x) (posts x)
                  (evs ++ [ESleep (sleep_duration (cfg x))])) in
  worker_iteration last_signal_time w
  = match check_and_reload_model last_signal_time w with
    | (Ret t, wc) =>
        match process_jobs wc with
        | (Ret true, wp) => (Ret t, wp)
        | (Ret false, wp) => pause t wp (events wp)
        | (Raise _, wp) =>
            pause t wp (events wp ++ [ELog ERROR "Error occurred:"])
        | (Exit c, wp) => (Exit c, wp)
        end
    | (Raise _, wc) =>
        pause last_signal_time wc
              (events wc ++ [ELog ERROR "Error occurred:"])
    | (Exit c, wc) => (Exit c, wc)
    end.
Proof.
  cbv zeta. unfold worker_iteration. run_monad.
  destruct (check_and_reload_model last_signal_time w) as [[t|e|c] wc];
    run_monad; try reflexivity.
  - destruct (process_jobs wc) as [[[|]|e|c] wp]; run_monad;
      try reflexivity;
      destruct (Qlt_bool (sleep_duration (cfg wp)) 0); run_monad;
      try reflexivity; now destruct wp.
  - destruct (Qlt_bool (sleep_duration (cfg wc)) 0); run_monad; reflexivity.
Qed.

(** *** More about [process_jobs] and the loop of [main] *)

(** X6.  When models are found locally and the scheduler's answer yields
    a job with its three keys, [process_jobs] returns [True] after
    logging the acceptance and submitting the job once, with the request
    latency measured around the post and a start time read after the
    answer came back; it does not sleep. *)
Theorem process_jobs_submits_complete_job :
  forall (w : world) (r : response) (j : job) (jid mid cred : string),
    get_local_model_ids (cfg w) <> [] ->
    post_request (posts w) (base_url (cfg w) ++ "/miner_request")
      (MinerRequest (request_of (model_id_to_send (cfg w))
                                (min_deadline (cfg w)) w))
    = PostResponse r ->
    log_response (Some r) (miner_id (cfg w)) = Some j ->
    job_id j = Some jid ->
    job_model_id j = Some mid ->
    temp_credentials j = Some cred ->
    let t := if heartbeat_due w then S (S (ticks w)) else S (ticks w) in
    let w1 := snd (process_jobs w) in
    fst (process_jobs w) = Ret true
    /\ submitted (events w1)
       = submitted (events w)
         ++ [(j, clock (S (S t)), (clock (S t) - clock t)%Q)]
    /\ In (ELog INFO (acceptance_message jid mid)) (events w1)
    /\ sleeps (events w1) = sleeps (events w).
Proof.
  intros w r j jid mid cred Hlocal Hpost Hjob Hjid Hmid Hcred t w1.
  subst w1. rewrite (process_jobs_run w Hlocal).
  pose proof (send_miner_request_summary (model_id_to_send (cfg w))
                (min_deadline (cfg w)) w) as Hs.
  cbv zeta in Hs. rewrite Hpost, Hjob in Hs.
  destruct Hs as (Hfst & Hticks & _ & _ & _ & Hsleeps & Hsub & _).
  destruct (send_miner_request _ _ w) as [o ws].
  cbn [fst snd] in Hfst, Hticks, Hsleeps, Hsub |- *.
  subst o. rewrite Hjid, Hmid, Hcred. cbn [fst snd events].
  rewrite Hticks. fold t. project in Hsub. project in Hsleeps.
  project. rewrite Hsub, Hsleeps.
  repeat split.
  find_in_list.
Qed.

(** X7.  A job that lacks one of its three keys is never submitted:
    [process_jobs] raises [KeyError].  When only [temp_credentials] is
    missing, the acceptance has been logged before the error. *)
Theorem process_jobs_incomplete_job_raises :
  forall (w : world) (r : response) (j : job),
    get_local_model_ids (cfg w) <> [] ->
    post_request (posts w) (base_url (cfg w) ++ "/miner_request")
      (MinerRequest (request_of (model_id_to_send (cfg w))
                                (min_deadline (cfg w)) w))
    = PostResponse r ->
    log_response (Some r) (miner_id (cfg w)) = Some j ->
    job_id j = None \/ job_model_id j = None \/ temp_credentials j = None ->
    let w1 := snd (process_jobs w) in
    fst (process_jobs w) = Raise KeyError
    /\ submitted (events w1) = submitted (events w)
    /\ (forall jid mid,
           job_id j = Some jid -> job_model_id j = Some mid ->
           In (ELog INFO (acceptance_message jid mid)) (events w1)).
Proof.
  intros w r j Hlocal Hpost Hjob Hmissing w1.
  subst w1. rewrite (process_jobs_run w Hlocal).
  pose proof (send_miner_request_summary (model_id_to_send (cfg w))
                (min_deadline (cfg w)) w) as Hs.
  cbv zeta in Hs. rewrite Hpost, Hjob in Hs.
  destruct Hs as (Hfst & _ & _ & _ & _ & _ & Hsub & _).
  destruct (send_miner_request _ _ w) as [o ws].
  cbn [fst snd] in Hfst, Hsub |- *. project in Hsub.
  subst o.
  destruct (job_id j) as [jid|]; [destruct (job_model_id j) as [mid|];
    [destruct (temp_credentials j) as [cred|]|]|];
    cbn [fst snd events]; project; rewrite ?Hsub;
    try (repeat split; congruence).
  - exfalso. destruct Hmissing as [H|[H|H]]; discriminate.
  - repeat split. intros jid' mid' Hj Hm.
    injection Hj as <-. injection Hm as <-.
    find_in_list.
Qed.

(** X8.  The job-poll request of [process_jobs] asks for the first
    loaded adapter when there is one, else for the first loaded base
    model, else for [None]; it carries the configured [min_deadline]. *)
Theorem process_jobs_prefers_adapter :
  forall w : world,
    get_local_model_ids (cfg w) <> [] ->
    exists request,
      miner_requests (events (snd (process_jobs w)))
      = miner_requests (events w) ++ [request]
      /\ req_model_id request
         = match loaded_loras (cfg w) with
           | lora :: _ => Some lora
           | [] => match loaded_models (cfg w) with
                   | model :: _ => Some model
                   | [] => None
                   end
           end
      /\ req_min_deadline request = min_deadline (cfg w).
Proof.
  intros w Hlocal.
  destruct (process_jobs_summary w Hlocal) as (_ & _ & _ & Hreqs & _).
  cbv zeta in Hreqs.
  pose proof (send_miner_request_world (model_id_to_send (cfg w))
                (min_deadline (cfg w)) w) as Hsend.
  cbv zeta in Hsend. destruct Hsend as (_ & Hsent & _).
  eexists. split; [rewrite Hreqs; exact Hsent|].
  unfold request_of, model_id_to_send, first_key.
  destruct (heartbeat_due w); cbn [req_model_id req_min_deadline];
    destruct (loaded_loras (cfg w)); destruct (loaded_models (cfg w));
    split; reflexivity.
Qed.

Lemma Qlt_bool_true (x y : Q) : Qlt_bool x y = true <-> (x < y)%Q.
Proof.
  rewrite Qlt_bool_negb, <- Qge_bool_false.
  destruct (Qge_bool x y); split; (discriminate || reflexivity).
Qed.

(** How one turn of the loop ends, and what it has submitted and how it
    has paused by then. *)
Lemma worker_iteration_cases (last_signal_time : Q) (w : world) :
  let w1 := snd (worker_iteration last_signal_time w) in
  (exists t,
      fst (worker_iteration last_signal_time w) = Ret t
      /\ (t = last_signal_time \/ t = clock (ticks w))
      /\ ((exists s,
              submitted (events w1) = submitted (events w) ++ [s]
              /\ sleeps (events w1) = sleeps (events w))
          \/ (submitted (events w1) = submitted (events w)
              /\ sleeps (events w1)
                 = sleeps (events w) ++ [sleep_duration (cfg w1)])))
  \/ (fst (worker_iteration last_signal_time w) = Exit 0
      /\ get_local_model_ids
           (cfg (snd (check_and_reload_model last_signal_time w))) = [])
  \/ (fst (worker_iteration last_signal_time w) = Raise ValueError
      /\ (sleep_duration (cfg w1) < 0)%Q
      /\ submitted (events w1) = submitted (events w)
      /\ sleeps (events w1) = sleeps (events w)).
Proof.
  cbv zeta. rewrite worker_iteration_run. cbv zeta.
  destruct (check_and_reload_model_summary last_signal_time w)
    as (_ & Hsl & Hsub & _ & Hexit & Hret).
  cbv zeta in Hsl, Hsub, Hexit, Hret.
  project in Hsl. project in Hsub.
  destruct (check_and_reload_model last_signal_time w) as [[tc|e|c] wc];
    cbn [fst snd] in Hsl, Hsub, Hexit, Hret |- *.
  - specialize (Hret tc eq_refl).
    destruct (get_local_model_ids (cfg wc)) as [|m ms] eqn:Hlocal.
    { rewrite (process_jobs_no_local wc Hlocal). cbn [fst snd].
      right. left. split; reflexivity. }
    assert (Hne : get_local_model_ids (cfg wc) <> []) by congruence.
    destruct (process_jobs_summary wc Hne)
      as (_ & _ & _ & _ & _ & _ & Hpsl & Hpexit & Htrue & Hfalse).
    cbv zeta in Hpsl, Htrue, Hfalse.
    destruct (send_miner_request_summary (model_id_to_send (cfg wc))
                (min_deadline (cfg wc)) wc)
      as (_ & _ & _ & _ & _ & Hssl & Hssub & _).
    cbv zeta in Hssl, Hssub.
    rewrite Hssl in Hpsl. rewrite Hssub in Htrue, Hfalse.
    project in Hpsl. project in Htrue. project in Hfalse.
    destruct (process_jobs wc) as [[[|]|e|c] wp];
      cbn [fst snd] in Hpsl, Hpexit, Htrue, Hfalse |- *.
    + left. exists tc. split; [reflexivity|]. split; [exact Hret|].
      left. destruct (Htrue eq_refl) as (s & Hs). exists s. project.
      rewrite Hs, Hpsl, Hsub, Hsl. split; reflexivity.
    + destruct (Qlt_bool (sleep_duration (cfg wp)) 0) eqn:Hneg;
        cbn [fst snd cfg events].
      * right. right. apply Qlt_bool_true in Hneg. project.
        rewrite Hfalse by discriminate. rewrite Hpsl, Hsub, Hsl.
        repeat split; (reflexivity || exact Hneg).
      * left. exists tc. split; [reflexivity|]. split; [exact Hret|].
        right. project. rewrite Hfalse by discriminate.
        rewrite Hpsl, Hsub, Hsl. split; reflexivity.
    + destruct (Qlt_bool (sleep_duration (cfg wp)) 0) eqn:Hneg;
        cbn [fst snd cfg events].
      * right. right. apply Qlt_bool_true in Hneg. project.
        rewrite Hfalse by discriminate. rewrite Hpsl, Hsub, Hsl.
        repeat split; (reflexivity || exact Hneg).
      * left. exists tc. split; [reflexivity|]. split; [exact Hret|].
        right. project. rewrite Hfalse by discriminate.
        rewrite Hpsl, Hsub, Hsl. split; reflexivity.
    + now destruct (Hpexit c).
  - destruct (Qlt_bool (sleep_duration (cfg wc)) 0) eqn:Hneg;
      cbn [fst snd cfg events].
    + right. right. apply Qlt_bool_true in Hneg. project.
      rewrite Hsub, Hsl. repeat split; (reflexivity || exact Hneg).
    + left. exists last_signal_time. split; [reflexivity|].
      split; [now left|]. right. project.
      rewrite Hsub, Hsl. split; reflexivity.
  - now destruct (Hexit c).
Qed.


(** X10.  A turn of the loop that returns has either submitted one job
    and not slept, or submitted nothing and slept once, for the
    [sleep_duration] of the configuration. *)
Theorem worker_iteration_sleeps_unless_submitted :
  forall (last_signal_time t : Q) (w w1 : world),
    worker_iteration last_signal_time w = (Ret t, w1) ->
    (exists s,
        submitted (events w1) = submitted (events w) ++ [s]
        /\ sleeps (events w1) = sleeps (events w))
    \/ (submitted (events w1) = submitted (events w)
        /\ sleeps (events w1) = sleeps (events w) ++ [sleep_duration (cfg w1)]).
Proof.
  intros lst t w w1 Hrun.
  destruct (worker_iteration_cases lst w)
    as [(t' & _ & _ & H)|[[Hexit _]|[Hraise _]]].
  - rewrite Hrun in H. exact H.
  - rewrite Hrun in Hexit. discriminate.
  - rewrite Hrun in Hraise. discriminate.
Qed.

Lemma main_loop_step (turns : nat) (last_signal_time : Q) (w : world) :
  main_loop (S turns) last_signal_time w
  = match worker_iteration last_signal_time w with
    | (Ret t, w1) => main_loop turns t w1
    | (Raise e, w1) => (Raise e, w1)
    | (Exit c, w1) => (Exit c, w1)
    end.
Proof. reflexivity. Qed.



(** A turn that starts before the interval has elapsed. *)
Lemma worker_iteration_quiet (last_signal_time : Q) (w : world) :
  (clock (ticks w) - last_signal_time < reload_interval (cfg w))%Q ->
  let w1 := snd (worker_iteration last_signal_time w) in
  signals (events w1) = signals (events w)
  /\ reloads (events w1) = reloads (events w)
  /\ reload_interval (cfg w1) = reload_interval (cfg w)
  /\ (ticks w < ticks w1 <= ticks w + 6)%nat
  /\ (forall t, fst (worker_iteration last_signal_time w) = Ret t ->
                t = last_signal_time).
Proof.
  intros Hdue. cbv zeta. rewrite worker_iteration_run. cbv zeta.
  rewrite (check_and_reload_model_not_due _ _ Hdue).
  set (wc := mkWorld (cfg w) (S (ticks w)) (posts w) (events w)).
  destruct (get_local_model_ids (cfg wc)) as [|m ms] eqn:Hlocal.
  - rewrite (process_jobs_no_local wc Hlocal). subst wc.
    cbn [fst snd cfg ticks events]. project.
    repeat split; try reflexivity; try lia; discriminate.
  - assert (Hne : get_local_model_ids (cfg wc) <> []) by congruence.
    destruct (process_jobs_summary wc Hne)
      as (Hcfg & Hticks & _ & _ & Hsig & Hrel & _).
    cbv zeta in Hcfg, Hticks, Hsig, Hrel.
    destruct (send_miner_request_summary (model_id_to_send (cfg wc))
                (min_deadline (cfg wc)) wc)
      as (_ & Hst & _ & _ & _ & _ & _ & Hsrel & Hssig).
    cbv zeta in Hst, Hsrel, Hssig.
    pose proof (send_miner_request_world (model_id_to_send (cfg wc))
                  (min_deadline (cfg wc)) wc) as Hworld.
    cbv zeta in Hworld. destruct Hworld as (Hscfg & _).
    set (ws := snd (send_miner_request (model_id_to_send (cfg wc))
                      (min_deadline (cfg wc)) wc))
      in Hcfg, Hticks, Hsig, Hrel, Hst, Hsrel, Hssig, Hscfg |- *.
    assert (Hinterval : reload_interval (cfg ws) = reload_interval (cfg w)).
    { rewrite Hscfg. now destruct (heartbeat_due wc). }
    assert (Hbound : (ticks ws <= ticks w + 5)%nat).
    { rewrite Hst. cbn [ticks wc].
      destruct (post_request _ _ _); destruct (heartbeat_due wc);
        cbn [ticks wc]; lia. }
    assert (Hlow : (ticks w < ticks ws)%nat).
    { rewrite Hst. cbn [ticks wc].
      destruct (post_request _ _ _); destruct (heartbeat_due wc);
        cbn [ticks wc]; lia. }
    rewrite Hssig in Hsig. rewrite Hsrel in Hrel.
    project in Hsig. project in Hrel.
    destruct (process_jobs wc) as [[[|]|e|c] wp];
      cbn [fst snd] in Hcfg, Hticks, Hsig, Hrel |- *;
      try destruct (Qlt_bool (sleep_duration (cfg wp)) 0);
      cbn [fst snd cfg ticks events]; project;
      rewrite ?Hsig, ?Hrel, Hcfg, Hinterval;
      repeat split; try lia; try discriminate;
      intros t Ht; now injection Ht as <-.
Qed.

Lemma main_loop_quiet (turns : nat) :
  forall (last_signal_time : Q) (w : world),
    (forall k, (ticks w <= k < ticks w + 6 * turns)%nat ->
               (clock k - last_signal_time < reload_interval (cfg w))%Q) ->
    signals (events (snd (main_loop turns last_signal_time w)))
    = signals (events w)
    /\ reloads (events (snd (main_loop turns last_signal_time w)))
       = reloads (events w).
Proof.
  induction turns as [|turns IH]; intros lst w Hwin.
  - split; reflexivity.
  - rewrite main_loop_step.
    assert (Hdue : (clock (ticks w) - lst < reload_interval (cfg w))%Q)
      by (apply Hwin; lia).
    destruct (worker_iteration_quiet lst w Hdue)
      as (Hsig & Hrel & Hint & Hticks & Hret).
    cbv zeta in Hsig, Hrel, Hint, Hticks, Hret.
    destruct (worker_iteration lst w) as [[t|e|c] w1];
      cbn [fst snd] in Hsig, Hrel, Hint, Hticks, Hret |- *;
      try (split; assumption).
    rewrite (Hret t eq_refl).
    destruct (IH lst w1) as [Hs Hr].
    { intros k Hk. rewrite Hint. apply Hwin. lia. }
    rewrite Hs, Hr. split; assumption.
Qed.

(** X12.  A worker does not contact [/miner_signal] and reloads no model
    as long as the clock readings stay less than [reload_interval]
    after the reading [main] takes before its loop (a turn reads the
    clock at most six times). *)
Theorem main_loop_no_signal_before_interval :
  forall (turns : nat) (w : world),
    (forall k, (S (ticks w) <= k < S (ticks w) + 6 * turns)%nat ->
               (clock k - clock (ticks w) < reload_interval (cfg w))%Q) ->
    signals (events (snd (main_from_loop turns w))) = signals (events w)
    /\ reloads (events (snd (main_from_loop turns w))) = reloads (events w).
Proof.
  intros turns w Hwin. unfold main_from_loop. run_monad.
  apply (main_loop_quiet turns (clock (ticks w))
           (mkWorld (cfg w) (S (ticks w)) (posts w) (events w))).
  exact Hwin.
Qed.

(** ** More of the log aggregator *)

(** X13.  When [parse_log_file] returns, [num_jobs], [success_jobs] and
    [failed_jobs] are the numbers of lines after the last marker that
    contain [Processing Request ID], that match the completion pattern
    and that contain [WARNING], among the lines the [continue] does not
    skip; [gpu_usage] is what NVML reports, whatever the log holds. *)
Theorem parse_log_file_counts_lines :
  forall (pre post : list string) (m : string) (r : run_metrics),
    has_marker m = true ->
    count_markers post = 0%nat ->
    parse_log_file (pre ++ m :: post) = Ret r ->
    num_jobs r = count_lines (counted is_acceptance) post
    /\ success_jobs r = count_lines (counted is_completion) post
    /\ failed_jobs r = count_lines (counted is_warning) post
    /\ gpu_usage r = nvml_gpu_usage.
Proof.
  intros pre post m r Hm Hpost.
  rewrite (parse_log_file_after_marker pre post m Hm Hpost).
  pose proof (aggregate_effect post) as H.
  destruct (first_error post) as [e|]; [rewrite H; discriminate|].
  destruct H as (avg & -> & _). intros Hr. injection Hr as <-.
  repeat split.
Qed.

(** X15.  With a marker in the log, [parse_log_file] returns exactly
    when the body of the loop raises on no line after the last marker,
    and otherwise raises what the first such line raises: [ValueError]
    for a device number of more than 4300 digits, else what
    [json.loads] lets out of the handler, else [ValueError] for a
    completion line, not skipped by the [continue], whose time [float]
    cannot read (two dots, or no digit). *)
Theorem parse_log_file_returns_iff_no_line_raises :
  forall (pre post : list string) (m : string),
    has_marker m = true ->
    count_markers post = 0%nat ->
    ((exists r, parse_log_file (pre ++ m :: post) = Ret r)
     <-> forall line, In line post -> line_error line = None)
    /\ (forall before line after e,
           post = before ++ line :: after ->
           (forall l, In l before -> line_error l = None) ->
           line_error line = Some e ->
           parse_log_file (pre ++ m :: post) = Raise e)
    /\ (forall line,
           In line post -> counted is_completion line = true ->
           total_time line = None ->
           exists e, parse_log_file (pre ++ m :: post) = Raise e).
Proof.
  intros pre post m Hm Hpost.
  rewrite (parse_log_file_after_marker pre post m Hm Hpost).
  pose proof (aggregate_effect post) as H.
  destruct (first_error post) as [e|] eqn:Hfirst.
  - rewrite H. split; [|split].
    + split; [intros (r & Hr); discriminate|].
      intros Hall. apply first_error_none in Hall. congruence.
    + intros before line after e' Hsplit Hbefore Hline.
      assert (Hsome : first_error post = Some e').
      { apply first_error_split. now exists before, line, after. }
      congruence.
    + intros _ _ _ _. now exists e.
  - destruct H as (avg & -> & _). split; [|split].
    + split; [|intros _; eexists; reflexivity].
      intros _. now apply first_error_none.
    + intros before line after e' Hsplit Hbefore Hline.
      assert (Hsome : first_error post = Some e').
      { apply first_error_split. now exists before, line, after. }
      congruence.
    + intros line Hin Hc Ht. exfalso.
      pose proof (proj1 (first_error_none post) Hfirst line Hin) as Hnone.
      unfold line_error, unreadable in Hnone. rewrite Hc, Ht in Hnone.
      destruct (device_number_too_long line); [discriminate|].
      destruct (json_error line); discriminate.
Qed.

(** X16.  [parse_log_file] raises [StopIteration] exactly when the log
    has no line with the run-start marker.  With a marker it raises
    nothing but the [ValueError] of [int], [float] and [json.loads] and
    the [RecursionError] of [json.loads], on a line after the last
    marker; it never leaves through [sys.exit]. *)
Theorem parse_log_file_stop_iteration_iff_no_marker :
  forall log_lines : list string,
    (parse_log_file log_lines = Raise StopIteration
     <-> count_markers log_lines = 0%nat)
    /\ (forall e, parse_log_file log_lines = Raise e ->
                  e = StopIteration \/ e = ValueError \/ e = RecursionError)
    /\ (forall c, parse_log_file log_lines <> Exit c).
Proof.
  intros log_lines.
  destruct (Nat.eq_dec (count_markers log_lines) 0) as [Hz|Hnz].
  - unfold parse_log_file. rewrite (last_marker_index_none log_lines Hz).
    repeat split; try discriminate; try (intros _; assumption).
    intros e He. injection He as <-. now left.
  - destruct (split_at_last_marker log_lines)
      as (pre & m & post & -> & Hm & Hpost & _); [lia|].
    rewrite (parse_log_file_after_marker pre post m Hm Hpost).
    pose proof (aggregate_effect post) as H.
    destruct (first_error post) as [e|] eqn:Hfirst.
    + rewrite H.
      apply first_error_split in Hfirst.
      destruct Hfirst as (before & line & after & _ & _ & He).
      apply line_error_kind in He.
      repeat split; try discriminate.
      * intros Hc. injection Hc as ->. destruct He; discriminate.
      * intros Hc. now destruct (Hnz Hc).
      * intros e' He'. injection He' as <-. right. exact He.
    + destruct H as (avg & -> & _). repeat split; try discriminate.
      intros Hc. exfalso. apply Hnz. exact Hc.
Qed.

(** ** More of the supervisor *)

(** X17.  With no more devices configured than detected, the supervisor
    spawns one worker for every index from 0 to [num_cuda_devices - 1],
    in this order, joins every one of them and returns.  It logs the
    run-start marker first, before the dashboard thread is started and
    before any worker is spawned; it compares the model checksums
    unless [skip_checksum] is set. *)
Theorem supervisor_spawns_and_joins_every_device :
  forall w : world,
    (num_cuda_devices (cfg w) <= torch_cuda_device_count)%Z ->
    let devices := seq 0 (Z.to_nat (num_cuda_devices (cfg w))) in
    exists before,
      supervisor w
      = (Ret tt,
         mkWorld (cfg w) (ticks w) (posts w)
                 (events w ++ before
                  ++ [ELog INFO RUN_MARKER; EThreadStart "display_data_thread"]
                  ++ map ESpawn devices ++ map EJoin devices))
      /\ spawned before = []
      /\ (In ECompareChecksums before <-> skip_checksum (cfg w) = false).
Proof.
  intros w Hle devices. unfold supervisor. run_monad.
  destruct (num_cuda_devices (cfg w) >? torch_cuda_device_count)%Z eqn:Hgt;
    [apply Z.gtb_lt in Hgt; lia|].
  destruct (skip_checksum (cfg w)); run_monad;
    rewrite spawn_all_run; cbn [cfg ticks posts events];
    rewrite join_all_run; cbn [cfg ticks posts events].
  - exists [ECheckCuda; EFetchConfigFiles;
            EThreadStart "model_updater.start_scheduled_updates"].
    repeat split.
    + now rewrite <- !app_assoc.
    + cbn [In]. intros [H|[H|[H|[]]]]; discriminate.
    + discriminate.
  - exists [ECheckCuda; EFetchConfigFiles; ECompareChecksums;
            EThreadStart "model_updater.start_scheduled_updates"].
    repeat split.
    + now rewrite <- !app_assoc.
    + intros _. find_in_list.
Qed.

(** ** What the worker and the supervisor log, seen by the aggregator *)

Lemma prefix_append (p s : string) : prefix p (p ++ s) = true.
Proof.
  induction p as [|c p IH]; cbn [append prefix].
  - now destruct s.
  - destruct (ascii_dec c c); [exact IH|congruence].
Qed.

Lemma contains_append (p before after : string) :
  PyStr.contains p (before ++ p ++ after) = true.
Proof.
  induction before as [|c before IH]; cbn [append].
  - destruct (p ++ after)%string eqn:E; cbn [PyStr.contains];
      rewrite <- E, prefix_append; reflexivity.
  - cbn [PyStr.contains]. rewrite IH. now destruct (prefix p _).
Qed.

Lemma append_assoc (a b c : string) : ((a ++ b) ++ c = a ++ (b ++ c))%string.
Proof. induction a as [|x a IH]; cbn [append]; [reflexivity|now rewrite IH]. Qed.

(** X18.  Whatever the logging format puts before and after them, the
    line [process_jobs] logs for an accepted job passes the acceptance
    test of [parse_log_file], for every job id and model id, and the
    line the supervisor logs at start-up passes its marker test. *)
Theorem logged_lines_are_recognised :
  forall before after : string,
    (forall jid mid : string,
        is_acceptance (before ++ acceptance_message jid mid ++ after) = true)
    /\ has_marker (before ++ RUN_MARKER ++ after) = true.
Proof.
  intros before after. split.
  - intros jid mid. unfold is_acceptance, acceptance_message.
    change ("Processing Request ID: " ++ jid ++ ". Model ID: " ++ mid ++ ".")%string
      with ("Processing Request ID"
            ++ (": " ++ jid ++ ". Model ID: " ++ mid ++ "."))%string.
    rewrite append_assoc. apply contains_append.
  - apply contains_append.
Qed.
End Miner.

(** ** Worked examples *)

(** *** Where the code departs from the claims *)

(** C1, as stated, fails: the interval has elapsed (1000 seconds against
    600), the signal call yields no response, and the value returned is
    the current time 1000, not the input 0. *)
Lemma failed_signal_resets_timer :
  (sample_clock (ticks sample_world) - 0 >= reload_interval (cfg sample_world))%Q
  /\ no_answer (posts sample_world)
               (signal_url (cfg sample_world) ++ "/miner_signal")%string
               (signal_of (cfg sample_world)) = PostNone
  /\ fst (check_and_reload_model sample_clock no_answer one_local_model
                                 sample_reload_model 0%Q sample_world)
     = Ret 1000%Q
  /\ ~ (1000 == 0)%Q.
Proof.
  split; [vm_compute; discriminate|].
  split; [reflexivity|].
  split; [vm_compute; reflexivity|].
  vm_compute. discriminate.
Qed.

(** C2, as stated, fails: the heartbeat interval has elapsed, the
    request gets no response, and [last_heartbeat] has moved from 0 to
    1001 all the same. *)
Lemma failed_post_moves_heartbeat :
  (sample_clock (ticks sample_world) - last_heartbeat (cfg sample_world) >= 60)%Q
  /\ fst (send_miner_request sample_clock no_answer sample_log_response
                             sample_hardware None 1 sample_world)
     = Ret (None, 1%Q)
  /\ last_heartbeat
       (cfg (snd (send_miner_request sample_clock no_answer sample_log_response
                                     sample_hardware None 1 sample_world)))
     = 1001%Q
  /\ ~ (1001 == last_heartbeat (cfg sample_world))%Q.
Proof.
  split; [vm_compute; discriminate|].
  split; [vm_compute; reflexivity|].
  split; [vm_compute; reflexivity|].
  vm_compute. discriminate.
Qed.

(** C3, as stated, fails: neither an adapter nor a base model is
    loaded, yet the turn of the loop ends normally after a job-poll
    request, sent with model id [None]. *)
Lemma nothing_loaded_still_polls :
  loaded_models (cfg sample_world) = []
  /\ loaded_loras (cfg sample_world) = []
  /\ fst (worker_iteration sample_clock no_answer sample_log_response
                           sample_hardware one_local_model sample_reload_model
                           990%Q sample_world)
     = Ret 990%Q
  /\ miner_requests
       (events (snd (worker_iteration sample_clock no_answer
                                      sample_log_response sample_hardware
                                      one_local_model sample_reload_model
                                      990%Q sample_world)))
     = [mkMinerRequest (miner_id sample_config) None 1
                       (Some "NVIDIA GeForce RTX 4090") (Some "sd-v1.3.1")].
Proof.
  repeat split; vm_compute; reflexivity.
Qed.

(** C4, as stated, fails: on a body with two warnings the text printed
    stops before the second [Warning:] and keeps a quote, while the text
    up to the end of the body, quotes removed, is another one. *)
Lemma warning_stops_at_second_sentinel :
  PyStr.contains warning_indicator two_warnings_body = true
  /\ events (snd (send_miner_request sample_clock (answer_with two_warnings_body)
                                     sample_log_response sample_hardware
                                     None 1 sample_world))
     = [ELog DEBUG "Heartbeat updated";
        EPost "https://sequencer.example/miner_request"
              (MinerRequest
                 (mkMinerRequest (miner_id sample_config) None 1
                                 (Some "NVIDIA GeForce RTX 4090")
                                 (Some "sd-v1.3.1")));
        EPrint ("WARNING: a" ++ quote ++ " ")%string]
  /\ warning_to_end_of_body two_warnings_body
     = Some ("a" ++ quote ++ " Warning:" ++ quote ++ "b")%string
  /\ warning_message two_warnings_body
     <> warning_to_end_of_body two_warnings_body.
Proof.
  repeat split; try (vm_compute; reflexivity).
  vm_compute. discriminate.
Qed.

(** C9, as stated, fails: the log has a marker and no job completion
    after it, yet [parse_log_file] returns no record: the device
    number of 4301 digits makes [int] raise [ValueError]. *)
Lemma long_device_number_raises :
  has_marker marker_line = true
  /\ count_markers [long_device_line; accept_line] = 0%nat
  /\ (forall line, In line [long_device_line; accept_line] ->
                   is_completion line = false)
  /\ parse_log_file sample_json_loads sample_gpu_usage log_long_device
     = Raise ValueError
  /\ ~ (exists r,
           parse_log_file sample_json_loads sample_gpu_usage log_long_device
           = Ret r
           /\ latency r = PyNum.PyInt 0).
Proof.
  assert (Hrun : parse_log_file sample_json_loads sample_gpu_usage
                   log_long_device = Raise ValueError)
    by (vm_compute; reflexivity).
  split; [reflexivity|]. split; [vm_compute; reflexivity|]. split.
  - intros line [<-|[<-|[]]]; vm_compute; reflexivity.
  - split; [exact Hrun|]. intros (r & Hr & _). rewrite Hrun in Hr.
    discriminate.
Qed.

(** C10, as stated, fails: after the marker stand one acceptance line
    and two completion lines, so the completions outnumber the
    acceptances; yet no completion is counted and
    [jobs_being_processed] is 1, not negative.  The two completion
    lines log a server response that [json.loads] rejects, and the
    [continue] skips them before the counters are touched. *)
Lemma skipped_completions_leave_counters :
  count_lines is_acceptance
              [accept_line; skipped_completion_line; skipped_completion_line]
  = 1%Z
  /\ count_lines is_completion
                 [accept_line; skipped_completion_line;
                  skipped_completion_line]
     = 2%Z
  /\ parse_log_file sample_json_loads sample_gpu_usage
                    log_skipped_completions
     = Ret (mkRunMetrics [37%Z] 1 0 0 (PyNum.PyInt 0) 1)
  /\ ~ (jobs_being_processed (mkRunMetrics [37%Z] 1 0 0 (PyNum.PyInt 0) 1)
        < 0)%Z.
Proof.
  repeat split; try (vm_compute; reflexivity).
  vm_compute. discriminate.
Qed.

(** The scenario of the specification: a marker, a device, an accepted
    job and its completion after 3.2 seconds. *)
Example parse_log_file_scenario :
  parse_log_file sample_json_loads sample_gpu_usage
                 [marker_line; device_line; accept_line; complete_line]
  = Ret (mkRunMetrics [37%Z] 1 1 0 (PyNum.PyFloat float_3_2) 0).
Proof. vm_compute. reflexivity. Qed.

(** Two completions after 0.1 and 0.2 seconds: the sum and the quotient
    are rounded, and the average is 0.15000000000000002, the binary64
    number after the one nearest to 0.15. *)
Example parse_log_file_rounds :
  PyStr.py_float "0.15" = Some (S754_finite false 5404319552844595 (-55))
  /\ average_latency [PyNum.of_ratio 1 10; PyNum.of_ratio 2 10]
     = Ret (PyNum.PyFloat (S754_finite false 5404319552844596 (-55))).
Proof. split; vm_compute; reflexivity. Qed.

(** *** The theorems at work on the sample data *)

Lemma check_and_reload_model_returns_now_when_due_witness :
  ((sample_clock 0 - 0 >= reload_interval sample_config)%Q
   /\ fst (check_and_reload_model sample_clock no_answer one_local_model
                                  sample_reload_model 0%Q sample_world)
      = Ret (sample_clock 0))
  /\ ((sample_clock 0 - 990 < reload_interval sample_config)%Q
      /\ check_and_reload_model sample_clock no_answer one_local_model
                                sample_reload_model 990%Q sample_world
         = (Ret 990%Q, mkWorld sample_config 1 0 [])).
Proof.
  split; split.
  - vm_compute; discriminate.
  - apply (proj1 (check_and_reload_model_returns_now_when_due
                    sample_clock no_answer one_local_model sample_reload_model
                    0%Q sample_world)).
    vm_compute; discriminate.
  - vm_compute; reflexivity.
  - apply (proj2 (check_and_reload_model_returns_now_when_due
                    sample_clock no_answer one_local_model sample_reload_model
                    990%Q sample_world)).
    vm_compute; reflexivity.
Defined.

Lemma heartbeat_updated_whatever_post_request_does_witness :
  (sample_clock 0 - last_heartbeat sample_config >= 60)%Q
  /\ last_heartbeat
       (cfg (snd (send_miner_request sample_clock no_answer sample_log_response
                                     sample_hardware None 1 sample_world)))
     = sample_clock 1.
Proof.
  split.
  - vm_compute; discriminate.
  - apply (heartbeat_updated_whatever_post_request_does
             sample_clock no_answer sample_log_response sample_hardware
             None 1%Z sample_world).
    vm_compute; discriminate.
Defined.

Lemma process_jobs_exits_without_local_models_witness :
  no_local_model (cfg sample_world) = []
  /\ process_jobs sample_clock no_answer sample_log_response sample_hardware
                  no_local_model sample_world
     = (Exit 0,
        mkWorld sample_config 0 0 [ELog DEBUG "No models found. Exiting..."])
  /\ check_and_reload_model sample_clock no_answer no_local_model
                            sample_reload_model 990%Q sample_world
     = (Ret 990%Q, mkWorld sample_config 1 0 [])
  /\ exists w2,
       worker_iteration sample_clock no_answer sample_log_response
                        sample_hardware no_local_model sample_reload_model
                        990%Q sample_world
       = (Exit 0, w2)
       /\ miner_requests (events w2) = miner_requests (events sample_world).
Proof.
  pose proof (process_jobs_exits_without_local_models
                sample_clock no_answer sample_log_response sample_hardware
                no_local_model sample_reload_model sample_world eq_refl)
    as [Hexit Hturn].
  split; [reflexivity|].
  split; [exact Hexit|].
  split; [vm_compute; reflexivity|].
  apply (Hturn 990%Q 990%Q (mkWorld sample_config 1 0 [])).
  vm_compute; reflexivity.
Defined.

Lemma warning_extracted_and_job_returned_witness :
  answer_with disk_body (posts sample_world)
              (base_url (cfg sample_world) ++ "/miner_request")%string
              (MinerRequest (request_of sample_clock sample_hardware None 1
                                        sample_world))
  = PostResponse (mkResponse true 200 disk_body (Some None))
  /\ truthy (mkResponse true 200 disk_body (Some None)) = true
  /\ PyStr.contains warning_indicator disk_body = true
  /\ exists seg latency w1 evs,
       warning_segment disk_body = Some seg
       /\ send_miner_request sample_clock (answer_with disk_body)
                             sample_log_response sample_hardware None 1
                             sample_world
          = (Ret (Some sample_job, latency), w1)
       /\ events w1
          = evs ++ [EPrint ("WARNING: "
                            ++ PyStr.strip (PyStr.chr PyStr.dquote) seg)].
Proof.
  split; [reflexivity|]. split; [reflexivity|]. split; [reflexivity|].
  exact (proj1 (warning_extracted_and_job_returned
                  sample_clock (answer_with disk_body) sample_log_response
                  sample_hardware None 1%Z sample_world
                  (mkResponse true 200 disk_body (Some None))
                  eq_refl eq_refl eq_refl)).
Defined.

Lemma parse_log_file_uses_only_lines_after_last_marker_witness :
  (2 <= count_markers log_two_runs)%nat
  /\ exists pre m post,
       log_two_runs = pre ++ m :: post
       /\ has_marker m = true
       /\ (1 <= count_markers pre)%nat
       /\ count_markers post = 0%nat
       /\ parse_log_file sample_json_loads sample_gpu_usage log_two_runs
          = aggregate sample_json_loads sample_gpu_usage post
       /\ forall pre' m',
            has_marker m' = true ->
            parse_log_file sample_json_loads sample_gpu_usage
                           (pre' ++ m' :: post)
            = parse_log_file sample_json_loads sample_gpu_usage log_two_runs.
Proof.
  split.
  - vm_compute. lia.
  - apply (parse_log_file_uses_only_lines_after_last_marker
             sample_json_loads sample_gpu_usage log_two_runs).
    vm_compute. lia.
Defined.

Lemma parse_log_file_raises_without_marker_witness :
  count_markers log_no_marker = 0%nat
  /\ parse_log_file sample_json_loads sample_gpu_usage log_no_marker
     = Raise StopIteration
  /\ (forall r, parse_log_file sample_json_loads sample_gpu_usage
                               log_no_marker <> Ret r)
  /\ parse_log_file sample_json_loads sample_gpu_usage
                    (log_no_marker ++ [marker_line])
     = Ret (idle_metrics sample_gpu_usage).
Proof.
  split.
  - reflexivity.
  - apply (parse_log_file_raises_without_marker
             sample_json_loads sample_gpu_usage log_no_marker).
    reflexivity.
Defined.

Lemma supervisor_exits_on_too_many_devices_witness :
  (num_cuda_devices (cfg four_device_world) > 2)%Z
  /\ fst (supervisor 2 four_device_world) = Exit 1
  /\ spawned (events (snd (supervisor 2 four_device_world))) = [].
Proof.
  pose proof (supervisor_exits_on_too_many_devices 2 four_device_world eq_refl)
    as (Hrun & _ & Hspawned).
  split; [reflexivity|]. split; [now rewrite Hrun|exact Hspawned].
Defined.

Lemma heartbeat_attached_iff_interval_elapsed_witness :
  (forall k, (4 <= k < 4 + 3 * 2)%nat -> (sample_clock k - 1001 < 60)%Q)
  /\ exists reqs,
       miner_requests
         (events (snd (poll_repeatedly sample_clock no_answer
                         sample_log_response sample_hardware
                         [(None, 1%Z); (None, 1%Z)]
                         (snd (send_miner_request sample_clock no_answer
                                 sample_log_response sample_hardware None 1
                                 sample_world)))))
       = miner_requests
           (events (snd (send_miner_request sample_clock no_answer
                           sample_log_response sample_hardware None 1
                           sample_world)))
         ++ reqs
       /\ List.length reqs = 2%nat
       /\ Forall (fun r => attaches_hardware r = false) reqs
       /\ last_heartbeat
            (cfg (snd (poll_repeatedly sample_clock no_answer
                         sample_log_response sample_hardware
                         [(None, 1%Z); (None, 1%Z)]
                         (snd (send_miner_request sample_clock no_answer
                                 sample_log_response sample_hardware None 1
                                 sample_world)))))
          = 1001%Q.
Proof.
  assert (Hwin : forall k, (4 <= k < 4 + 3 * 2)%nat ->
                           (sample_clock k - 1001 < 60)%Q).
  { intros k Hk. unfold sample_clock, Qlt, Qminus, Qplus, Qopp, inject_Z.
    cbn [Qnum Qden]. lia. }
  split; [exact Hwin|].
  exact (proj2 (heartbeat_attached_iff_interval_elapsed
                  sample_clock no_answer sample_log_response sample_hardware
                  None 1%Z sample_world)
               [(None, 1%Z); (None, 1%Z)] Hwin).
Defined.

Lemma parse_log_file_zero_latency_without_completions_witness :
  has_marker marker_line = true
  /\ count_markers [device_line; accept_line; warning_line] = 0%nat
  /\ (forall line, In line [device_line; accept_line; warning_line] ->
                   is_completion line = false)
  /\ parse_log_file sample_json_loads sample_gpu_usage log_no_completion
     = Ret (mkRunMetrics [37%Z] 1 0 1 (PyNum.PyInt 0) 1)
  /\ parse_log_file sample_json_loads sample_gpu_usage log_no_completion
     <> Raise ZeroDivisionError
  /\ (forall r,
         parse_log_file sample_json_loads sample_gpu_usage log_no_completion
         = Ret r ->
         latency r = PyNum.PyInt 0 /\ success_jobs r = 0%Z)
  /\ ((exists r,
          parse_log_file sample_json_loads sample_gpu_usage log_no_completion
          = Ret r)
      <-> forall line, In line [device_line; accept_line; warning_line] ->
                       device_number_too_long line = false
                       /\ json_error sample_json_loads line = None).
Proof.
  assert (Hno : forall line, In line [device_line; accept_line; warning_line] ->
                             is_completion line = false).
  { intros line [<-|[<-|[<-|[]]]]; reflexivity. }
  split; [reflexivity|]. split; [reflexivity|]. split; [exact Hno|].
  split; [vm_compute; reflexivity|].
  exact (parse_log_file_zero_latency_without_completions
           sample_json_loads sample_gpu_usage
           [complete_line] [device_line; accept_line; warning_line] marker_line
           eq_refl eq_refl Hno).
Defined.

Lemma parse_log_file_jobs_being_processed_balance_witness :
  parse_log_file sample_json_loads sample_gpu_usage log_mixed
  = Ret (mkRunMetrics [37%Z] 2 1 1 (PyNum.PyFloat float_3_2) 1)
  /\ parse_log_file sample_json_loads sample_gpu_usage log_completion_only
     = Ret (mkRunMetrics [37%Z] 0 1 0 (PyNum.PyFloat float_3_2) (-1))
  /\ (exists pre m post,
         log_mixed = pre ++ m :: post
         /\ has_marker m = true
         /\ count_markers post = 0%nat
         /\ 2%Z = count_lines (counted sample_json_loads is_acceptance) post
         /\ 1%Z = count_lines (counted sample_json_loads is_completion) post
         /\ 1%Z = (2 - 1)%Z
         /\ ((1 < 0)%Z
             <-> (count_lines (counted sample_json_loads is_acceptance) post
                  < count_lines (counted sample_json_loads is_completion)
                                post)%Z)).
Proof.
  assert (Hrun : parse_log_file sample_json_loads sample_gpu_usage log_mixed
                 = Ret (mkRunMetrics [37%Z] 2 1 1 (PyNum.PyFloat float_3_2) 1))
    by (vm_compute; reflexivity).
  split; [exact Hrun|]. split; [vm_compute; reflexivity|].
  exact (parse_log_file_jobs_being_processed_balance
           sample_json_loads sample_gpu_usage log_mixed
           (mkRunMetrics [37%Z] 2 1 1 (PyNum.PyFloat float_3_2) 1) Hrun).
Defined.

(** ** Miner identities *)

Lemma take_length_le (n : nat) (s : string) :
  (String.length (PyStr.take n s) <= n)%nat.
Proof.
  revert s. induction n as [|n IH]; intros [|c s]; cbn; try lia.
  specialize (IH s). lia.
Qed.

Lemma short_uuid_length (output : string) (i : nat) (short : string) :
  short_uuid output i = Some short -> (String.length short <= 6)%nat.
Proof.
  unfold short_uuid.
  destruct (nth_error _ i); [|discriminate].
  destruct (nth_error _ 1); [|discriminate].
  destruct (nth_error _ 0); [|discriminate].
  match goal with
  | |- Some (PyStr.take 6 ?x) = _ -> _ =>
      intros H; replace short with (PyStr.take 6 x) by congruence;
      apply take_length_le
  end.
Qed.

(** The loop over ids that are all set, with an [nvidia-smi] that does
    not fail beyond [CalledProcessError]. *)
Lemma composite_miner_ids_shape (nvidia_smi : nat -> smi_outcome)
  (miner_ids : list (option string)) :
  (forall i, nvidia_smi i <> SmiOtherError) ->
  Forall (fun o => o <> None) miner_ids ->
  forall i,
  exists ids,
    snd (composite_miner_ids nvidia_smi i miner_ids) = inr ids
    /\ Forall2 (fun o c => exists id, o = Some id /\ composite_of id c)
               miner_ids ids.
Proof.
  intros Hsmi Hset. induction Hset as [|o rest Ho Hrest IH]; intros i.
  - exists []. split; [reflexivity|constructor].
  - destruct o as [id|]; [|congruence].
    destruct (IH (S i)) as (ids & Hids & Hall).
    cbn [composite_miner_ids].
    destruct (evm_address_pattern_match id) as [[address [suffix|]]|] eqn:Hm.
    + destruct (composite_miner_ids nvidia_smi (S i) rest) as [msgs res].
      cbn [snd] in *. subst res. eexists. split; [reflexivity|].
      constructor; [|exact Hall]. exists id. split; [reflexivity|now left].
    + destruct (nvidia_smi i) as [output| |] eqn:Hout;
        [destruct (short_uuid output i) as [short|] eqn:Hshort| |];
        try (now destruct (Hsmi i));
        destruct (composite_miner_ids nvidia_smi (S i) rest) as [msgs res];
        cbn [snd] in *; subst res; eexists; (split; [reflexivity|]);
        (constructor; [|exact Hall]); exists id; (split; [reflexivity|]).
      * right. exists address, short.
        split; [exact Hm|]. split; [reflexivity|].
        exact (short_uuid_length _ _ _ Hshort).
      * now left.
      * now left.
    + destruct (composite_miner_ids nvidia_smi (S i) rest) as [msgs res].
      cbn [snd] in *. subst res. eexists. split; [reflexivity|].
      constructor; [|exact Hall]. exists id. split; [reflexivity|now left].
Qed.

(** X19.  When every [MINER_ID_i] of a configured device is set, the
    wallet check passes (or is skipped) and [nvidia-smi] does not fail
    beyond [CalledProcessError], [_load_and_validate_miner_ids] returns
    one id per device, in order; each is the configured id itself or,
    for a bare address, the address followed by a hyphen and at most six
    characters of the GPU UUID. *)
Theorem load_and_validate_miner_ids_one_per_device :
  forall (getenv : nat -> option string) (n_cuda_devices : Z)
         (skip_signature : bool)
         (validate_miner_keys : list (option string) -> bool)
         (nvidia_smi : nat -> smi_outcome),
    (forall i, (i < Z.to_nat n_cuda_devices)%nat -> getenv i <> None) ->
    skip_signature = true
    \/ validate_miner_keys (map getenv (seq 0 (Z.to_nat n_cuda_devices))) = true ->
    (forall i, nvidia_smi i <> SmiOtherError) ->
    exists ids,
      snd (_load_and_validate_miner_ids getenv n_cuda_devices skip_signature
                                        validate_miner_keys nvidia_smi)
      = inr ids
      /\ List.length ids = Z.to_nat n_cuda_devices
      /\ Forall2 (fun o c => exists id, o = Some id /\ composite_of id c)
                 (map getenv (seq 0 (Z.to_nat n_cuda_devices))) ids.
Proof.
  intros getenv n skip validate smi Hset Hkeys Hsmi.
  unfold _load_and_validate_miner_ids.
  assert (Hgate : negb skip && negb (validate (map getenv (seq 0 (Z.to_nat n))))
                  = false).
  { destruct Hkeys as [-> | ->]; [reflexivity|apply andb_false_r]. }
  rewrite Hgate.
  destruct (composite_miner_ids_shape smi (map getenv (seq 0 (Z.to_nat n)))
              Hsmi) with (i := 0%nat) as (ids & Hids & Hall).
  { apply Forall_forall. intros o Ho. apply in_map_iff in Ho.
    destruct Ho as (i & <- & Hi). apply in_seq in Hi. apply Hset. lia. }
  exists ids. repeat split; try assumption.
  apply Forall2_length in Hall. now rewrite length_map, length_seq in Hall.
Qed.

Lemma composite_miner_ids_missing (nvidia_smi : nat -> smi_outcome)
  (set : list (option string)) (rest : list (option string)) :
  (forall i, nvidia_smi i <> SmiOtherError) ->
  Forall (fun o => o <> None) set ->
  forall i,
  exists printed,
    composite_miner_ids nvidia_smi i (set ++ None :: rest)
    = (printed ++ [ErrorMinerIdNotFound (i + List.length set)],
       inl (MinerIdNotFound (i + List.length set))).
Proof.
  intros Hsmi Hset. induction Hset as [|o set Ho Hset IH]; intros i.
  - exists []. cbn. now rewrite Nat.add_0_r.
  - destruct o as [id|]; [|congruence].
    destruct (IH (S i)) as (printed & Hrec).
    cbn [app composite_miner_ids List.length].
    replace (i + S (List.length set))%nat with (S i + List.length set)%nat
      by lia.
    destruct (evm_address_pattern_match id) as [[address [suffix|]]|];
      [| destruct (nvidia_smi i) as [output| |] eqn:Hout;
         [destruct (short_uuid output i)| |now destruct (Hsmi i)] |];
      rewrite Hrec; eexists; rewrite app_assoc; reflexivity.
Qed.

(** X20.  When [MINER_ID_j] is the first variable of a configured device
    that is not set, [_load_and_validate_miner_ids] stops with the
    [ValueError] for GPU [j], and the last line it prints is the error
    message for that GPU. *)
Theorem load_and_validate_miner_ids_missing_id :
  forall (getenv : nat -> option string) (n_cuda_devices : Z)
         (skip_signature : bool)
         (validate_miner_keys : list (option string) -> bool)
         (nvidia_smi : nat -> smi_outcome) (j : nat),
    (j < Z.to_nat n_cuda_devices)%nat ->
    getenv j = None ->
    (forall i, (i < j)%nat -> getenv i <> None) ->
    skip_signature = true
    \/ validate_miner_keys (map getenv (seq 0 (Z.to_nat n_cuda_devices))) = true ->
    (forall i, nvidia_smi i <> SmiOtherError) ->
    exists printed,
      _load_and_validate_miner_ids getenv n_cuda_devices skip_signature
                                   validate_miner_keys nvidia_smi
      = (printed ++ [ErrorMinerIdNotFound j], inl (MinerIdNotFound j)).
Proof.
  intros getenv n skip validate smi j Hj Hnone Hset Hkeys Hsmi.
  unfold _load_and_validate_miner_ids.
  assert (Hgate : negb skip && negb (validate (map getenv (seq 0 (Z.to_nat n))))
                  = false).
  { destruct Hkeys as [-> | ->]; [reflexivity|apply andb_false_r]. }
  rewrite Hgate.
  replace (Z.to_nat n) with (j + S (Z.to_nat n - S j))%nat by lia.
  rewrite seq_app, map_app. cbn [seq map plus]. rewrite Hnone.
  destruct (composite_miner_ids_missing smi (map getenv (seq 0 j))
              (map getenv (seq (S j) (Z.to_nat n - S j))) Hsmi)
    with (i := 0%nat) as (printed & Hrun).
  { apply Forall_forall. intros o Ho. apply in_map_iff in Ho.
    destruct Ho as (i & <- & Hi). apply in_seq in Hi. apply Hset. lia. }
  rewrite length_map, length_seq in Hrun. cbn [plus] in Hrun.
  exists printed. exact Hrun.
Qed.

Lemma composite_miner_ids_not_bare (nvidia_smi : nat -> smi_outcome)
  (miner_ids : list (option string)) :
  Forall (fun o => exists id, o = Some id /\ not_bare id) miner_ids ->
  forall i,
  exists ids,
    snd (composite_miner_ids nvidia_smi i miner_ids) = inr ids
    /\ map Some ids = miner_ids.
Proof.
  intros Hall. induction Hall as [|o rest (id & -> & Hbare) Hrest IH];
    intros i.
  - exists []. split; reflexivity.
  - destruct (IH (S i)) as (ids & Hids & Hmap).
    cbn [composite_miner_ids].
    destruct (evm_address_pattern_match id) as [[address [suffix|]]|] eqn:Hm;
      [| now destruct (Hbare address) |];
      destruct (composite_miner_ids nvidia_smi (S i) rest) as [msgs res];
      cbn [snd] in *; subst res; exists (id :: ids);
      (split; [reflexivity|]); cbn [map]; now rewrite Hmap.
Qed.

(** X21.  Ids that are not bare addresses (an address with a suffix, or
    a text the pattern rejects) are returned as they are configured,
    whatever [nvidia-smi] does, even when it cannot be run at all. *)
Theorem load_and_validate_miner_ids_keeps_suffixed_ids :
  forall (getenv : nat -> option string) (n_cuda_devices : Z)
         (skip_signature : bool)
         (validate_miner_keys : list (option string) -> bool)
         (nvidia_smi : nat -> smi_outcome),
    (forall i, (i < Z.to_nat n_cuda_devices)%nat ->
               exists id, getenv i = Some id /\ not_bare id) ->
    skip_signature = true
    \/ validate_miner_keys (map getenv (seq 0 (Z.to_nat n_cuda_devices))) = true ->
    exists ids,
      snd (_load_and_validate_miner_ids getenv n_cuda_devices skip_signature
                                        validate_miner_keys nvidia_smi)
      = inr ids
      /\ map Some ids = map getenv (seq 0 (Z.to_nat n_cuda_devices)).
Proof.
  intros getenv n skip validate smi Hset Hkeys.
  unfold _load_and_validate_miner_ids.
  assert (Hgate : negb skip && negb (validate (map getenv (seq 0 (Z.to_nat n))))
                  = false).
  { destruct Hkeys as [-> | ->]; [reflexivity|apply andb_false_r]. }
  rewrite Hgate.
  apply composite_miner_ids_not_bare.
  apply Forall_forall. intros o Ho. apply in_map_iff in Ho.
  destruct Ho as (i & <- & Hi). apply in_seq in Hi. apply Hset. lia.
Qed.

Lemma take_append_exact (a b : string) :
  PyStr.take (String.length a) (a ++ b) = a.
Proof.
  induction a as [|c a IH]; cbn [String.length append PyStr.take].
  - now destruct b.
  - now rewrite IH.
Qed.

Lemma drop_append_exact (a b : string) :
  PyStr.drop (String.length a) (a ++ b) = b.
Proof.
  induction a as [|c a IH]; cbn [String.length append PyStr.drop].
  - now destruct b.
  - exact IH.
Qed.

Lemma prefix_append_keep (p a b : string) :
  prefix p a = true -> prefix p (a ++ b) = true.
Proof.
  revert a. induction p as [|c p IH]; intros a H.
  - now destruct (a ++ b)%string.
  - destruct a as [|x a]; [discriminate|]. cbn [append prefix] in *.
    destruct (ascii_dec c x); [now apply IH|discriminate].
Qed.

Lemma prefix_take_keep (p s : string) (n : nat) :
  prefix p s = true -> (String.length p <= n)%nat ->
  prefix p (PyStr.take n s) = true.
Proof.
  revert s n. induction p as [|c p IH]; intros s n H Hn.
  - now destruct (PyStr.take n s).
  - destruct s as [|x s]; [discriminate|].
    destruct n as [|n]; [cbn in Hn; lia|].
    cbn [PyStr.take prefix] in *.
    destruct (ascii_dec c x); [|discriminate].
    apply IH; [exact H|cbn in Hn; lia].
Qed.

Lemma span_all_chars (p : ascii -> bool) (s : string) :
  all_chars p s = true -> span p s = (s, EmptyString).
Proof.
  induction s as [|c s IH]; cbn [all_chars span]; [reflexivity|].
  intros H. apply andb_prop in H. destruct H as [Hc Hs].
  now rewrite Hc, (IH Hs).
Qed.

(** What a match without suffix says about the id. *)
Lemma evm_address_pattern_match_bare (miner_id address : string) :
  evm_address_pattern_match miner_id = Some (address, None) ->
  address = PyStr.take 42 miner_id
  /\ String.length address = 42%nat
  /\ prefix "0x" address = true
  /\ all_chars is_hex (PyStr.drop 2 address) = true.
Proof.
  unfold evm_address_pattern_match.
  destruct (prefix "0x" miner_id) eqn:Hp; [|discriminate].
  destruct (String.length (PyStr.take 42 miner_id) =? 42)%nat eqn:Hl;
    [|discriminate].
  destruct (all_chars is_hex (PyStr.drop 2 (PyStr.take 42 miner_id))) eqn:Hh;
    [|discriminate].
  cbn [andb]. apply Nat.eqb_eq in Hl.
  assert (Hpre : prefix "0x" (PyStr.take 42 miner_id) = true)
    by (apply prefix_take_keep; [exact Hp|cbn; lia]).
  destruct (PyStr.drop 42 miner_id) as [|c rest].
  - cbn [at_end]. intros H. injection H as <-. repeat split; assumption.
  - destruct (Ascii.eqb c "-"%char) eqn:Hc.
    + apply Ascii.eqb_eq in Hc. subst c.
      destruct (span is_word rest) as [run tail].
      destruct (negb (String.length run =? 0)%nat && at_end tail);
        discriminate.
    + assert (Hgen : (if at_end (String c rest)
                      then Some (PyStr.take 42 miner_id, @None string)
                      else None) = Some (address, None) ->
                     address = PyStr.take 42 miner_id
                     /\ String.length address = 42%nat
                     /\ prefix "0x" address = true
                     /\ all_chars is_hex (PyStr.drop 2 address) = true).
      { destruct (at_end (String c rest)); [|discriminate].
        intros H. injection H as <-. repeat split; assumption. }
      destruct c as [[] [] [] [] [] [] [] []]; try exact Hgen;
        discriminate.
Qed.

(** The composite id made for a bare address is an address with a
    suffix. *)
Lemma evm_address_pattern_match_composite (miner_id address short : string) :
  evm_address_pattern_match miner_id = Some (address, None) ->
  short <> EmptyString ->
  all_chars is_word short = true ->
  evm_address_pattern_match (address ++ "-" ++ short)
  = Some (address, Some (String "-"%char short)).
Proof.
  intros Hm Hne Hword.
  destruct (evm_address_pattern_match_bare _ _ Hm) as (_ & Hlen & Hpre & Hhex).
  assert (Htake : PyStr.take 42 (address ++ "-" ++ short) = address)
    by (rewrite <- Hlen; apply take_append_exact).
  assert (Hdrop : PyStr.drop 42 (address ++ "-" ++ short)
                  = String "-"%char short)
    by (rewrite <- Hlen; apply drop_append_exact).
  unfold evm_address_pattern_match. cbv zeta.
  rewrite Htake, Hdrop, Hlen, Hhex, (prefix_append_keep _ _ _ Hpre).
  cbn [andb Nat.eqb]. rewrite (span_all_chars _ _ Hword).
  destruct short as [|c short]; [congruence|]. reflexivity.
Qed.

(** X22.  The id made for a bare address from the GPU UUID (when the
    UUID segment is a non-empty run of letters, digits and underscores)
    is itself an address with a suffix: handed back to the loop, it is
    returned unchanged, with nothing printed and without [nvidia-smi]. *)
Theorem composite_miner_id_is_stable :
  forall (nvidia_smi : nat -> smi_outcome) (i : nat)
         (miner_id address output short : string),
    evm_address_pattern_match miner_id = Some (address, None) ->
    nvidia_smi i = SmiOutput output ->
    short_uuid output i = Some short ->
    short <> EmptyString ->
    all_chars is_word short = true ->
    composite_miner_ids nvidia_smi i [Some miner_id]
    = ([], inr [(address ++ "-" ++ short)%string])
    /\ forall (other_smi : nat -> smi_outcome) (k : nat),
         composite_miner_ids other_smi k [Some (address ++ "-" ++ short)%string]
         = ([], inr [(address ++ "-" ++ short)%string]).
Proof.
  intros smi i id address output short Hm Hout Hshort Hne Hword. split.
  - cbn [composite_miner_ids]. now rewrite Hm, Hout, Hshort.
  - intros other k. cbn [composite_miner_ids].
    now rewrite (evm_address_pattern_match_composite _ _ _ Hm Hne Hword).
Qed.

Lemma py_getitem_In {A : Type} (xs : list A) (k : Z) (x : A) :
  py_getitem xs k = Some x -> In x xs.
Proof.
  unfold py_getitem.
  destruct (_ && _); [apply nth_error_In|].
  destruct (_ && _); [apply nth_error_In|discriminate].
Qed.

Lemma py_getitem_in_range {A : Type} (xs : list A) (k : Z) :
  (0 <= k < Z.of_nat (List.length xs))%Z ->
  py_getitem xs k = nth_error xs (Z.to_nat k).
Proof.
  intros H. unfold py_getitem.
  replace ((0 <=? k)%Z && (k <? Z.of_nat (List.length xs))%Z) with true;
    [reflexivity|].
  symmetry. apply andb_true_intro. split; [apply Z.leb_le|apply Z.ltb_lt]; lia.
Qed.

Lemma nonempty_true (s : string) : nonempty s = true <-> s <> EmptyString.
Proof. destruct s; cbn; split; congruence. Qed.

(** X23.  When [_assign_miner_id] returns an id, it has printed nothing
    and the id is a non-empty element of the list.  With one configured
    device or none it is the first id, whatever the device index; with
    several devices a worker whose own id is the empty string is given
    the first id. *)
Theorem assign_miner_id_result :
  forall (n_cuda_devices : Z) (miner_ids : list string) (cuda_device_id : Z)
         (printed : list config_message) (id : string),
    _assign_miner_id n_cuda_devices miner_ids cuda_device_id
    = (printed, inr id) ->
    printed = []
    /\ In id miner_ids
    /\ id <> EmptyString
    /\ ((n_cuda_devices <= 1)%Z -> py_getitem miner_ids 0 = Some id)
    /\ (py_getitem miner_ids cuda_device_id = Some EmptyString ->
        py_getitem miner_ids 0 = Some id).
Proof.
  intros n ids dev printed id. unfold _assign_miner_id.
  assert (Hother :
            match py_getitem ids 0 with
            | Some first =>
                if nonempty first then ([], inr first)
                else ([ErrorNoMinerId], inl NoMinerId)
            | None => ([], inl MinerIdIndexError)
            end = (printed, inr id) ->
            printed = [] /\ In id ids /\ id <> EmptyString
            /\ py_getitem ids 0 = Some id).
  { destruct (py_getitem ids 0) as [first|] eqn:H0; [|discriminate].
    destruct (nonempty first) eqn:Hne; [|discriminate].
    intros H. injection H as <- <-. repeat split.
    - exact (py_getitem_In _ _ _ H0).
    - now apply nonempty_true. }
  destruct (n >? 1)%Z eqn:Hn.
  - apply Z.gtb_lt in Hn.
    destruct (py_getitem ids dev) as [own|] eqn:Hown; [|discriminate].
    destruct (nonempty own) eqn:Hne.
    + intros H. injection H as <- <-. repeat split.
      * exact (py_getitem_In _ _ _ Hown).
      * now apply nonempty_true.
      * lia.
      * intros H. injection H as ->. discriminate.
    + intros H. destruct (Hother H) as (-> & Hin & Hid & H0).
      repeat split; try assumption; intros _; exact H0.
  - intros H. destruct (Hother H) as (-> & Hin & Hid & H0).
    repeat split; try assumption; intros _; exact H0.
Qed.

Lemma Forall2_nth_error {A B : Type} (R : A -> B -> Prop)
  (xs : list A) (ys : list B) :
  Forall2 R xs ys ->
  forall k x, nth_error xs k = Some x ->
              exists y, nth_error ys k = Some y /\ R x y.
Proof.
  intros H. induction H as [|x0 y0 xs ys Hxy Hrest IH]; intros k x Hk.
  - destruct k; discriminate.
  - destruct k as [|k]; cbn [nth_error] in *.
    + injection Hk as <-. exists y0. split; [reflexivity|exact Hxy].
    + exact (IH k x Hk).
Qed.

Lemma composite_of_nonempty (id c : string) :
  id <> EmptyString -> composite_of id c -> c <> EmptyString.
Proof.
  intros Hid [->|(address & short & _ & -> & _)]; [exact Hid|].
  destruct address; discriminate.
Qed.

(** X24.  With several devices, the worker of device [d] is given the
    id made from its own variable [MINER_ID_d] (that id, or its address
    followed by a hyphen and a piece of the GPU UUID), provided the
    variable is set to a non-empty text, every variable of a configured
    device is set, the wallet check passes and [nvidia-smi] does not
    fail beyond [CalledProcessError]. *)
Theorem MinerConfig_miner_id_is_own_id :
  forall (getenv : nat -> option string) (n_cuda_devices : Z)
         (skip_signature : bool)
         (validate_miner_keys : list (option string) -> bool)
         (nvidia_smi : nat -> smi_outcome) (cuda_device_id : Z) (id : string),
    (1 < n_cuda_devices)%Z ->
    (0 <= cuda_device_id < n_cuda_devices)%Z ->
    getenv (Z.to_nat cuda_device_id) = Some id ->
    id <> EmptyString ->
    (forall i, (i < Z.to_nat n_cuda_devices)%nat -> getenv i <> None) ->
    skip_signature = true
    \/ validate_miner_keys (map getenv (seq 0 (Z.to_nat n_cuda_devices))) = true ->
    (forall i, nvidia_smi i <> SmiOtherError) ->
    exists composite,
      snd (MinerConfig_miner_id getenv n_cuda_devices skip_signature
                                validate_miner_keys nvidia_smi cuda_device_id)
      = inr composite
      /\ composite_of id composite.
Proof.
  intros getenv n skip validate smi dev id Hn Hdev Hown Hid Hset Hkeys Hsmi.
  unfold MinerConfig_miner_id, _load_and_validate_miner_ids.
  assert (Hgate : negb skip && negb (validate (map getenv (seq 0 (Z.to_nat n))))
                  = false).
  { destruct Hkeys as [-> | ->]; [reflexivity|apply andb_false_r]. }
  rewrite Hgate.
  destruct (composite_miner_ids_shape smi (map getenv (seq 0 (Z.to_nat n)))
              Hsmi) with (i := 0%nat) as (ids & Hids & Hall).
  { apply Forall_forall. intros o Ho. apply in_map_iff in Ho.
    destruct Ho as (i & <- & Hi). apply in_seq in Hi. apply Hset. lia. }
  destruct (composite_miner_ids smi 0 (map getenv (seq 0 (Z.to_nat n))))
    as [printed res]. cbn [snd] in Hids. subst res.
  assert (Hlen : List.length ids = Z.to_nat n).
  { apply Forall2_length in Hall.
    now rewrite length_map, length_seq in Hall. }
  assert (Hnth : nth_error (map getenv (seq 0 (Z.to_nat n))) (Z.to_nat dev)
                 = Some (Some id)).
  { rewrite nth_error_map, nth_error_seq.
    replace (Z.to_nat dev <? Z.to_nat n)%nat with true
      by (symmetry; apply Nat.ltb_lt; lia).
    cbn. now rewrite Hown. }
  destruct (Forall2_nth_error _ _ _ Hall _ _ Hnth)
    as (c & Hc & (id' & Heq & Hcomp)).
  injection Heq as <-.
  unfold _assign_miner_id.
  replace (n >? 1)%Z with true by (symmetry; apply Z.gtb_lt; lia).
  rewrite py_getitem_in_range by lia. rewrite Hc.
  replace (nonempty c) with true
    by (symmetry; apply nonempty_true;
        exact (composite_of_nonempty _ _ Hid Hcomp)).
  exists c. split; [reflexivity|exact Hcomp].
Qed.

(** ** [configure_logging] *)

Lemma prefix_split (p s : string) :
  prefix p s = true -> s = (p ++ PyStr.drop (String.length p) s)%string.
Proof.
  revert s. induction p as [|c p IH]; intros s H.
  - now destruct s.
  - destruct s as [|x s]; [discriminate|]. cbn [prefix] in H.
    destruct (ascii_dec c x) as [->|]; [|discriminate].
    cbn [String.length PyStr.drop append]. now rewrite <- (IH s H).
Qed.

Lemma prefix_of_take (p s : string) (n : nat) :
  prefix p (PyStr.take n s) = true -> p <> EmptyString -> prefix p s = true.
Proof.
  revert s n. induction p as [|c p IH]; intros s n H Hp; [congruence|].
  destruct s as [|x s]; [destruct n; discriminate|].
  destruct n as [|n]; [discriminate|]. cbn [PyStr.take prefix] in *.
  destruct (ascii_dec c x); [|discriminate].
  destruct p as [|d p]; [now destruct s|].
  apply (IH s n H). discriminate.
Qed.

(** Before its first occurrence, a text does not occur; the string is
    what precedes the occurrence, the text, and what follows. *)
Lemma find_first (p s : string) (n : nat) :
  p <> EmptyString ->
  PyStr.find p s = Some n ->
  PyStr.contains p (PyStr.take n s) = false
  /\ s = (PyStr.take n s ++ p ++ PyStr.drop (n + String.length p) s)%string.
Proof.
  intros Hp. revert n. induction s as [|c s IH]; intros n;
    cbn [PyStr.find].
  - destruct (prefix p EmptyString) eqn:Hpre; [|discriminate].
    destruct p; [congruence|discriminate].
  - destruct (prefix p (String c s)) eqn:Hpre.
    + intros H. injection H as <-. cbn [PyStr.take plus]. split.
      * cbn [PyStr.contains]. destruct p; [congruence|reflexivity].
      * exact (prefix_split _ _ Hpre).
    + destruct (PyStr.find p s) as [k|]; cbn [option_map]; [|discriminate].
      intros H. injection H as <-.
      destruct (IH k eq_refl) as [Hno Heq].
      cbn [PyStr.take plus PyStr.drop append PyStr.contains]. split.
      * rewrite Hno.
        destruct (prefix p (String c (PyStr.take k s))) eqn:Hcut;
          [|reflexivity].
        assert (Hfull : prefix p (String c s) = true).
        { apply (prefix_of_take p (String c s) (S k)); [exact Hcut|exact Hp]. }
        congruence.
      * now rewrite <- Heq.
Qed.

Lemma find_none_contains (p s : string) :
  PyStr.find p s = None -> PyStr.contains p s = false.
Proof. intros H. now rewrite contains_find, H. Qed.

Lemma split_first (sep s : string) :
  nth_error (PyStr.split sep s) 0
  = Some (match PyStr.find sep s with
          | Some n => PyStr.take n s
          | None => s
          end).
Proof.
  unfold PyStr.split. destruct (String.length s) as [|fuel] eqn:Hlen.
  - destruct s; [|discriminate]. cbn [PyStr.split_fuel nth_error PyStr.find].
    now destruct (prefix sep EmptyString).
  - cbn [PyStr.split_fuel]. now destruct (PyStr.find sep s).
Qed.

(** X25.  [configure_logging] hands [logging.basicConfig] append mode
    and a file name made of the part of [log_filename] before the first
    dot (the whole of it when it has no dot), then an underscore and
    the miner id when one is given, then [.log].  It returns when
    [logging.basicConfig] does and raises what it raises, never an
    [IndexError] of its own. *)
Theorem configure_logging_file_name :
  forall (logging_basicConfig : string -> string -> option exn)
         (log_filename : string) (miner_id : option string),
    exists base name,
      name = (base
              ++ match miner_id with
                 | Some id => "_" ++ id
                 | None => EmptyString
                 end
              ++ ".log")%string
      /\ PyStr.contains "." base = false
      /\ (log_filename = base
          \/ exists rest, log_filename = (base ++ "." ++ rest)%string)
      /\ match logging_basicConfig name "a" with
         | Some e =>
             configure_logging logging_basicConfig log_filename miner_id
             = Raise e
         | None =>
             exists setup,
               configure_logging logging_basicConfig log_filename miner_id
               = Ret setup
               /\ setup_filename setup = name
               /\ setup_filemode setup = "a"
         end.
Proof.
  intros logging_basicConfig log_filename miner_id.
  unfold configure_logging. rewrite split_first.
  assert (Hname : forall base : string,
             match miner_id with
             | Some id => (base ++ "_" ++ id ++ ".log")%string
             | None => (base ++ ".log")%string
             end
             = (base
                ++ match miner_id with
                   | Some id => "_" ++ id
                   | None => EmptyString
                   end
                ++ ".log")%string).
  { intros base. destruct miner_id; [|reflexivity].
    now rewrite !append_assoc. }
  destruct (PyStr.find "." log_filename) as [n|] eqn:Hfind.
  - destruct (find_first "." log_filename n ltac:(discriminate) Hfind)
      as [Hno Heq].
    exists (PyStr.take n log_filename). eexists.
    split; [reflexivity|]. split; [exact Hno|].
    split; [right; eexists; exact Heq|].
    rewrite Hname.
    destruct (logging_basicConfig _ "a"); [reflexivity|].
    eexists. split; [reflexivity|]. split; reflexivity.
  - exists log_filename. eexists.
    split; [reflexivity|]. split; [exact (find_none_contains _ _ Hfind)|].
    split; [now left|].
    rewrite Hname.
    destruct (logging_basicConfig _ "a"); [reflexivity|].
    eexists. split; [reflexivity|]. split; reflexivity.
Qed.

Lemma append_inv_head (a b c : string) :
  (a ++ b = a ++ c)%string -> b = c.
Proof.
  induction a as [|x a IH]; cbn [append]; [trivial|].
  intros H. injection H as H. exact (IH H).
Qed.

Lemma append_length (a b : string) :
  String.length (a ++ b) = (String.length a + String.length b)%nat.
Proof. induction a as [|x a IH]; cbn; [reflexivity|now rewrite IH]. Qed.

Lemma append_inv_tail (a b c : string) :
  (b ++ a = c ++ a)%string -> b = c.
Proof.
  revert c. induction b as [|x b IH]; intros c H.
  - destruct c as [|y c]; [reflexivity|].
    apply (f_equal String.length) in H. rewrite !append_length in H.
    cbn in H. lia.
  - destruct c as [|y c].
    + apply (f_equal String.length) in H. rewrite !append_length in H.
      cbn in H. lia.
    + cbn [append] in H. injection H as -> H. now rewrite (IH c H).
Qed.

(** X26.  For one [log_filename], two different miner ids never give the
    same log file: the file name determines the miner id. *)
Theorem configure_logging_file_name_injective :
  forall (logging_basicConfig : string -> string -> option exn)
         (log_filename id1 id2 : string) (setup1 setup2 : logging_setup),
    configure_logging logging_basicConfig log_filename (Some id1)
    = Ret setup1 ->
    configure_logging logging_basicConfig log_filename (Some id2)
    = Ret setup2 ->
    setup_filename setup1 = setup_filename setup2 ->
    id1 = id2.
Proof.
  intros logging_basicConfig log_filename id1 id2 setup1 setup2.
  unfold configure_logging.
  destruct (nth_error (PyStr.split "." log_filename) 0) as [base|];
    [|discriminate].
  destruct (logging_basicConfig _ "a"); [discriminate|].
  destruct (logging_basicConfig _ "a"); [discriminate|].
  intros H1 H2. injection H1 as <-. injection H2 as <-.
  cbn [setup_filename]. intros H.
  apply append_inv_head in H. cbn [append] in H. injection H as H.
  exact (append_inv_tail _ _ _ H).
Qed.

(** ** The further theorems at work on the sample data *)

Lemma check_and_reload_model_posts_signal_when_due_witness :
  (sample_clock 0 - 0 >= reload_interval sample_config)%Q
  /\ loaded_models sample_config = []
  /\ loaded_loras sample_config = []
  /\ posted (events (snd (check_and_reload_model sample_clock no_answer
                            one_local_model sample_reload_model 0%Q
                            sample_world)))
     = [("https://signal.example/miner_signal",
         MinerSignal (mkMinerSignal (miner_id sample_config) "SD" "sd-v1.3.1"
                                    false))]
  /\ In (ELog WARNING "No loaded models found. Posting to miner_signal to load a new model.")
        (events (snd (check_and_reload_model sample_clock no_answer
                        one_local_model sample_reload_model 0%Q
                        sample_world))).
Proof.
  assert (Hdue : (sample_clock 0 - 0 >= reload_interval sample_config)%Q)
    by (vm_compute; discriminate).
  destruct (proj1 (check_and_reload_model_posts_signal_when_due
                     sample_clock no_answer one_local_model
                     sample_reload_model 0%Q sample_world) Hdue)
    as [Hposted Hwarn].
  split; [exact Hdue|]. split; [reflexivity|]. split; [reflexivity|].
  split; [exact Hposted|exact (Hwarn eq_refl eq_refl)].
Defined.

Lemma process_jobs_submits_complete_job_witness :
  one_local_model (cfg sample_world) <> []
  /\ fst (process_jobs sample_clock (answer_with disk_body) sample_log_response
                       sample_hardware one_local_model sample_world)
     = Ret true
  /\ submitted (events (snd (process_jobs sample_clock (answer_with disk_body)
                               sample_log_response sample_hardware
                               one_local_model sample_world)))
     = [(sample_job, sample_clock 4, (sample_clock 3 - sample_clock 2)%Q)].
Proof.
  assert (Hlocal : one_local_model (cfg sample_world) <> []) by discriminate.
  destruct (process_jobs_submits_complete_job
              sample_clock (answer_with disk_body) sample_log_response
              sample_hardware one_local_model sample_world
              (mkResponse true 200 disk_body (Some None)) sample_job
              "7f3a" "m1" "credentials"
              Hlocal eq_refl eq_refl eq_refl eq_refl eq_refl)
    as (Hret & Hsub & _).
  split; [exact Hlocal|]. split; [exact Hret|exact Hsub].
Defined.

Lemma process_jobs_incomplete_job_raises_witness :
  one_local_model (cfg sample_world) <> []
  /\ temp_credentials job_without_credentials = None
  /\ fst (process_jobs sample_clock (answer_with disk_body)
                       incomplete_log_response sample_hardware
                       one_local_model sample_world)
     = Raise KeyError
  /\ submitted (events (snd (process_jobs sample_clock (answer_with disk_body)
                               incomplete_log_response sample_hardware
                               one_local_model sample_world)))
     = []
  /\ In (ELog INFO "Processing Request ID: 7f3a. Model ID: m1.")
        (events (snd (process_jobs sample_clock (answer_with disk_body)
                        incomplete_log_response sample_hardware
                        one_local_model sample_world))).
Proof.
  assert (Hlocal : one_local_model (cfg sample_world) <> []) by discriminate.
  destruct (process_jobs_incomplete_job_raises
              sample_clock (answer_with disk_body) incomplete_log_response
              sample_hardware one_local_model sample_world
              (mkResponse true 200 disk_body (Some None))
              job_without_credentials
              Hlocal eq_refl eq_refl (or_intror (or_intror eq_refl)))
    as (Hret & Hsub & Hlog).
  split; [exact Hlocal|]. split; [reflexivity|]. split; [exact Hret|].
  split; [exact Hsub|exact (Hlog "7f3a" "m1" eq_refl eq_refl)].
Defined.

Lemma process_jobs_prefers_adapter_witness :
  one_local_model (cfg adapter_world) <> []
  /\ exists request,
       miner_requests (events (snd (process_jobs sample_clock no_answer
                                      sample_log_response sample_hardware
                                      one_local_model adapter_world)))
       = miner_requests (events adapter_world) ++ [request]
       /\ req_model_id request = Some "lora-7"
       /\ req_min_deadline request = 1%Z.
Proof.
  assert (Hlocal : one_local_model (cfg adapter_world) <> []) by discriminate.
  split; [exact Hlocal|].
  exact (process_jobs_prefers_adapter sample_clock no_answer
           sample_log_response sample_hardware one_local_model adapter_world
           Hlocal).
Defined.

Lemma worker_iteration_sleeps_unless_submitted_witness :
  worker_iteration sample_clock no_answer sample_log_response sample_hardware
                   one_local_model sample_reload_model 990%Q sample_world
  = (Ret 990%Q,
     snd (worker_iteration sample_clock no_answer sample_log_response
                           sample_hardware one_local_model sample_reload_model
                           990%Q sample_world))
  /\ ((exists s,
          submitted (events (snd (worker_iteration sample_clock no_answer
                                    sample_log_response sample_hardware
                                    one_local_model sample_reload_model
                                    990%Q sample_world)))
          = submitted (events sample_world) ++ [s]
          /\ sleeps (events (snd (worker_iteration sample_clock no_answer
                                    sample_log_response sample_hardware
                                    one_local_model sample_reload_model
                                    990%Q sample_world)))
             = sleeps (events sample_world))
      \/ (submitted (events (snd (worker_iteration sample_clock no_answer
                                    sample_log_response sample_hardware
                                    one_local_model sample_reload_model
                                    990%Q sample_world)))
          = submitted (events sample_world)
          /\ sleeps (events (snd (worker_iteration sample_clock no_answer
                                    sample_log_response sample_hardware
                                    one_local_model sample_reload_model
                                    990%Q sample_world)))
             = sleeps (events sample_world)
               ++ [sleep_duration
                     (cfg (snd (worker_iteration sample_clock no_answer
                                  sample_log_response sample_hardware
                                  one_local_model sample_reload_model
                                  990%Q sample_world)))])).
Proof.
  assert (Hrun : worker_iteration sample_clock no_answer sample_log_response
                   sample_hardware one_local_model sample_reload_model
                   990%Q sample_world
                 = (Ret 990%Q,
                    snd (worker_iteration sample_clock no_answer
                           sample_log_response sample_hardware one_local_model
                           sample_reload_model 990%Q sample_world)))
    by (vm_compute; reflexivity).
  split; [exact Hrun|].
  exact (worker_iteration_sleeps_unless_submitted
           sample_clock no_answer sample_log_response sample_hardware
           one_local_model sample_reload_model 990%Q 990%Q sample_world _ Hrun).
Defined.

Lemma main_loop_no_signal_before_interval_witness :
  (forall k, (S (ticks sample_world) <= k < S (ticks sample_world) + 6 * 3)%nat ->
             (sample_clock k - sample_clock (ticks sample_world)
              < reload_interval (cfg sample_world))%Q)
  /\ signals (events (snd (main_from_loop sample_clock no_answer
                             sample_log_response sample_hardware
                             one_local_model sample_reload_model 3
                             sample_world)))
     = []
  /\ reloads (events (snd (main_from_loop sample_clock no_answer
                             sample_log_response sample_hardware
                             one_local_model sample_reload_model 3
                             sample_world)))
     = [].
Proof.
  assert (Hwin : forall k,
             (S (ticks sample_world) <= k < S (ticks sample_world) + 6 * 3)%nat ->
             (sample_clock k - sample_clock (ticks sample_world)
              < reload_interval (cfg sample_world))%Q).
  { intros k Hk.
    change (reload_interval (cfg sample_world)) with 600%Q.
    change (ticks sample_world) with 0%nat in Hk |- *.
    unfold sample_clock, Qlt, Qminus, Qplus, Qopp, inject_Z.
    cbn [Qnum Qden]. lia. }
  split; [exact Hwin|].
  exact (main_loop_no_signal_before_interval
           sample_clock no_answer sample_log_response sample_hardware
           one_local_model sample_reload_model 3 sample_world Hwin).
Defined.

Lemma parse_log_file_counts_lines_witness :
  has_marker marker_line = true
  /\ count_markers [device_line; accept_line] = 0%nat
  /\ parse_log_file sample_json_loads sample_gpu_usage log_two_runs
     = Ret (mkRunMetrics [37%Z] 1 0 0 (PyNum.PyInt 0) 1)
  /\ count_lines (counted sample_json_loads is_acceptance)
                 [device_line; accept_line] = 1%Z
  /\ count_lines (counted sample_json_loads is_completion)
                 [device_line; accept_line] = 0%Z
  /\ count_lines (counted sample_json_loads is_warning)
                 [device_line; accept_line] = 0%Z.
Proof.
  assert (Hrun : parse_log_file sample_json_loads sample_gpu_usage
                   log_two_runs
                 = Ret (mkRunMetrics [37%Z] 1 0 0 (PyNum.PyInt 0) 1))
    by (vm_compute; reflexivity).
  destruct (parse_log_file_counts_lines
              sample_json_loads sample_gpu_usage
              [marker_line; device_line; accept_line; complete_line; accept_line]
              [device_line; accept_line] marker_line
              (mkRunMetrics [37%Z] 1 0 0 (PyNum.PyInt 0) 1)
              eq_refl eq_refl Hrun)
    as (Hnum & Hsucc & Hfail & _).
  split; [reflexivity|]. split; [reflexivity|]. split; [exact Hrun|].
  split; [now rewrite <- Hnum|]. split; [now rewrite <- Hsucc|].
  now rewrite <- Hfail.
Defined.

Lemma parse_log_file_returns_iff_no_line_raises_witness :
  has_marker marker_line = true
  /\ count_markers [accept_line; nested_response_line; unreadable_line]
     = 0%nat
  /\ line_error sample_json_loads accept_line = None
  /\ line_error sample_json_loads nested_response_line = Some RecursionError
  /\ line_error sample_json_loads unreadable_line = Some ValueError
  /\ parse_log_file sample_json_loads sample_gpu_usage
                    [marker_line; accept_line; nested_response_line;
                     unreadable_line]
     = Raise RecursionError.
Proof.
  split; [reflexivity|]. split; [vm_compute; reflexivity|].
  split; [vm_compute; reflexivity|]. split; [vm_compute; reflexivity|].
  split; [vm_compute; reflexivity|].
  apply (proj1 (proj2 (parse_log_file_returns_iff_no_line_raises
                         sample_json_loads sample_gpu_usage []
                         [accept_line; nested_response_line; unreadable_line]
                         marker_line eq_refl
                         ltac:(vm_compute; reflexivity)))
               [accept_line] nested_response_line [unreadable_line]
               RecursionError eq_refl).
  - intros l [<-|[]]. vm_compute. reflexivity.
  - vm_compute. reflexivity.
Defined.

Lemma parse_log_file_stop_iteration_iff_no_marker_witness :
  count_markers log_no_marker = 0%nat
  /\ parse_log_file sample_json_loads sample_gpu_usage log_no_marker
     = Raise StopIteration.
Proof.
  split; [reflexivity|].
  apply (proj1 (parse_log_file_stop_iteration_iff_no_marker
                  sample_json_loads sample_gpu_usage log_no_marker)).
  reflexivity.
Defined.

Lemma supervisor_spawns_and_joins_every_device_witness :
  (num_cuda_devices (cfg two_device_world) <= 2)%Z
  /\ exists before,
       supervisor 2 two_device_world
       = (Ret tt,
          mkWorld (cfg two_device_world) 0 0
                  (before
                   ++ [ELog INFO RUN_MARKER; EThreadStart "display_data_thread"]
                   ++ [ESpawn 0; ESpawn 1] ++ [EJoin 0; EJoin 1]))
       /\ spawned before = []
       /\ (In ECompareChecksums before
           <-> skip_checksum (cfg two_device_world) = false).
Proof.
  assert (Hle : (num_cuda_devices (cfg two_device_world) <= 2)%Z)
    by (vm_compute; discriminate).
  split; [exact Hle|].
  exact (supervisor_spawns_and_joins_every_device 2 two_device_world Hle).
Defined.

Lemma load_and_validate_miner_ids_one_per_device_witness :
  (forall i, (i < Z.to_nat 2)%nat -> sample_getenv i <> None)
  /\ (forall i, smi_answers i <> SmiOtherError)
  /\ exists ids,
       snd (_load_and_validate_miner_ids sample_getenv 2 true accept_keys
                                         smi_answers)
       = inr ids
       /\ List.length ids = Z.to_nat 2
       /\ Forall2 (fun o c => exists id, o = Some id /\ composite_of id c)
                  (map sample_getenv (seq 0 (Z.to_nat 2))) ids.
Proof.
  assert (Hset : forall i, (i < Z.to_nat 2)%nat -> sample_getenv i <> None).
  { intros [|[|i]] Hi; try discriminate. cbn in Hi. lia. }
  assert (Hsmi : forall i, smi_answers i <> SmiOtherError)
    by (intros i; discriminate).
  split; [exact Hset|]. split; [exact Hsmi|].
  exact (load_and_validate_miner_ids_one_per_device
           sample_getenv 2 true accept_keys smi_answers
           Hset (or_introl eq_refl) Hsmi).
Defined.

Lemma load_and_validate_miner_ids_missing_id_witness :
  (2 < Z.to_nat 3)%nat
  /\ sample_getenv 2 = None
  /\ (forall i, (i < 2)%nat -> sample_getenv i <> None)
  /\ exists printed,
       _load_and_validate_miner_ids sample_getenv 3 true accept_keys smi_answers
       = (printed ++ [ErrorMinerIdNotFound 2], inl (MinerIdNotFound 2)).
Proof.
  assert (Hlt : (2 < Z.to_nat 3)%nat) by (cbn; lia).
  assert (Hset : forall i, (i < 2)%nat -> sample_getenv i <> None).
  { intros [|[|i]] Hi; try discriminate. lia. }
  split; [exact Hlt|]. split; [reflexivity|]. split; [exact Hset|].
  exact (load_and_validate_miner_ids_missing_id
           sample_getenv 3 true accept_keys smi_answers 2
           Hlt eq_refl Hset (or_introl eq_refl)
           (fun i => ltac:(discriminate))).
Defined.

Lemma load_and_validate_miner_ids_keeps_suffixed_ids_witness :
  (forall i, (i < Z.to_nat 2)%nat ->
             exists id, suffixed_getenv i = Some id /\ not_bare id)
  /\ exists ids,
       snd (_load_and_validate_miner_ids suffixed_getenv 2 true accept_keys
                                         smi_unavailable)
       = inr ids
       /\ map Some ids = map suffixed_getenv (seq 0 (Z.to_nat 2)).
Proof.
  assert (Hset : forall i, (i < Z.to_nat 2)%nat ->
                           exists id, suffixed_getenv i = Some id /\ not_bare id).
  { intros [|i] _; eexists; (split; [reflexivity|]);
      intros address; vm_compute; discriminate. }
  split; [exact Hset|].
  exact (load_and_validate_miner_ids_keeps_suffixed_ids
           suffixed_getenv 2 true accept_keys smi_unavailable
           Hset (or_introl eq_refl)).
Defined.

Lemma composite_miner_id_is_stable_witness :
  evm_address_pattern_match bare_address = Some (bare_address, None)
  /\ short_uuid smi_two_gpus 0 = Some "7bac77"
  /\ all_chars is_word "7bac77" = true
  /\ composite_miner_ids smi_answers 0 [Some bare_address]
     = ([], inr [(bare_address ++ "-" ++ "7bac77")%string])
  /\ composite_miner_ids smi_unavailable 5
       [Some (bare_address ++ "-" ++ "7bac77")%string]
     = ([], inr [(bare_address ++ "-" ++ "7bac77")%string]).
Proof.
  destruct (composite_miner_id_is_stable
              smi_answers 0 bare_address bare_address smi_two_gpus "7bac77"
              eq_refl eq_refl eq_refl ltac:(discriminate) eq_refl)
    as [Hfirst Hagain].
  split; [reflexivity|]. split; [reflexivity|]. split; [reflexivity|].
  split; [exact Hfirst|exact (Hagain smi_unavailable 5%nat)].
Defined.

Lemma assign_miner_id_result_witness :
  _assign_miner_id 2 [bare_address; EmptyString] 1 = ([], inr bare_address)
  /\ In bare_address [bare_address; EmptyString]
  /\ bare_address <> EmptyString
  /\ py_getitem [bare_address; EmptyString] 0 = Some bare_address.
Proof.
  assert (Hrun : _assign_miner_id 2 [bare_address; EmptyString] 1
                 = ([], inr bare_address)) by reflexivity.
  destruct (assign_miner_id_result 2 [bare_address; EmptyString] 1 []
              bare_address Hrun)
    as (_ & Hin & Hne & _ & Hfallback).
  split; [exact Hrun|]. split; [exact Hin|]. split; [exact Hne|].
  exact (Hfallback eq_refl).
Defined.

Lemma MinerConfig_miner_id_is_own_id_witness :
  (1 < 2)%Z /\ (0 <= 1 < 2)%Z
  /\ sample_getenv (Z.to_nat 1) = Some (bare_address ++ "-rig_2")%string
  /\ exists composite,
       snd (MinerConfig_miner_id sample_getenv 2 true accept_keys smi_answers 1)
       = inr composite
       /\ composite_of (bare_address ++ "-rig_2") composite.
Proof.
  assert (Hset : forall i, (i < Z.to_nat 2)%nat -> sample_getenv i <> None).
  { intros [|[|i]] Hi; try discriminate. cbn in Hi. lia. }
  split; [lia|]. split; [lia|]. split; [reflexivity|].
  exact (MinerConfig_miner_id_is_own_id
           sample_getenv 2 true accept_keys smi_answers 1
           (bare_address ++ "-rig_2") ltac:(lia) ltac:(lia) eq_refl
           ltac:(discriminate) Hset (or_introl eq_refl)
           (fun i => ltac:(discriminate))).
Defined.

(** A directory of logs that does not exist makes [configure_logging]
    raise what [logging.basicConfig] raises. *)
Example configure_logging_missing_directory :
  configure_logging sample_basicConfig "logs/miner.log" (Some "gpu0")
  = Raise FileNotFoundError.
Proof. reflexivity. Qed.

Lemma configure_logging_file_name_injective_witness :
  configure_logging sample_basicConfig "llm-miner.log" (Some "gpu0")
  = Ret (mkLoggingSetup
           "Configuring log level to: INFO. Log file name: llm-miner_gpu0.log"
           "uvicorn.access" "llm-miner_gpu0.log" "a"
           "%(asctime)s - %(name)s - %(levelname)s - %(message)s" INFO)
  /\ "gpu0" = "gpu0".
Proof.
  assert (Hrun : configure_logging sample_basicConfig "llm-miner.log"
                                   (Some "gpu0")
                 = Ret (mkLoggingSetup
                          "Configuring log level to: INFO. Log file name: llm-miner_gpu0.log"
                          "uvicorn.access" "llm-miner_gpu0.log" "a"
                          "%(asctime)s - %(name)s - %(levelname)s - %(message)s"
                          INFO))
    by reflexivity.
  split; [exact Hrun|].
  exact (configure_logging_file_name_injective
           sample_basicConfig "llm-miner.log" "gpu0" "gpu0" _ _ Hrun Hrun
           eq_refl).
Defined.
